(** * diting/logger: handler composition, daily rotation, retention, lifecycle

    A shallow embedding of package [logger] (second design iteration, the one
    with [LogOutput], [fileHandlerWrapper] and [TerminalHandler]) together with
    the small part of Go's runtime it talks to: strings, [path/filepath],
    [time], [errors], [os] files and [log/slog] handlers.

    Go state is threaded explicitly: every method takes the world before the
    call and returns its result with the world after it. *)

From Stdlib Require Import ZArith Lia Ascii String List Bool.
From stdpp Require Import base option list sorting gmap strings.

Set Warnings "-register-all".

Local Open Scope Z_scope.

(* ===================================================================== *)
(** ** Package [strings]                                                  *)
(* ===================================================================== *)

Module Strings.

(** [strings.HasPrefix s prefix]. *)
Fixpoint HasPrefix (s prefix : string) {struct prefix} : bool :=
  match prefix, s with
  | EmptyString, _ => true
  | String _ _, EmptyString => false
  | String a p', String b s' => if Ascii.eqb a b then HasPrefix s' p' else false
  end.

(** [strings.TrimPrefix s prefix]: [s] without the leading [prefix], or [s]
    itself when it does not start with it. *)
Fixpoint drop (n : nat) (s : string) : string :=
  match n, s with
  | O, _ => s
  | S _, EmptyString => EmptyString
  | S n', String _ s' => drop n' s'
  end.

Fixpoint take (n : nat) (s : string) : string :=
  match n, s with
  | O, _ => EmptyString
  | S _, EmptyString => EmptyString
  | S n', String a s' => String a (take n' s')
  end.

Definition TrimPrefix (s prefix : string) : string :=
  if HasPrefix s prefix then drop (String.length prefix) s else s.

(** [strings.HasSuffix s suffix]:
    [len(s) >= len(suffix) && s[len(s)-len(suffix):] == suffix]. *)
Definition HasSuffix (s suffix : string) : bool :=
  (String.length suffix <=? String.length s)%nat &&
  String.eqb (drop (String.length s - String.length suffix) s) suffix.

(** [strings.TrimSuffix s suffix]. *)
Definition TrimSuffix (s suffix : string) : string :=
  if HasSuffix s suffix
  then take (String.length s - String.length suffix) s
  else s.

(** [strings.Split s "/"]: the pieces between the slashes; never empty. *)
Fixpoint split_slash (s : string) : list string :=
  match s with
  | EmptyString => [EmptyString]
  | String c s' =>
      if Ascii.eqb c "/"%char then EmptyString :: split_slash s'
      else match split_slash s' with
           | x :: xs => String c x :: xs
           | [] => [String c EmptyString]
           end
  end.

(** [strings.Join elems "/"]. *)
Fixpoint join_slash (elems : list string) : string :=
  match elems with
  | [] => EmptyString
  | [e] => e
  | e :: rest => e +:+ "/" +:+ join_slash rest
  end.

(** No byte of [s] is a slash. *)
Fixpoint no_slash (s : string) : bool :=
  match s with
  | EmptyString => true
  | String c s' => negb (Ascii.eqb c "/"%char) && no_slash s'
  end.

End Strings.

(* ===================================================================== *)
(** ** Package [path/filepath] (Unix)                                     *)
(* ===================================================================== *)

Module Filepath.
Import Strings.

(** One element of the path consumed by [Clean]; [out] is the stack of the
    elements kept so far, last one first. *)
Definition clean_step (rooted : bool) (out : list string) (e : string)
  : list string :=
  if String.eqb e "" || String.eqb e "." then out
  else if String.eqb e ".." then
    match out with
    | top :: rest => if String.eqb top ".." then e :: out else rest
    | [] => if rooted then [] else [e]
    end
  else e :: out.

(** [filepath.Clean]: the shortest path name equivalent to [path] by purely
    lexical processing. *)
Definition Clean (path : string) : string :=
  if String.eqb path "" then "."
  else
    let rooted := HasPrefix path "/" in
    let out := fold_left (clean_step rooted) (split_slash path) [] in
    let body := join_slash (rev out) in
    let res := if rooted then "/" +:+ body else body in
    if String.eqb res "" then "." else res.

(** [filepath.Join dir name]: the first non-empty element onwards, joined
    with slashes and cleaned; the empty string when both are empty. *)
Definition Join (dir name : string) : string :=
  if String.eqb dir "" then
    if String.eqb name "" then "" else Clean name
  else Clean (dir +:+ "/" +:+ name).

(** The last element of a path: what follows its last slash. *)
Definition lastElem (path : string) : string :=
  List.last (split_slash path) "".

End Filepath.

(* ===================================================================== *)
(** ** Package [time]                                                     *)
(* ===================================================================== *)

Module Time.

(** A [time.Time]: an instant, in nanoseconds since the Unix epoch, and the
    offset from UTC that its location has at that instant, in seconds
    east. *)
Record Time := mkTime { unixNano : Z; zoneOffset : Z }.

Definition nsPerSecond : Z := 1000000000.
Definition secondsPerDay : Z := 86400.
Definition nsPerDay : Z := secondsPerDay * nsPerSecond.

Definition isLeap (year : Z) : bool :=
  (year mod 4 =? 0) && (negb (year mod 100 =? 0) || (year mod 400 =? 0)).

(** [daysIn m year]: the number of days of month [m] in [year]. *)
Definition daysIn (m year : Z) : Z :=
  if m =? 2 then (if isLeap year then 29 else 28)
  else if (m =? 4) || (m =? 6) || (m =? 9) || (m =? 11) then 30
  else 31.

(** Days from 1970-01-01 to the proleptic Gregorian date [y-m-d]; linear in
    [d], so out-of-range days normalise the way [time.Date] does. *)
Definition daysFromCivil (y m d : Z) : Z :=
  let y' := if m <=? 2 then y - 1 else y in
  let era := y' / 400 in
  let yoe := y' - era * 400 in
  let mp := if 2 <? m then m - 3 else m + 9 in
  let doy := (153 * mp + 2) / 5 + d - 1 in
  let doe := yoe * 365 + yoe / 4 - yoe / 100 + doy in
  era * 146097 + doe - 719468.

(** The proleptic Gregorian date of a day number: (year, month, day). *)
Definition civilFromDays (z : Z) : Z * Z * Z :=
  let z' := z + 719468 in
  let era := z' / 146097 in
  let doe := z' - era * 146097 in
  let yoe := (doe - doe / 1460 + doe / 36524 - doe / 146096) / 365 in
  let doy := doe - (365 * yoe + yoe / 4 - yoe / 100) in
  let mp := (5 * doy + 2) / 153 in
  let d := doy - (153 * mp + 2) / 5 + 1 in
  let m := if mp <? 10 then mp + 3 else mp - 9 in
  let y := yoe + era * 400 in
  (if m <=? 2 then y + 1 else y, m, d).

(** [t.Date()]: the date of [t] in its own location. *)
Definition Date (t : Time) : Z * Z * Z :=
  civilFromDays ((unixNano t / nsPerSecond + zoneOffset t) / secondsPerDay).

Definition digitChar (d : Z) : ascii := ascii_of_nat (48 + Z.to_nat (d mod 10)).

(** The decimal digits of [u >= 0], most significant first, in front of
    [acc]; [fuel] bounds the number of digits. *)
Fixpoint digits (fuel : nat) (u : Z) (acc : string) : string :=
  let acc' := String (digitChar u) acc in
  match fuel with
  | O => acc'
  | S fuel' => if u <? 10 then acc' else digits fuel' (u / 10) acc'
  end.

Fixpoint zeros (n : nat) (s : string) : string :=
  match n with O => s | S n' => String "0"%char (zeros n' s) end.

(** [appendInt]: [x] in decimal, zero-padded to [width], a minus sign in
    front of a negative number. *)
Definition appendInt (x : Z) (width : nat) : string :=
  let u := Z.abs x in
  let ds := digits (Z.to_nat (Z.log2 u)) u "" in
  let body := zeros (width - String.length ds) ds in
  if x <? 0 then String "-"%char body else body.

(** [t.Format("2006-01-02")]. *)
Definition Format_date (t : Time) : string :=
  let '(y, m, d) := Date t in
  appendInt y 4 +:+ "-" +:+ appendInt m 2 +:+ "-" +:+ appendInt d 2.

Definition digitVal (c : ascii) : option Z :=
  let n := Z.of_nat (nat_of_ascii c) in
  if (48 <=? n) && (n <=? 57) then Some (n - 48) else None.

(** [getnum(s, true)]: exactly two digits. *)
Definition getnum2 (a b : ascii) : option Z :=
  match digitVal a, digitVal b with
  | Some x, Some y => Some (x * 10 + y)
  | _, _ => None
  end.

(** [time.Parse("2006-01-02", value)]: four digits of year, a dash, two
    digits of month, a dash, two digits of day and nothing else; the month
    must be 1..12 and the day must exist in that month.  The result is
    midnight UTC of that date. *)
Definition Parse_date (value : string) : option Time :=
  match value with
  | String y1 (String y2 (String y3 (String y4 (String s1
      (String m1 (String m2 (String s2 (String d1 (String d2 EmptyString)))))))))
    =>
      match getnum2 y1 y2, getnum2 y3 y4, getnum2 m1 m2, getnum2 d1 d2 with
      | Some yh, Some yl, Some month, Some day =>
          let year := yh * 100 + yl in
          if Ascii.eqb s1 "-"%char && Ascii.eqb s2 "-"%char
             && (1 <=? month) && (month <=? 12)
             && (1 <=? day) && (day <=? daysIn month year)
          then Some (mkTime (daysFromCivil year month day * nsPerDay) 0)
          else None
      | _, _, _, _ => None
      end
  | _ => None
  end.

(** [time.Date(y, m, d, hh, mm, 0, 0, UTC)], used to write timestamps. *)
Definition utc (y m d hh mm : Z) : Time :=
  mkTime ((daysFromCivil y m d * secondsPerDay + hh * 3600 + mm * 60) * nsPerSecond) 0.

End Time.

(* ===================================================================== *)
(** ** Package [errors] and [fmt.Errorf]                                  *)
(* ===================================================================== *)

(** Go error values, as far as this package builds and inspects them. *)
Inductive error : Type :=
| errors_New (msg : string)                    (* errors.New, fmt.Errorf without %w *)
| fmt_Errorf (msg : string) (cause : error)    (* fmt.Errorf(msg + "%w", cause) *)
| PathError (op path : string) (cause : error) (* *fs.PathError *)
| errors_Join (errs : list error).             (* errors.Join(errs...), errs non-nil *)

(** [err.Error()]. *)
Fixpoint Error (e : error) : string :=
  match e with
  | errors_New msg => msg
  | fmt_Errorf msg cause => msg +:+ Error cause
  | PathError op path cause => op +:+ " " +:+ path +:+ ": " +:+ Error cause
  | errors_Join errs =>
      (fix lines (l : list error) : string :=
         match l with
         | [] => ""
         | [e1] => Error e1
         | e1 :: rest => Error e1 +:+ String "010"%char (lines rest)
         end) errs
  end.

(** [e.Unwrap() []error] of a joined error; the error itself otherwise. *)
Definition members (e : error) : list error :=
  match e with errors_Join errs => errs | _ => [e] end.

(* ===================================================================== *)
(** ** Package [os]: files                                                *)
(* ===================================================================== *)

Module OS.

Definition ErrClosed : error := errors_New "file already closed".
Definition ErrPermission : error := errors_New "permission denied".
Definition ErrNotExist : error := errors_New "file does not exist".
Definition ErrInvalid : error := errors_New "invalid argument".
Definition EISDIR : error := errors_New "is a directory".
Definition ENOTDIR : error := errors_New "not a directory".

Inductive Node := RegularFile (content : string) | Directory.

Definition isDir (n : Node) : bool :=
  match n with Directory => true | RegularFile _ => false end.

(** An [*os.File]: the name it was opened with and whether it is still open. *)
Record File := mkFile { f_name : string; f_open : bool }.

(** The file system and the process's file objects.  A file is identified
    with its path; [fs_deny] are the paths on which create, open, mkdir and
    unlink fail (missing parent, permissions).  File objects are numbered
    in allocation order and never reused. *)
Record FS := mkFS {
  fs_nodes : gmap string Node;
  fs_files : gmap nat File;
  fs_next : nat;
  fs_deny : gset string
}.

Definition set_nodes (fs : FS) (nodes : gmap string Node) : FS :=
  mkFS nodes (fs_files fs) (fs_next fs) (fs_deny fs).

Definition set_files (fs : FS) (files : gmap nat File) : FS :=
  mkFS (fs_nodes fs) files (fs_next fs) (fs_deny fs).

(** The directories on the way to a clean path, the path itself first:
    ["a/b/c"; "a/b"; "a"] for ["a/b/c"], ["/a/b"; "/a"] for ["/a/b"].  The
    root and the working directory are not among them: they exist. *)
Definition ancestors (p : string) : list string :=
  let elems := Strings.split_slash p in
  List.filter (fun q => negb (String.eqb q ""))
    (map (fun k => Strings.join_slash (firstn k elems))
         (rev (seq 1 (length elems)))).

(** The recursion of [os.MkdirAll] over a directory and those above it:
    a directory that exists ends it with success, a file in its place with
    an error; otherwise the parent is made first, then the directory
    itself, and what was made stays when a later step fails.  [shown] is
    the path the error of this step names. *)
Fixpoint mkdir_all (shown : string) (chain : list string) (fs : FS)
    : option error * FS :=
  match chain with
  | [] => (None, fs)
  | p :: parents =>
      match fs_nodes fs !! p with
      | Some Directory => (None, fs)
      | Some (RegularFile _) => (Some (PathError "mkdir" shown ENOTDIR), fs)
      | None =>
          match mkdir_all (List.hd "" parents) parents fs with
          | (Some err, fs') => (Some err, fs')
          | (None, fs') =>
              if decide (p ∈ fs_deny fs')
              then (Some (PathError "mkdir" shown ErrPermission), fs')
              else (None, set_nodes fs' (<[p := Directory]> (fs_nodes fs')))
          end
      end
  end.

(** [os.MkdirAll(path, 0755)]: the directory and every missing directory
    above it; the empty path names nothing. *)
Definition MkdirAll (path : string) (fs : FS) : option error * FS :=
  if String.eqb path "" then (Some (PathError "mkdir" path ErrNotExist), fs)
  else mkdir_all path (ancestors (Filepath.Clean path)) fs.

(** [os.OpenFile(path, os.O_CREATE|os.O_WRONLY|os.O_APPEND, 0644)]: the file
    is created empty when it does not exist and is never truncated. *)
Definition OpenFile (path : string) (fs : FS) : (nat + error) * FS :=
  if decide (path ∈ fs_deny fs) then (inr (PathError "open" path ErrPermission), fs)
  else match fs_nodes fs !! path with
       | Some Directory => (inr (PathError "open" path EISDIR), fs)
       | existing =>
           let nodes := match existing with
                        | None => <[path := RegularFile ""]> (fs_nodes fs)
                        | Some _ => fs_nodes fs
                        end in
           let f := fs_next fs in
           (inl f, mkFS nodes (<[f := mkFile path true]> (fs_files fs))
                        (S f) (fs_deny fs))
       end.

(** [f.Close()]. *)
Definition Close (f : nat) (fs : FS) : option error * FS :=
  match fs_files fs !! f with
  | Some (mkFile name true) =>
      (None, set_files fs (<[f := mkFile name false]> (fs_files fs)))
  | Some (mkFile name false) => (Some (PathError "close" name ErrClosed), fs)
  | None => (Some ErrInvalid, fs)
  end.

(** [f.Write(b)] on a file opened for appending.  Writing to a file whose
    name has been removed in the meantime succeeds and is not visible under
    any name. *)
Definition Write (f : nat) (b : string) (fs : FS) : option error * FS :=
  match fs_files fs !! f with
  | Some (mkFile name true) =>
      match fs_nodes fs !! name with
      | Some (RegularFile c) =>
          (None, set_nodes fs (<[name := RegularFile (c +:+ b)]> (fs_nodes fs)))
      | _ => (None, fs)
      end
  | Some (mkFile name false) => (Some (PathError "write" name ErrClosed), fs)
  | None => (Some ErrInvalid, fs)
  end.

(** [os.Remove(path)]. *)
Definition Remove (path : string) (fs : FS) : option error * FS :=
  if decide (path ∈ fs_deny fs) then (Some (PathError "remove" path ErrPermission), fs)
  else match fs_nodes fs !! path with
       | Some _ => (None, set_nodes fs (delete path (fs_nodes fs)))
       | None => (Some (PathError "remove" path ErrNotExist), fs)
       end.

(** An [os.DirEntry]: name and [IsDir()]. *)
Record DirEntry := mkDirEntry { Name : string; IsDir : bool }.

Definition entry_le (a b : DirEntry) : Prop := String.le (Name a) (Name b).

#[global] Instance entry_le_dec : RelDecision entry_le.
Proof. intros a b. unfold entry_le. apply _. Defined.

(** The entry of directory [dir] that node [n] at path [k] is, if it is
    one: its last element names it inside [dir]. *)
Definition entry_in (dir : string) (kn : string * Node) : option DirEntry :=
  let name := Filepath.lastElem (fst kn) in
  if negb (String.eqb name "") && String.eqb (Filepath.Join dir name) (fst kn)
  then Some (mkDirEntry name (isDir (snd kn)))
  else None.

(** [os.ReadDir(dir)]: the entries of the directory, sorted by filename. *)
Definition ReadDir (dir : string) (fs : FS) : list DirEntry + error :=
  match fs_nodes fs !! Filepath.Clean dir with
  | Some Directory =>
      inl (merge_sort entry_le (omap (entry_in dir) (map_to_list (fs_nodes fs))))
  | Some (RegularFile _) => inr (PathError "open" dir ENOTDIR)
  | None => inr (PathError "open" dir ErrNotExist)
  end.

(** [os.Stderr]. *)
Definition Stderr : nat := 2%nat.

(** A process start: the three standard streams are open, the terminal is
    the file [/dev/stderr]. *)
Definition boot (nodes : gmap string Node) (deny : gset string) : FS :=
  mkFS (<["/dev/stderr" := RegularFile ""]> nodes)
       (<[Stderr := mkFile "/dev/stderr" true]>
          (<[1%nat := mkFile "/dev/stdout" true]>
             (<[0%nat := mkFile "/dev/stdin" true]> ∅)))
       3 deny.

(** What can be read back from [path]. *)
Definition content (path : string) (fs : FS) : option string :=
  match fs_nodes fs !! path with
  | Some (RegularFile c) => Some c
  | _ => None
  end.

End OS.

(* ===================================================================== *)
(** ** Package [log/slog]: records and the built-in handlers              *)
(* ===================================================================== *)

Module Slog.

Definition LevelDebug : Z := -4.
Definition LevelInfo : Z := 0.
Definition LevelWarn : Z := 4.
Definition LevelError : Z := 8.

Inductive Value :=
| StringValue (s : string)
| Int64Value (n : Z)
| BoolValue (b : bool).

Record Attr := mkAttr { Key : string; Val : Value }.

(** A [slog.Record]. *)
Record Record := mkRecord {
  Time : Time.Time;
  Message : string;
  Level : Z;
  Attrs : list Attr
}.

Record HandlerOptions := mkOptions { AddSource : bool; MinLevel : Z }.

(** What [WithAttrs] and [WithGroup] have bound to a handler, oldest
    first. *)
Inductive Bound :=
| BoundAttrs (attrs : list Attr)
| BoundGroup (name : string).

Inductive Layout := TextLayout | JSONLayout.

(** A [*slog.TextHandler] or [*slog.JSONHandler] writing to the file
    object [bh_w]. *)
Record BuiltinHandler := mkBuiltin {
  bh_layout : Layout;
  bh_w : nat;
  bh_opts : HandlerOptions;
  bh_bound : list Bound
}.

Definition NewTextHandler (w : nat) (opts : HandlerOptions) : BuiltinHandler :=
  mkBuiltin TextLayout w opts [].

Definition NewJSONHandler (w : nat) (opts : HandlerOptions) : BuiltinHandler :=
  mkBuiltin JSONLayout w opts [].

(** [h.WithAttrs(attrs)]: the receiver itself when there is nothing to
    bind. *)
Definition WithAttrs (h : BuiltinHandler) (attrs : list Attr) : BuiltinHandler :=
  match attrs with
  | [] => h
  | _ => mkBuiltin (bh_layout h) (bh_w h) (bh_opts h)
                   (bh_bound h ++ [BoundAttrs attrs])
  end.

Definition WithGroup (h : BuiltinHandler) (name : string) : BuiltinHandler :=
  mkBuiltin (bh_layout h) (bh_w h) (bh_opts h) (bh_bound h ++ [BoundGroup name]).

End Slog.

(* ===================================================================== *)
(** ** Package [logger]: data                                             *)
(* ===================================================================== *)

Definition LogFormatText : string := "text".
Definition LogFormatJSON : string := "json".

(** [LogOutput]: the constants are declared in one [const] block as
    [0], [1 << iota], (repeated), [OutputFile | OutputTerminal]; [iota]
    counts the lines of the block, so the 2nd and 3rd lines get 1<<1, 1<<2. *)
Definition OutputNone : Z := 0.
Definition OutputFile : Z := Z.shiftl 1 1.
Definition OutputTerminal : Z := Z.shiftl 1 2.
Definition OutputBoth : Z := Z.lor OutputFile OutputTerminal.

Record LogConfig := mkLogConfig {
  Output : Z;
  Dir : string;
  FilenamePrefix : string;
  RetainDays : Z;
  Format : string;
  Level : Z;
  AddSource : bool
}.

(** [time.Ticker]: whether it still delivers ticks. *)
Inductive Ticker := TickerRunning | TickerStopped.

(** [chan struct{}] used as a stop signal. *)
Inductive Chan := ChanOpen | ChanClosed.

(** The fields of a [DailyFileHandler]; [mu] is free between two method
    calls and is not represented, [closeOnce] is whether its [Do] has run.
    [cfg] is the validated configuration the handler was built from. *)
Record DailyFileHandler := mkDailyFileHandler {
  cfg : LogConfig;
  curDate : string;
  curFile : option nat;
  curInner : option Slog.BuiltinHandler;
  cleanTicker : option Ticker;
  cleanDone : option Chan;
  closeOnce : bool
}.

(** [fileHandlerWrapper]: [original] is the address of the handler it was
    derived from. *)
Record fileHandlerWrapper := mkWrapper {
  original : nat;
  inner : Slog.BuiltinHandler
}.

(** [TerminalHandler].  [bufPool] is a pool of scratch buffers: [Handle]
    resets the buffer it borrows before using it, so the pool carries nothing
    a call can observe, and it is not represented. *)
Record TerminalHandler := mkTerminalHandler {
  th_out : nat;
  th_inner : option Slog.BuiltinHandler;
  th_opts : Slog.HandlerOptions;
  th_colorize : bool
}.

(** The [slog.Handler] values of this package. *)
Inductive Handler :=
| H_DailyFile (p : nat)                  (* *DailyFileHandler *)
| H_Wrapper (wr : fileHandlerWrapper)    (* *fileHandlerWrapper *)
| H_Terminal (t : TerminalHandler)       (* *TerminalHandler *)
| H_Multi (handlers : list Handler).     (* *MultiHandler *)

(** A [*slog.Logger]: its address and its handler. *)
Record Logger := mkLogger { logger_addr : nat; logger_handler : Handler }.

(** How a call ends. *)
Inductive outcome := Returned (err : option error) | Panicked (msg : string).

(** The state of the process: the file system, the clock read by
    [time.Now()], the [DailyFileHandler] objects by address, the package
    variables [loggerOnce], [onceLogger], [onceFileHandler], [initErr], the
    logger installed by [slog.SetDefault], and the records handed to the
    package-level [slog.Warn] (level and message), whose delivery by the
    process default logger is not followed further. *)
Record World := mkWorld {
  fs : OS.FS;
  now : Time.Time;
  heap : gmap nat DailyFileHandler;
  next_addr : nat;
  loggerOnce : bool;
  onceLogger : option Logger;
  onceFileHandler : option nat;
  initErr : option error;
  slog_default : option Logger;
  diag : list (Z * string)
}.

Definition set_fs (w : World) (fs' : OS.FS) : World :=
  mkWorld fs' (now w) (heap w) (next_addr w) (loggerOnce w) (onceLogger w)
          (onceFileHandler w) (initErr w) (slog_default w) (diag w).

Definition set_heap (w : World) (hp : gmap nat DailyFileHandler) : World :=
  mkWorld (fs w) (now w) hp (next_addr w) (loggerOnce w) (onceLogger w)
          (onceFileHandler w) (initErr w) (slog_default w) (diag w).

Definition set_now (w : World) (clock : Time.Time) : World :=
  mkWorld (fs w) clock (heap w) (next_addr w) (loggerOnce w) (onceLogger w)
          (onceFileHandler w) (initErr w) (slog_default w) (diag w).

Definition store (p : nat) (h : DailyFileHandler) (w : World) : World :=
  set_heap w (<[p := h]> (heap w)).

(** The package variables and the installed default logger. *)
Definition pkg_vars (w : World) :=
  (loggerOnce w, onceLogger w, onceFileHandler w, initErr w, slog_default w).

(** [slog.Warn(msg, ...)] at package level: the record is handed to the
    default logger. *)
Definition slog_log (level : Z) (msg : string) (w : World) : World :=
  mkWorld (fs w) (now w) (heap w) (next_addr w) (loggerOnce w) (onceLogger w)
          (onceFileHandler w) (initErr w) (slog_default w) (diag w ++ [(level, msg)]).

Definition slog_Warn := slog_log Slog.LevelWarn.

(* ===================================================================== *)
(** ** Package [logger]: operations                                       *)
(* ===================================================================== *)

(** The encoder of [log/slog]: the bytes a built-in handler with the given
    layout, options and bound attributes and groups produces for a record.
    The package treats it as opaque. *)
Class Encoder := {
  encode :
    Slog.Layout -> Slog.HandlerOptions -> list Slog.Bound -> Slog.Record -> string
}.

Section Logger.

Context `{Encoder}.

(** [h.Handle(ctx, r)] of a built-in handler: one write of the encoded
    record to its writer. *)
Definition Builtin_Handle (h : Slog.BuiltinHandler) (r : Slog.Record)
    (w : World) : option error * World :=
  let '(err, fs') :=
    OS.Write (Slog.bh_w h)
             (encode (Slog.bh_layout h) (Slog.bh_opts h) (Slog.bh_bound h) r)
             (fs w) in
  (err, set_fs w fs').

(** [slog.NewTextHandler(buf, opts).Handle(ctx, r)] for a [*bytes.Buffer]
    [buf]: the record is appended to the buffer; a buffer write never
    fails. *)
Definition Buffer_Handle (opts : Slog.HandlerOptions) (r : Slog.Record)
    (buf : string) : option error * string :=
  (None, buf +:+ encode Slog.TextLayout opts [] r).

(** *** [LogConfig.validate] *)

Definition set_Dir (c : LogConfig) (v : string) : LogConfig :=
  mkLogConfig (Output c) v (FilenamePrefix c) (RetainDays c) (Format c)
              (Level c) (AddSource c).
Definition set_FilenamePrefix (c : LogConfig) (v : string) : LogConfig :=
  mkLogConfig (Output c) (Dir c) v (RetainDays c) (Format c) (Level c)
              (AddSource c).
Definition set_RetainDays (c : LogConfig) (v : Z) : LogConfig :=
  mkLogConfig (Output c) (Dir c) (FilenamePrefix c) v (Format c) (Level c)
              (AddSource c).
Definition set_Format (c : LogConfig) (v : string) : LogConfig :=
  mkLogConfig (Output c) (Dir c) (FilenamePrefix c) (RetainDays c) v (Level c)
              (AddSource c).

(** [cfg.validate()]: the configuration as the call leaves it, and the
    error it returns. *)
Definition validate (c : LogConfig) : LogConfig * option error :=
  if Output c =? OutputNone then
    (c, Some (errors_New "output target cannot be OutputNone"))
  else
    let c :=
      if negb (Z.land (Output c) OutputFile =? 0) then
        let c := if String.eqb (Dir c) "" then set_Dir c "./logs" else c in
        let c := if String.eqb (FilenamePrefix c) ""
                 then set_FilenamePrefix c "app" else c in
        if RetainDays c <=? 0 then set_RetainDays c 30 else c
      else c in
    let c := if String.eqb (Format c) "" then set_Format c LogFormatText else c in
    if negb (String.eqb (Format c) LogFormatText)
       && negb (String.eqb (Format c) LogFormatJSON)
    then (c, Some (errors_New ("unsupported log format: " +:+ Format c)))
    else (c, None).

(** The two defaulting steps of [validate], named on their own. *)
Definition file_defaults (c : LogConfig) : LogConfig :=
  if negb (Z.land (Output c) OutputFile =? 0) then
    let c := if String.eqb (Dir c) "" then set_Dir c "./logs" else c in
    let c := if String.eqb (FilenamePrefix c) ""
             then set_FilenamePrefix c "app" else c in
    if RetainDays c <=? 0 then set_RetainDays c 30 else c
  else c.

Definition format_default (c : LogConfig) : LogConfig :=
  if String.eqb (Format c) "" then set_Format c LogFormatText else c.

(** *** [DailyFileHandler] *)

Definition set_cur (h : DailyFileHandler) (date : string) (file : option nat)
    (enc : option Slog.BuiltinHandler) : DailyFileHandler :=
  mkDailyFileHandler (cfg h) date file enc (cleanTicker h) (cleanDone h)
                     (closeOnce h).

Definition set_cleanTicker (h : DailyFileHandler) (t : option Ticker)
    : DailyFileHandler :=
  mkDailyFileHandler (cfg h) (curDate h) (curFile h) (curInner h) t
                     (cleanDone h) (closeOnce h).

Definition set_cleanDone (h : DailyFileHandler) (c : option Chan)
    : DailyFileHandler :=
  mkDailyFileHandler (cfg h) (curDate h) (curFile h) (curInner h)
                     (cleanTicker h) c (closeOnce h).

Definition set_closeOnce (h : DailyFileHandler) (b : bool) : DailyFileHandler :=
  mkDailyFileHandler (cfg h) (curDate h) (curFile h) (curInner h)
                     (cleanTicker h) (cleanDone h) b.

(** The name of the day-file of [date]: [fmt.Sprintf("%s-%s.log", ...)]. *)
Definition filename (c : LogConfig) (date : string) : string :=
  FilenamePrefix c +:+ "-" +:+ date +:+ ".log".

(** [h.rotateIfNeeded(t)], on the fields [h] of the receiver. *)
Definition rotateIfNeeded (h : DailyFileHandler) (t : Time.Time) (w : World)
    : option error * DailyFileHandler * World :=
  let date := Time.Format_date t in
  if String.eqb date (curDate h) && bool_decide (curInner h <> None) then
    (None, h, w)
  else
    let '(h, w) :=
      match curFile h with
      | Some f =>
          let '(err, fs') := OS.Close f (fs w) in
          let w := set_fs w fs' in
          let w := match err with
                   | Some _ => slog_Warn "failed to close old log file" w
                   | None => w
                   end in
          (set_cur h (curDate h) None None, w)
      | None => (h, w)
      end in
    let path := Filepath.Join (Dir (cfg h)) (filename (cfg h) date) in
    match OS.OpenFile path (fs w) with
    | (inr err, fs') =>
        (Some (fmt_Errorf "open log file failed: " err), h, set_fs w fs')
    | (inl file, fs') =>
        let opts := Slog.mkOptions (AddSource (cfg h)) (Level (cfg h)) in
        let enc :=
          if String.eqb (Format (cfg h)) LogFormatJSON
          then Slog.NewJSONHandler file opts
          else Slog.NewTextHandler file opts in
        (None, set_cur h date (Some file) (Some enc), set_fs w fs')
    end.

(** The path of the day-file of [date], and the encoder [rotateIfNeeded]
    binds to a newly opened file [f]. *)
Definition day_path (c : LogConfig) (date : string) : string :=
  Filepath.Join (Dir c) (filename c date).

Definition day_encoder (c : LogConfig) (f : nat) : Slog.BuiltinHandler :=
  let opts := Slog.mkOptions (AddSource c) (Level c) in
  if String.eqb (Format c) LogFormatJSON
  then Slog.NewJSONHandler f opts
  else Slog.NewTextHandler f opts.

(** The state "open for day [curDate]": the handler owns an open file
    object, opened on the day-file of [curDate], and its encoder writes to
    that file with nothing bound. *)
Definition open_for_day (h : DailyFileHandler) (files : OS.FS) : Prop :=
  exists f : nat,
    curFile h = Some f
    /\ curInner h = Some (day_encoder (cfg h) f)
    /\ OS.fs_files files !! f
       = Some (OS.mkFile (day_path (cfg h) (curDate h)) true)
    /\ (f < OS.fs_next files)%nat.

(** The files after a rotation from file object [f] to the day-file at
    [path]. *)
Definition rotated (files : OS.FS) (f : nat) (old path : string) : OS.FS :=
  OS.mkFS
    (match OS.fs_nodes files !! path with
     | None => <[path := OS.RegularFile ""]> (OS.fs_nodes files)
     | Some _ => OS.fs_nodes files
     end)
    (<[OS.fs_next files := OS.mkFile path true]>
       (<[f := OS.mkFile old false]> (OS.fs_files files)))
    (S (OS.fs_next files)) (OS.fs_deny files).

(** What a record [r] looks like in the day-file of a handler with
    configuration [c]. *)
Definition day_bytes (c : LogConfig) (r : Slog.Record) : string :=
  encode (if String.eqb (Format c) LogFormatJSON
          then Slog.JSONLayout else Slog.TextLayout)
         (Slog.mkOptions (AddSource c) (Level c)) [] r.

Definition nil_receiver : error := errors_New "nil pointer dereference".

(** A method body run on the object at address [p]: the fields are read,
    the body runs, the fields are written back.  Go has no dangling
    addresses; one is answered with an error here. *)
Definition with_receiver {A} (p : nat) (w : World) (dflt : A)
    (body : DailyFileHandler -> A * DailyFileHandler * World) : A * World :=
  match heap w !! p with
  | Some h => let '(a, h', w') := body h in (a, store p h' w')
  | None => (dflt, w)
  end.

(** [h.Enabled(ctx, level)]. *)
Definition DailyFileHandler_Enabled (p : nat) (level : Z) (w : World) : bool :=
  match heap w !! p with
  | Some h => Level (cfg h) <=? level
  | None => false
  end.

(** [h.Handle(ctx, r)]: under [h.mu], rotate if needed, then delegate to
    the current encoder. *)
Definition DailyFileHandler_Handle (p : nat) (r : Slog.Record) (w : World)
    : option error * World :=
  with_receiver p w (Some nil_receiver) (fun h =>
    let '(err, h, w) := rotateIfNeeded h (Slog.Time r) w in
    match err with
    | Some e => (Some e, h, w)
    | None =>
        match curInner h with
        | None => (Some (errors_New "file handler not initialized"), h, w)
        | Some enc => let '(e, w) := Builtin_Handle enc r w in (e, h, w)
        end
    end).

(** [h.WithAttrs(attrs)] and [h.WithGroup(name)]: the receiver itself
    while it has no encoder, a wrapper around the encoder of the moment
    otherwise. *)
Definition DailyFileHandler_WithAttrs (p : nat) (attrs : list Slog.Attr)
    (w : World) : Handler :=
  match heap w !! p with
  | Some h =>
      match curInner h with
      | None => H_DailyFile p
      | Some enc => H_Wrapper (mkWrapper p (Slog.WithAttrs enc attrs))
      end
  | None => H_DailyFile p
  end.

Definition DailyFileHandler_WithGroup (p : nat) (name : string) (w : World)
    : Handler :=
  match heap w !! p with
  | Some h =>
      match curInner h with
      | None => H_DailyFile p
      | Some enc => H_Wrapper (mkWrapper p (Slog.WithGroup enc name))
      end
  | None => H_DailyFile p
  end.

(** The function given to [h.closeOnce.Do] by [Close]: stop the ticker,
    close the stop channel (closing a closed channel panics), then, under
    [h.mu], close and clear the file. *)
Definition Close_once (h : DailyFileHandler) (w : World)
    : outcome * DailyFileHandler * World :=
  let h := match cleanTicker h with
           | Some _ => set_cleanTicker h (Some TickerStopped)
           | None => h
           end in
  match cleanDone h with
  | Some ChanClosed => (Panicked "close of closed channel", h, w)
  | done =>
      let h := match done with
               | Some _ => set_cleanDone h (Some ChanClosed)
               | None => h
               end in
      match curFile h with
      | Some f =>
          let '(err, fs') := OS.Close f (fs w) in
          (Returned err, set_cur h (curDate h) None None, set_fs w fs')
      | None => (Returned None, h, w)
      end
  end.

(** [h.Close()]: [sync.Once] runs the function on the first call only, and
    counts a call that panicked as done. *)
Definition DailyFileHandler_Close (p : nat) (w : World) : outcome * World :=
  with_receiver p w (Panicked "nil pointer dereference") (fun h =>
    if closeOnce h then (Returned None, h, w)
    else
      let '(res, h, w) := Close_once h w in
      (res, set_closeOnce h true, w)).

(** [NewFileHandler(cfg)]: the address of the new handler, or the error.
    The goroutine it starts, [cleanOldLogsLoop], runs interleaved with the
    calls of the program; it is not part of this call and is not followed
    here. *)
Definition NewFileHandler (c : LogConfig) (w : World) : (nat + error) * World :=
  match OS.MkdirAll (Dir c) (fs w) with
  | (Some err, fs') =>
      (inr (fmt_Errorf "create log directory failed: " err), set_fs w fs')
  | (None, fs') =>
      let w := set_fs w fs' in
      let handler := mkDailyFileHandler c "" None None None (Some ChanOpen) false in
      match rotateIfNeeded handler (now w) w with
      | (Some err, _, w) => (inr err, w)
      | (None, handler, w) =>
          let handler := set_cleanTicker handler (Some TickerRunning) in
          let p := next_addr w in
          (inl p,
           mkWorld (fs w) (now w) (<[p := handler]> (heap w)) (S p)
                   (loggerOnce w) (onceLogger w) (onceFileHandler w)
                   (initErr w) (slog_default w) (diag w))
      end
  end.

(** *** [fileHandlerWrapper] *)

Definition fileHandlerWrapper_Enabled (wr : fileHandlerWrapper) (level : Z)
    (w : World) : bool :=
  DailyFileHandler_Enabled (original wr) level w.

(** [w.Handle(ctx, r)]: under the lock of the original, rotate the
    original if needed, then delegate to the wrapper's own encoder. *)
Definition fileHandlerWrapper_Handle (wr : fileHandlerWrapper)
    (r : Slog.Record) (w : World) : option error * World :=
  with_receiver (original wr) w (Some nil_receiver) (fun h =>
    let '(err, h, w) := rotateIfNeeded h (Slog.Time r) w in
    match err with
    | Some e => (Some e, h, w)
    | None => let '(e, w) := Builtin_Handle (inner wr) r w in (e, h, w)
    end).

Definition fileHandlerWrapper_WithAttrs (wr : fileHandlerWrapper)
    (attrs : list Slog.Attr) : fileHandlerWrapper :=
  mkWrapper (original wr) (Slog.WithAttrs (inner wr) attrs).

Definition fileHandlerWrapper_WithGroup (wr : fileHandlerWrapper)
    (name : string) : fileHandlerWrapper :=
  mkWrapper (original wr) (Slog.WithGroup (inner wr) name).

(** *** [TerminalHandler] *)

Definition ESC : ascii := "027"%char.
Definition colorReset : string := String ESC "[0m".
Definition colorRed : string := String ESC "[31m".
Definition colorGreen : string := String ESC "[32m".
Definition colorYellow : string := String ESC "[33m".
Definition colorBlue : string := String ESC "[34m".
Definition colorGray : string := String ESC "[90m".

Definition NewTerminalHandler (out : nat) (c : LogConfig) : TerminalHandler :=
  mkTerminalHandler out None (Slog.mkOptions (AddSource c) (Level c)) true.

Definition TerminalHandler_Enabled (h : TerminalHandler) (level : Z) : bool :=
  Slog.MinLevel (th_opts h) <=? level.

(** The colour chosen by the [switch] of [Handle]. *)
Definition level_color (level : Z) : string :=
  if Slog.LevelError <=? level then colorRed
  else if level =? Slog.LevelWarn then colorYellow
  else if level =? Slog.LevelInfo then colorBlue
  else colorGray.

(** [h.Handle(ctx, r)]: the buffer taken from the pool is reset, so it is
    empty whatever the pool held; the record is formatted into it by a new
    text handler over [h.opts], and the colour, the buffer and the reset
    sequence are written to [h.out], the error being that of the middle
    write. *)
Definition TerminalHandler_Handle (h : TerminalHandler) (r : Slog.Record)
    (w : World) : option error * World :=
  let buf := "" in
  match Buffer_Handle (th_opts h) r buf with
  | (Some err, _) => (Some err, w)
  | (None, buf) =>
      if th_colorize h then
        let color := level_color (Slog.Level r) in
        let '(_, fs1) := OS.Write (th_out h) color (fs w) in
        let '(err, fs2) := OS.Write (th_out h) buf fs1 in
        let '(_, fs3) := OS.Write (th_out h) colorReset fs2 in
        (err, set_fs w fs3)
      else
        let '(err, fs1) := OS.Write (th_out h) buf (fs w) in
        (err, set_fs w fs1)
  end.

Definition TerminalHandler_WithAttrs (h : TerminalHandler)
    (attrs : list Slog.Attr) : TerminalHandler :=
  mkTerminalHandler (th_out h) (th_inner h) (th_opts h) (th_colorize h).

Definition TerminalHandler_WithGroup (h : TerminalHandler) (name : string)
    : TerminalHandler :=
  mkTerminalHandler (th_out h) (th_inner h) (th_opts h) (th_colorize h).

(** *** [MultiHandler], over any kind of member *)

Section MultiHandler.
Context {M : Type}.
Variable enabled : M -> Z -> World -> bool.
Variable handle : M -> Slog.Record -> World -> option error * World.

(** [mh.Enabled(ctx, level)]. *)
Fixpoint MultiHandler_Enabled (handlers : list M) (level : Z) (w : World)
    : bool :=
  match handlers with
  | [] => false
  | h :: rest =>
      if enabled h level w then true else MultiHandler_Enabled rest level w
  end.

(** The loop of [mh.Handle]: [errs] is the slice of errors so far. *)
Fixpoint MultiHandler_loop (handlers : list M) (r : Slog.Record)
    (errs : list error) (w : World) : list error * World :=
  match handlers with
  | [] => (errs, w)
  | h :: rest =>
      if negb (enabled h (Slog.Level r) w) then MultiHandler_loop rest r errs w
      else
        let '(err, w) := handle h r w in
        match err with
        | Some e => MultiHandler_loop rest r (errs ++ [e]) w
        | None => MultiHandler_loop rest r errs w
        end
  end.

(** [mh.Handle(ctx, r)]. *)
Definition MultiHandler_Handle (handlers : list M) (r : Slog.Record)
    (w : World) : option error * World :=
  let '(errs, w) := MultiHandler_loop handlers r [] w in
  if (0 <? length errs)%nat then (Some (errors_Join errs), w) else (None, w).

(** The loop of the first design of [mh.Handle], which kept the first
    error only. *)
Fixpoint MultiHandler_loop_v1 (handlers : list M) (r : Slog.Record)
    (handlerErr : option error) (w : World) : option error * World :=
  match handlers with
  | [] => (handlerErr, w)
  | h :: rest =>
      if negb (enabled h (Slog.Level r) w)
      then MultiHandler_loop_v1 rest r handlerErr w
      else
        let '(err, w) := handle h r w in
        match err, handlerErr with
        | Some e, None => MultiHandler_loop_v1 rest r (Some e) w
        | _, _ => MultiHandler_loop_v1 rest r handlerErr w
        end
  end.

(** What the specification asks of a fan-out: every member that accepts
    the level is given the record, one after the other, whatever the
    earlier ones answered; the answers are kept in order. *)
Fixpoint deliver_all (handlers : list M) (r : Slog.Record) (w : World)
    : list (option error) * World :=
  match handlers with
  | [] => ([], w)
  | h :: rest =>
      if enabled h (Slog.Level r) w then
        let '(res, w1) := handle h r w in
        let '(more, w2) := deliver_all rest r w1 in
        (res :: more, w2)
      else deliver_all rest r w
  end.

(** The failures among the answers, in order. *)
Definition failures (answers : list (option error)) : list error :=
  omap id answers.

End MultiHandler.

(** *** The handlers through the [slog.Handler] interface *)

Fixpoint Enabled (h : Handler) (level : Z) (w : World) : bool :=
  match h with
  | H_DailyFile p => DailyFileHandler_Enabled p level w
  | H_Wrapper wr => fileHandlerWrapper_Enabled wr level w
  | H_Terminal t => TerminalHandler_Enabled t level
  | H_Multi handlers => MultiHandler_Enabled Enabled handlers level w
  end.

Fixpoint Handle (h : Handler) (r : Slog.Record) (w : World)
    : option error * World :=
  match h with
  | H_DailyFile p => DailyFileHandler_Handle p r w
  | H_Wrapper wr => fileHandlerWrapper_Handle wr r w
  | H_Terminal t => TerminalHandler_Handle t r w
  | H_Multi handlers => MultiHandler_Handle Enabled Handle handlers r w
  end.

Fixpoint WithAttrs (h : Handler) (attrs : list Slog.Attr) (w : World) : Handler :=
  match h with
  | H_DailyFile p => DailyFileHandler_WithAttrs p attrs w
  | H_Wrapper wr => H_Wrapper (fileHandlerWrapper_WithAttrs wr attrs)
  | H_Terminal t => H_Terminal (TerminalHandler_WithAttrs t attrs)
  | H_Multi handlers => H_Multi (map (fun m => WithAttrs m attrs w) handlers)
  end.

Fixpoint WithGroup (h : Handler) (name : string) (w : World) : Handler :=
  match h with
  | H_DailyFile p => DailyFileHandler_WithGroup p name w
  | H_Wrapper wr => H_Wrapper (fileHandlerWrapper_WithGroup wr name)
  | H_Terminal t => H_Terminal (TerminalHandler_WithGroup t name)
  | H_Multi handlers => H_Multi (map (fun m => WithGroup m name w) handlers)
  end.

(** One decoration, and a sequence of them, through the interface. *)
Definition decorate (w : World) (h : Handler) (b : Slog.Bound) : Handler :=
  match b with
  | Slog.BoundAttrs attrs => WithAttrs h attrs w
  | Slog.BoundGroup name => WithGroup h name w
  end.

Definition decorate_all (h : Handler) (bs : list Slog.Bound) (w : World)
    : Handler :=
  fold_left (decorate w) bs h.

(** *** The process-wide logger *)

Definition set_initErr (w : World) (e : error) : World :=
  mkWorld (fs w) (now w) (heap w) (next_addr w) (loggerOnce w) (onceLogger w)
          (onceFileHandler w) (Some e) (slog_default w) (diag w).

Definition set_onceFileHandler (w : World) (p : nat) : World :=
  mkWorld (fs w) (now w) (heap w) (next_addr w) (loggerOnce w) (onceLogger w)
          (Some p) (initErr w) (slog_default w) (diag w).

Definition set_loggerOnce (w : World) : World :=
  mkWorld (fs w) (now w) (heap w) (next_addr w) true (onceLogger w)
          (onceFileHandler w) (initErr w) (slog_default w) (diag w).

(** [onceLogger = slog.New(h); slog.SetDefault(onceLogger)]. *)
Definition install (h : Handler) (w : World) : World :=
  let l := mkLogger (next_addr w) h in
  mkWorld (fs w) (now w) (heap w) (S (next_addr w)) (loggerOnce w) (Some l)
          (onceFileHandler w) (initErr w) (Some l) (diag w).

(** The function given to [loggerOnce.Do] by [InitLogger]: the caller's
    configuration as it leaves it, and the world. *)
Definition InitLogger_once (c : LogConfig) (w : World) : LogConfig * World :=
  match validate c with
  | (c, Some err) => (c, set_initErr w (fmt_Errorf "invalid config: " err))
  | (c, None) =>
      let file_part : (list Handler + error) * World :=
        if negb (Z.land (Output c) OutputFile =? 0) then
          match NewFileHandler c w with
          | (inr err, w) => (inr (fmt_Errorf "create file handler failed: " err), w)
          | (inl p, w) => (inl [H_DailyFile p], set_onceFileHandler w p)
          end
        else (inl [], w) in
      match file_part with
      | (inr err, w) => (c, set_initErr w err)
      | (inl handlers, w) =>
          let handlers :=
            if negb (Z.land (Output c) OutputTerminal =? 0)
            then handlers ++ [H_Terminal (NewTerminalHandler OS.Stderr c)]
            else handlers in
          match handlers with
          | [] => (c, set_initErr w (errors_New "no output target specified"))
          | [h] => (c, install h w)
          | _ => (c, install (H_Multi handlers) w)
          end
      end
  end.

(** What [InitLogger] returns after [loggerOnce.Do]: it reads the package
    variables. *)
Definition InitLogger_result (w : World) : option Logger * option error :=
  match initErr w with
  | Some e => (None, Some e)
  | None => (onceLogger w, None)
  end.

(** [InitLogger(cfg)]: the returned pair, the caller's configuration after
    the call, and the world after the call. *)
Definition InitLogger (c : LogConfig) (w : World)
    : (option Logger * option error) * LogConfig * World :=
  let '(c, w) :=
    if loggerOnce w then (c, w)
    else let '(c, w) := InitLogger_once c w in (c, set_loggerOnce w) in
  (InitLogger_result w, c, w).

(** The package-level [Close()]. *)
Definition Close (w : World) : outcome * World :=
  match onceFileHandler w with
  | Some p => DailyFileHandler_Close p w
  | None => (Returned None, w)
  end.

(** The calls of a program one after the other: [InitLogger] for each
    configuration in turn. *)
Fixpoint InitLogger_calls (cs : list LogConfig) (w : World)
    : list ((option Logger * option error) * LogConfig) * World :=
  match cs with
  | [] => ([], w)
  | c :: rest =>
      let '(res, c', w) := InitLogger c w in
      let '(more, w) := InitLogger_calls rest w in
      ((res, c') :: more, w)
  end.

(** Concurrent callers of [InitLogger].  A caller is before
    [loggerOnce.Do], or past it and about to read the package variables, or
    has returned.  [sync.Once] lets one caller at a time through [Do] and
    keeps the others waiting until the function has returned, so passing
    [Do] is one step; the steps of the callers are interleaved in any
    order. *)
Inductive caller :=
| Calling (c : LogConfig)
| Reading (c : LogConfig)
| Done (res : option Logger * option error) (c : LogConfig).

Inductive callers_step : list caller * World -> list caller * World -> Prop :=
| step_Do (i : nat) (c : LogConfig) (ts : list caller) (w : World) :
    ts !! i = Some (Calling c) ->
    callers_step (ts, w)
      (if loggerOnce w then (<[i := Reading c]> ts, w)
       else (<[i := Reading (fst (InitLogger_once c w))]> ts,
             set_loggerOnce (snd (InitLogger_once c w))))
| step_read (i : nat) (c : LogConfig) (ts : list caller) (w : World) :
    ts !! i = Some (Reading c) ->
    callers_step (ts, w) (<[i := Done (InitLogger_result w) c]> ts, w).

(** What holds of interleaved callers started in a world [w0] whose
    [loggerOnce] is not done: either nobody is through [Do] yet, or the
    once-function has run once, for one of the callers, and whoever has
    returned has read its outcome. *)
Definition callers_inv (cs : list LogConfig) (w0 : World)
    (st : list caller * World) : Prop :=
  (snd st = w0 /\ Forall (fun t => exists c, t = Calling c /\ c ∈ cs) (fst st))
  \/ (loggerOnce (snd st) = true
      /\ (exists c0, c0 ∈ cs
                     /\ snd st = set_loggerOnce (snd (InitLogger_once c0 w0)))
      /\ Forall (fun t => match t with
                          | Calling c => c ∈ cs
                          | Reading _ => True
                          | Done res _ => res = InitLogger_result (snd st)
                          end) (fst st)).

(** [n] calls of [h.Close()] one after the other. *)
Fixpoint Close_calls (n : nat) (p : nat) (w : World) : list outcome * World :=
  match n with
  | O => ([], w)
  | S n' =>
      let '(res, w) := DailyFileHandler_Close p w in
      let '(more, w) := Close_calls n' p w in
      (res :: more, w)
  end.

(** The world of a process that has not touched the package yet. *)
Definition start (files : OS.FS) (clock : Time.Time) : World :=
  mkWorld files clock ∅ 1 false None None None None [].


End Logger.

(* ===================================================================== *)
(** ** Data of the examples                                               *)
(* ===================================================================== *)

Module Ex.

Definition show_value (v : Slog.Value) : string :=
  match v with
  | Slog.StringValue s => s
  | Slog.Int64Value n => Time.appendInt n 0
  | Slog.BoolValue b => if b then "true" else "false"
  end.

Fixpoint show_attrs (attrs : list Slog.Attr) : string :=
  match attrs with
  | [] => ""
  | a :: rest =>
      " " +:+ Slog.Key a +:+ "=" +:+ show_value (Slog.Val a) +:+ show_attrs rest
  end.

Definition show_bound (b : Slog.Bound) : string :=
  match b with
  | Slog.BoundAttrs attrs => show_attrs attrs
  | Slog.BoundGroup g => " " +:+ g +:+ "."
  end.

(** A small encoder: the message, what is bound, the record's own
    attributes, a semicolon. *)
Definition plain : Encoder := {|
  encode _ _ bound r :=
    "msg=" +:+ Slog.Message r
      +:+ fold_right (fun b s => show_bound b +:+ s) "" bound
      +:+ show_attrs (Slog.Attrs r) +:+ ";"
|}.

(** A process started at noon of 2024-01-01 (UTC) on an empty disk. *)
Definition w0 : World := start (OS.boot ∅ ∅) (Time.utc 2024 1 1 12 0).

Definition file_only : LogConfig := mkLogConfig OutputFile "" "" 0 "" 0 false.
Definition term_only : LogConfig := mkLogConfig OutputTerminal "" "" 0 "" 0 false.
Definition both : LogConfig := mkLogConfig OutputBoth "logs" "app" 7 "json" 0 false.

Definition r1 : Slog.Record := Slog.mkRecord (Time.utc 2024 1 1 23 59) "one" 0 [].
Definition r2 : Slog.Record := Slog.mkRecord (Time.utc 2024 1 2 0 1) "two" 0 [].

Definition kv : list Slog.Attr := [Slog.mkAttr "k" (Slog.StringValue "v")].

(** The process after [InitLogger(file_only)]: the sink is at address 1,
    open for 2024-01-01 on file object 3. *)
Definition w_file : World := snd (InitLogger file_only w0).

Definition sink : DailyFileHandler :=
  mkDailyFileHandler (mkLogConfig OutputFile "./logs" "app" 30 "text" 0 false)
    "2024-01-01" (Some 3%nat)
    (Some (Slog.NewTextHandler 3 (Slog.mkOptions false 0)))
    (Some TickerRunning) (Some ChanOpen) false.

Definition day1 : string := "logs/app-2024-01-01.log".
Definition day2 : string := "logs/app-2024-01-02.log".

(** A log directory on 2024-01-10 with a retention of seven days: one
    day-file past the window, one inside it, a name with another prefix,
    one with no date, and a directory with the name of an old day-file. *)
Definition old_disk : gmap string OS.Node :=
  <["logs" := OS.Directory]>
    (<["logs/app-2024-01-02.log" := OS.RegularFile "old"]>
       (<["logs/app-2024-01-05.log" := OS.RegularFile "recent"]>
          (<["logs/web-2023-01-01.log" := OS.RegularFile "other"]>
             (<["logs/app-latest.log" := OS.RegularFile "undated"]>
                (<["logs/app-2023-01-01.log" := OS.Directory]> ∅))))).

Definition w_sweep : World :=
  start (OS.boot old_disk ∅) (Time.utc 2024 1 10 12 0).

End Ex.

(* ===================================================================== *)
(** ** Package [logger]: [GetLogger], and what decorations bind           *)
(* ===================================================================== *)

(** The logger a caller of [GetLogger] holds: one built by this package,
    or the one Go's [log/slog] starts with, which [slog.Default()] returns
    while nothing has been installed. *)
Inductive LoggerRef := PackageLogger (l : Logger) | GoDefaultLogger.

(** [slog.Default()]. *)
Definition slog_Default (w : World) : LoggerRef :=
  match slog_default w with
  | Some l => PackageLogger l
  | None => GoDefaultLogger
  end.

(** [GetLogger()]: the configuration it initialises with is
    [&LogConfig{Output: OutputTerminal}], every other field zero. *)
Definition GetLogger (w : World) : LoggerRef * World :=
  match onceLogger w with
  | Some l => (PackageLogger l, w)
  | None =>
      let '(_, _, w) :=
        InitLogger (mkLogConfig OutputTerminal "" "" 0 "" 0 false) w in
      match onceLogger w with
      | Some l => (PackageLogger l, w)
      | None => (slog_Default w, w)
      end
  end.

(** One decoration on a built-in handler. *)
Definition Slog_bind (enc : Slog.BuiltinHandler) (b : Slog.Bound)
    : Slog.BuiltinHandler :=
  match b with
  | Slog.BoundAttrs attrs => Slog.WithAttrs enc attrs
  | Slog.BoundGroup name => Slog.WithGroup enc name
  end.

(** The decorations that bind something: [WithAttrs] with no attribute
    binds nothing. *)
Definition binds (b : Slog.Bound) : bool :=
  match b with
  | Slog.BoundAttrs [] => false
  | _ => true
  end.

(** The package variables of a process that has not touched the package. *)
Definition untouched (w : World) : Prop :=
  loggerOnce w = false /\ onceLogger w = None /\ onceFileHandler w = None
  /\ initErr w = None.
(* ===================================================================== *)
(** ** More data of the examples                                          *)
(* ===================================================================== *)

Module Ex2.

(** The process after [InitLogger(both)]: sink at address 1 on file
    object 3, fan-out logger at address 2. *)
Definition w_both : World := snd (InitLogger Ex.both Ex.w0).

Definition sink_both : DailyFileHandler :=
  mkDailyFileHandler Ex.both "2024-01-01" (Some 3%nat)
    (Some (Slog.NewJSONHandler 3 (Slog.mkOptions false 0)))
    (Some TickerRunning) (Some ChanOpen) false.

Definition bad_format : LogConfig :=
  mkLogConfig OutputTerminal "" "" 0 "xml" 0 false.

End Ex2.
(* ===================================================================== *)
(** ** Package [logger], first design                                     *)
(* ===================================================================== *)

(** The design the second one replaced: no [Output] selector, one fan-out
    over a colouring terminal handler and a file handler, decorations of
    the file handler as copies of it, the sweep started at each rotation. *)
Module V1.

Record LogConfig := mkLogConfig {
  Dir : string;
  FilenamePrefix : string;
  Format : string;
  RetainDays : Z;
  Level : Z;
  AddSource : bool
}.

(** The fields of a [DailyFileHandler]; [mu] is free between two method
    calls and is not represented.  [cfg] is the configuration as
    [InitLogger] left it. *)
Record DailyFileHandler := mkDailyFileHandler {
  cfg : LogConfig;
  curDate : string;
  curFile : option nat;
  curInner : option Slog.BuiltinHandler
}.

Record ColorHandler := mkColorHandler {
  ch_out : nat;
  ch_inner : Slog.BuiltinHandler;
  ch_opts : Slog.HandlerOptions
}.

Inductive Handler :=
| H_DailyFile (p : nat)
| H_Color (t : ColorHandler)
| H_Multi (handlers : list Handler).

Record Logger := mkLogger { logger_addr : nat; logger_handler : Handler }.

(** The state of the process.  [sweeps] are the goroutines started by
    [go h.cleanOldLogs()] that have not run yet, by the address of their
    handler; they run interleaved with the calls of the program. *)
Record World := mkWorld {
  fs : OS.FS;
  now : Time.Time;
  heap : gmap nat DailyFileHandler;
  next_addr : nat;
  loggerOnce : bool;
  onceLogger : option Logger;
  slog_default : option Logger;
  sweeps : list nat
}.

Definition set_fs (w : World) (fs' : OS.FS) : World :=
  mkWorld fs' (now w) (heap w) (next_addr w) (loggerOnce w) (onceLogger w)
          (slog_default w) (sweeps w).

Definition store (p : nat) (h : DailyFileHandler) (w : World) : World :=
  mkWorld (fs w) (now w) (<[p := h]> (heap w)) (next_addr w) (loggerOnce w)
          (onceLogger w) (slog_default w) (sweeps w).

(** [&DailyFileHandler{...}]: a new object. *)
Definition alloc (h : DailyFileHandler) (w : World) : nat * World :=
  (next_addr w,
   mkWorld (fs w) (now w) (<[next_addr w := h]> (heap w)) (S (next_addr w))
           (loggerOnce w) (onceLogger w) (slog_default w) (sweeps w)).

(** [go h.cleanOldLogs()] for the handler at [p]. *)
Definition spawn_sweep (p : nat) (w : World) : World :=
  mkWorld (fs w) (now w) (heap w) (next_addr w) (loggerOnce w) (onceLogger w)
          (slog_default w) (sweeps w ++ [p]).

Definition set_cur (h : DailyFileHandler) (date : string) (file : option nat)
    (enc : option Slog.BuiltinHandler) : DailyFileHandler :=
  mkDailyFileHandler (cfg h) date file enc.

Definition day_path (c : LogConfig) (date : string) : string :=
  Filepath.Join (Dir c) (FilenamePrefix c +:+ "-" +:+ date +:+ ".log").

Definition day_encoder (c : LogConfig) (f : nat) : Slog.BuiltinHandler :=
  let opts := Slog.mkOptions (AddSource c) (Level c) in
  if String.eqb (Format c) LogFormatJSON
  then Slog.NewJSONHandler f opts
  else Slog.NewTextHandler f opts.

(** [h.rotateIfNeeded(t)] for the handler at address [p] with fields [h]:
    the result of closing the old file is dropped. *)
Definition rotateIfNeeded (p : nat) (h : DailyFileHandler) (t : Time.Time)
    (w : World) : option error * DailyFileHandler * World :=
  let date := Time.Format_date t in
  if String.eqb date (curDate h) && bool_decide (curInner h <> None) then
    (None, h, w)
  else
    let '(h, w) :=
      match curFile h with
      | Some f =>
          let '(_, fs') := OS.Close f (fs w) in
          (set_cur h (curDate h) None None, set_fs w fs')
      | None => (h, w)
      end in
    match OS.OpenFile (day_path (cfg h) date) (fs w) with
    | (inr err, fs') =>
        (Some (fmt_Errorf "open log file failed: " err), h, set_fs w fs')
    | (inl file, fs') =>
        (None, set_cur h date (Some file) (Some (day_encoder (cfg h) file)),
         spawn_sweep p (set_fs w fs'))
    end.

(** [NewFileHandler(cfg)]. *)
Definition NewFileHandler (c : LogConfig) (w : World) : (nat + error) * World :=
  let p := next_addr w in
  match rotateIfNeeded p (mkDailyFileHandler c "" None None) (now w) w with
  | (Some err, _, w) => (inr err, w)
  | (None, handler, w) => (inl p, snd (alloc handler w))
  end.

Definition DailyFileHandler_Enabled (p : nat) (level : Z) (w : World) : bool :=
  match heap w !! p with
  | Some h => Level (cfg h) <=? level
  | None => false
  end.

Section Handlers.
Context `{Encoder}.

(** [h.Handle(ctx, r)] of a built-in handler. *)
Definition Builtin_Handle (h : Slog.BuiltinHandler) (r : Slog.Record)
    (w : World) : option error * World :=
  let '(err, fs') :=
    OS.Write (Slog.bh_w h)
             (encode (Slog.bh_layout h) (Slog.bh_opts h) (Slog.bh_bound h) r)
             (fs w) in
  (err, set_fs w fs').

(** [h.Handle(ctx, r)]. *)
Definition DailyFileHandler_Handle (p : nat) (r : Slog.Record) (w : World)
    : option error * World :=
  match heap w !! p with
  | None => (Some nil_receiver, w)
  | Some h =>
      let '(err, h, w) := rotateIfNeeded p h (Slog.Time r) w in
      match err with
      | Some e => (Some e, store p h w)
      | None =>
          match curInner h with
          | None => (Some (errors_New "file handler not initialized"), store p h w)
          | Some enc =>
              let '(e, w) := Builtin_Handle enc r w in (e, store p h w)
          end
      end
  end.

(** [h.WithAttrs(attrs)] and [h.WithGroup(name)]: a new handler object
    with the same configuration, date and file object, and the decorated
    encoder (none if the receiver has none). *)
Definition DailyFileHandler_derive
    (f : Slog.BuiltinHandler -> Slog.BuiltinHandler) (p : nat) (w : World)
    : Handler * World :=
  match heap w !! p with
  | None => (H_DailyFile p, w)
  | Some h =>
      let '(q, w) :=
        alloc (mkDailyFileHandler (cfg h) (curDate h) (curFile h)
                 (option_map f (curInner h))) w in
      (H_DailyFile q, w)
  end.

Definition DailyFileHandler_WithAttrs (p : nat) (attrs : list Slog.Attr) :=
  DailyFileHandler_derive (fun enc => Slog.WithAttrs enc attrs) p.

Definition DailyFileHandler_WithGroup (p : nat) (name : string) :=
  DailyFileHandler_derive (fun enc => Slog.WithGroup enc name) p.

(** [NewColorHandler(out, opts)], [opts] not nil. *)
Definition NewColorHandler (out : nat) (opts : Slog.HandlerOptions)
    : ColorHandler :=
  mkColorHandler out (Slog.NewTextHandler out opts) opts.

(** [h.Enabled]: that of the inner text handler. *)
Definition ColorHandler_Enabled (h : ColorHandler) (level : Z) : bool :=
  Slog.MinLevel (Slog.bh_opts (ch_inner h)) <=? level.

(** The colour chosen by the [switch] of [Handle]; none for
    [LevelInfo]. *)
Definition level_color (level : Z) : string :=
  if Slog.LevelError <=? level then colorRed
  else if level =? Slog.LevelWarn then colorYellow
  else if level =? Slog.LevelInfo then ""
  else colorGreen.

(** [h.Handle(ctx, r)]: the record is formatted into a new buffer by a
    new text handler over [h.opts]; the colour and the reset are written
    only when there is a colour. *)
Definition ColorHandler_Handle (h : ColorHandler) (r : Slog.Record)
    (w : World) : option error * World :=
  match Buffer_Handle (ch_opts h) r "" with
  | (Some err, _) => (Some err, w)
  | (None, buf) =>
      let color := level_color (Slog.Level r) in
      let fs1 := if String.eqb color "" then fs w
                 else snd (OS.Write (ch_out h) color (fs w)) in
      let '(err, fs2) := OS.Write (ch_out h) buf fs1 in
      let fs3 := if String.eqb color "" then fs2
                 else snd (OS.Write (ch_out h) colorReset fs2) in
      (err, set_fs w fs3)
  end.

Definition ColorHandler_WithAttrs (h : ColorHandler) (attrs : list Slog.Attr)
    : ColorHandler :=
  mkColorHandler (ch_out h) (Slog.WithAttrs (ch_inner h) attrs) (ch_opts h).

Definition ColorHandler_WithGroup (h : ColorHandler) (name : string)
    : ColorHandler :=
  mkColorHandler (ch_out h) (Slog.WithGroup (ch_inner h) name) (ch_opts h).

(** The handlers through the [slog.Handler] interface. *)
Fixpoint Enabled (h : Handler) (level : Z) (w : World) : bool :=
  match h with
  | H_DailyFile p => DailyFileHandler_Enabled p level w
  | H_Color t => ColorHandler_Enabled t level
  | H_Multi handlers =>
      (fix any (l : list Handler) : bool :=
         match l with
         | [] => false
         | m :: rest => if Enabled m level w then true else any rest
         end) handlers
  end.

(** [mh.Handle]: [handlerErr] keeps the first error. *)
Fixpoint Handle (h : Handler) (r : Slog.Record) (w : World)
    : option error * World :=
  match h with
  | H_DailyFile p => DailyFileHandler_Handle p r w
  | H_Color t => ColorHandler_Handle t r w
  | H_Multi handlers =>
      (fix loop (l : list Handler) (handlerErr : option error) (w : World)
         : option error * World :=
         match l with
         | [] => (handlerErr, w)
         | m :: rest =>
             if negb (Enabled m (Slog.Level r) w) then loop rest handlerErr w
             else
               let '(err, w) := Handle m r w in
               match err, handlerErr with
               | Some e, None => loop rest (Some e) w
               | _, _ => loop rest handlerErr w
               end
         end) handlers None w
  end.

(** What the specification asks of a fan-out, for the members of this
    design: every member that accepts the level is given the record, one
    after the other, whatever the earlier ones answered; the answers are
    kept in order. *)
Fixpoint deliver_all (handlers : list Handler) (r : Slog.Record) (w : World)
    : list (option error) * World :=
  match handlers with
  | [] => ([], w)
  | h :: rest =>
      if Enabled h (Slog.Level r) w then
        let '(res, w1) := Handle h r w in
        let '(more, w2) := deliver_all rest r w1 in
        (res :: more, w2)
      else deliver_all rest r w
  end.

(** [h.WithAttrs(attrs)] and [h.WithGroup(name)] through the interface;
    [b] is what is bound. *)
Fixpoint decorate (h : Handler) (b : Slog.Bound) (w : World) : Handler * World :=
  match h with
  | H_DailyFile p =>
      match b with
      | Slog.BoundAttrs attrs => DailyFileHandler_WithAttrs p attrs w
      | Slog.BoundGroup name => DailyFileHandler_WithGroup p name w
      end
  | H_Color t =>
      (H_Color match b with
               | Slog.BoundAttrs attrs => ColorHandler_WithAttrs t attrs
               | Slog.BoundGroup name => ColorHandler_WithGroup t name
               end, w)
  | H_Multi handlers =>
      let '(hs, w) :=
        (fix each (l : list Handler) (w : World) : list Handler * World :=
           match l with
           | [] => ([], w)
           | m :: rest =>
               let '(m', w) := decorate m b w in
               let '(rest', w) := each rest w in
               (m' :: rest', w)
           end) handlers w in
      (H_Multi hs, w)
  end.

(** A sequence of decorations, each on the result of the one before. *)
Definition decorate_all (h : Handler) (bs : list Slog.Bound) (w : World)
    : Handler * World :=
  fold_left (fun hw b => decorate (fst hw) b (snd hw)) bs (h, w).

End Handlers.

(** [now.Sub(date)]: the difference in nanoseconds, held to the range of
    [time.Duration]. *)
Definition maxDuration : Z := 2 ^ 63 - 1.
Definition minDuration : Z := - 2 ^ 63.

Definition Sub (t u : Time.Time) : Z :=
  Z.max minDuration (Z.min maxDuration (Time.unixNano t - Time.unixNano u)).

(** Arithmetic on [time.Duration], an [int64]: results wrap around. *)
Definition wrap64 (z : Z) : Z := (z + 2 ^ 63) mod 2 ^ 64 - 2 ^ 63.

Definition Hour : Z := 3600 * Time.nsPerSecond.

(** [time.Duration(h.cfg.RetainDays)*24*time.Hour]. *)
Definition retention (c : LogConfig) : Z :=
  wrap64 (wrap64 (RetainDays c * 24) * Hour).

(** The body of the loop of [cleanOldLogs] for one directory entry. *)
Definition clean_entry (c : LogConfig) (clock : Time.Time) (files : OS.FS)
    (entry : OS.DirEntry) : OS.FS :=
  let prefix := FilenamePrefix c +:+ "-" in
  let suffix := ".log" in
  if OS.IsDir entry then files
  else
    let name := OS.Name entry in
    let lp := String.length prefix in
    let ls := String.length suffix in
    let ln := String.length name in
    if (ln <=? lp + ls)%nat
       || negb (String.eqb (Strings.take lp name) prefix)
       || negb (String.eqb (Strings.drop (ln - ls) name) suffix)
    then files
    else
      let dateStr := Strings.take (ln - ls - lp) (Strings.drop lp name) in
      match Time.Parse_date dateStr with
      | None => files
      | Some date =>
          if retention c <? Sub clock date
          then snd (OS.Remove (Filepath.Join (Dir c) name) files)
          else files
      end.

(** The tests of [clean_entry] in one. *)
Definition entry_expired (c : LogConfig) (clock : Time.Time)
    (entry : OS.DirEntry) : bool :=
  let prefix := FilenamePrefix c +:+ "-" in
  let suffix := ".log" in
  let name := OS.Name entry in
  let lp := String.length prefix in
  let ls := String.length suffix in
  let ln := String.length name in
  negb (OS.IsDir entry)
  && negb ((ln <=? lp + ls)%nat
           || negb (String.eqb (Strings.take lp name) prefix)
           || negb (String.eqb (Strings.drop (ln - ls) name) suffix))
  && match Time.Parse_date (Strings.take (ln - ls - lp) (Strings.drop lp name))
     with
     | Some date => retention c <? Sub clock date
     | None => false
     end.

(** [h.cleanOldLogs()]: [clock] is what [time.Now()] answers. *)
Definition cleanOldLogs (c : LogConfig) (clock : Time.Time) (files : OS.FS)
    : OS.FS :=
  if RetainDays c <=? 0 then files
  else
    match OS.ReadDir (Dir c) files with
    | inr _ => files
    | inl entries => fold_left (clean_entry c clock) entries files
    end.

(** [InitLogger]: the defaults it writes into the caller's
    configuration. *)
Definition defaults (c : LogConfig) : LogConfig :=
  let c := if String.eqb (Dir c) ""
           then mkLogConfig "/var/log/diting" (FilenamePrefix c) (Format c)
                            (RetainDays c) (Level c) (AddSource c)
           else c in
  let c := if String.eqb (FilenamePrefix c) ""
           then mkLogConfig (Dir c) "diting" (Format c) (RetainDays c)
                            (Level c) (AddSource c)
           else c in
  if RetainDays c <=? 0
  then mkLogConfig (Dir c) (FilenamePrefix c) (Format c) 365 (Level c)
                   (AddSource c)
  else c.

(** [onceLogger = multi; slog.SetDefault(onceLogger)]. *)
Definition install (h : Handler) (w : World) : World :=
  let l := mkLogger (next_addr w) h in
  mkWorld (fs w) (now w) (heap w) (S (next_addr w)) (loggerOnce w) (Some l)
          (Some l) (sweeps w).

Definition set_loggerOnce (w : World) : World :=
  mkWorld (fs w) (now w) (heap w) (next_addr w) true (onceLogger w)
          (slog_default w) (sweeps w).

(** The function given to [loggerOnce.Do]: the configuration as it leaves
    it, what it assigns to the caller's local [initErr], the world. *)
Definition InitLogger_once (c : LogConfig) (w : World)
    : LogConfig * option error * World :=
  let c := defaults c in
  match OS.MkdirAll (Dir c) (fs w) with
  | (Some err, fs') =>
      (c, Some (fmt_Errorf "create log directory failed: " err), set_fs w fs')
  | (None, fs') =>
      let w := set_fs w fs' in
      let termHandler :=
        NewColorHandler OS.Stderr (Slog.mkOptions (AddSource c) (Level c)) in
      match NewFileHandler c w with
      | (inr err, w) => (c, Some err, w)
      | (inl p, w) =>
          (c, None, install (H_Multi [H_Color termHandler; H_DailyFile p]) w)
      end
  end.

(** [InitLogger(cfg)]: [initErr] is a variable of the call. *)
Definition InitLogger (c : LogConfig) (w : World)
    : (option Logger * option error) * LogConfig * World :=
  let '(c, initErr, w) :=
    if loggerOnce w then (c, None, w)
    else let '(c, e, w) := InitLogger_once c w in (c, e, set_loggerOnce w) in
  match initErr with
  | Some e => ((None, Some e), c, w)
  | None => ((onceLogger w, None), c, w)
  end.

(** [GetLogger()]: [None] stands for the logger Go starts with. *)
Definition GetLogger (w : World) : option Logger :=
  match onceLogger w with
  | Some l => Some l
  | None => slog_default w
  end.

Definition start (files : OS.FS) (clock : Time.Time) : World :=
  mkWorld files clock ∅ 1 false None None [].

End V1.
Module Ex3.

(** A configuration of the first design, and one with every field zero. *)
Definition cfg1 : V1.LogConfig := V1.mkLogConfig "logs" "app" "" 7 0 false.
Definition zero1 : V1.LogConfig := V1.mkLogConfig "" "" "" 0 0 false.
Definition forever1 : V1.LogConfig :=
  V1.mkLogConfig "logs" "app" "" 106752 0 false.

(** A process of the first design at noon of 2024-01-01 on an empty
    disk, and one that may not create [/var/log/diting]. *)
Definition v0 : V1.World := V1.start (OS.boot ∅ ∅) (Time.utc 2024 1 1 12 0).
Definition v_denied : V1.World :=
  V1.start (OS.boot ∅ {["/var/log/diting"]}) (Time.utc 2024 1 1 12 0).

(** After [InitLogger(cfg1)]: the file handler is at address 1 on file
    object 3, the logger at address 2. *)
Definition v_init : V1.World := snd (V1.InitLogger cfg1 v0).

Definition sink1 : V1.DailyFileHandler :=
  V1.mkDailyFileHandler cfg1 "2024-01-01" (Some 3%nat)
    (Some (Slog.NewTextHandler 3 (Slog.mkOptions false 0))).

End Ex3.
(* ===================================================================== *)
(** ** Packages [unicode/utf8], [strings] (continued), [bufio], [strconv] *)
(* ===================================================================== *)

Module Utf8.

Definition byte (c : ascii) : Z := Z.of_nat (nat_of_ascii c).

Definition between (lo hi b : Z) : bool := (lo <=? b) && (b <=? hi).

(** The width [utf8.DecodeRuneInString] reports for the first rune of a
    non-empty string: the length of a well-formed encoding (shortest form,
    no surrogate, at most U+10FFFF), and 1 for a byte that starts none. *)
Definition width (s : string) : nat :=
  match s with
  | EmptyString => 0%nat
  | String c0 rest =>
      let b0 := byte c0 in
      if b0 <? 128 then 1%nat
      else
        (* size and the range accepted for the second byte, from the table
           [first] *)
        let '(sz, lo, hi) :=
          if between 194 223 b0 then (2, 128, 191)
          else if b0 =? 224 then (3, 160, 191)
          else if between 225 236 b0 then (3, 128, 191)
          else if b0 =? 237 then (3, 128, 159)
          else if between 238 239 b0 then (3, 128, 191)
          else if b0 =? 240 then (4, 144, 191)
          else if between 241 243 b0 then (4, 128, 191)
          else if b0 =? 244 then (4, 128, 143)
          else (1, 0, 0) in
        if (sz =? 1) || (Z.of_nat (String.length s) <? sz) then 1%nat
        else
          match rest with
          | String c1 rest1 =>
              if negb (between lo hi (byte c1)) then 1%nat
              else if sz <=? 2 then 2%nat
              else
                match rest1 with
                | String c2 rest2 =>
                    if negb (between 128 191 (byte c2)) then 1%nat
                    else if sz <=? 3 then 3%nat
                    else
                      match rest2 with
                      | String c3 _ =>
                          if negb (between 128 191 (byte c3)) then 1%nat else 4%nat
                      | EmptyString => 1%nat
                      end
                | EmptyString => 1%nat
                end
          | EmptyString => 1%nat
          end
  end.

End Utf8.

(** Package [strings], continued. *)
Module Strs.

Fixpoint rev_onto (s acc : string) : string :=
  match s with
  | EmptyString => acc
  | String c s' => rev_onto s' (String c acc)
  end.

(** The bytes of [s], last one first. *)
Definition rev (s : string) : string := rev_onto s EmptyString.

(** [asciiSpace]: the six ASCII white-space bytes. *)
Definition ascii_space (b : Z) : bool :=
  (b =? 9) || (b =? 10) || (b =? 11) || (b =? 12) || (b =? 13) || (b =? 32).

(** [unicode.IsSpace] on an encoded rune of two bytes (U+0085, U+00A0)
    and of three bytes (U+1680, U+2000..U+200A, U+2028, U+2029, U+202F,
    U+205F, U+3000). *)
Definition space2 (b0 b1 : Z) : bool :=
  (b0 =? 194) && ((b1 =? 133) || (b1 =? 160)).

Definition space3 (b0 b1 b2 : Z) : bool :=
  ((b0 =? 225) && (b1 =? 154) && (b2 =? 128))
  || ((b0 =? 226) && (b1 =? 128)
        && (Utf8.between 128 138 b2 || (b2 =? 168) || (b2 =? 169) || (b2 =? 175)))
  || ((b0 =? 226) && (b1 =? 129) && (b2 =? 159))
  || ((b0 =? 227) && (b1 =? 128) && (b2 =? 128)).

(** The number of bytes of the white-space rune [s] starts with; 0 when
    it starts with none. *)
Definition space_prefix (s : string) : nat :=
  match s with
  | String c0 rest =>
      if ascii_space (Utf8.byte c0) then 1%nat
      else
        match rest with
        | String c1 rest1 =>
            if space2 (Utf8.byte c0) (Utf8.byte c1) then 2%nat
            else
              match rest1 with
              | String c2 _ =>
                  if space3 (Utf8.byte c0) (Utf8.byte c1) (Utf8.byte c2)
                  then 3%nat else 0%nat
              | EmptyString => 0%nat
              end
        | EmptyString => 0%nat
        end
  | EmptyString => 0%nat
  end.

(** The same for the white-space rune [s] ends with, on the reversed
    string [r]: what [utf8.DecodeLastRuneInString] finds. *)
Definition space_suffix_rev (r : string) : nat :=
  match r with
  | String c0 rest =>
      if ascii_space (Utf8.byte c0) then 1%nat
      else
        match rest with
        | String c1 rest1 =>
            if space2 (Utf8.byte c1) (Utf8.byte c0) then 2%nat
            else
              match rest1 with
              | String c2 _ =>
                  if space3 (Utf8.byte c2) (Utf8.byte c1) (Utf8.byte c0)
                  then 3%nat else 0%nat
              | EmptyString => 0%nat
              end
        | EmptyString => 0%nat
        end
  | EmptyString => 0%nat
  end.

(** Runes are taken off the front while [width] finds one to take. *)
Fixpoint strip (width : string -> nat) (fuel : nat) (s : string) : string :=
  match fuel with
  | O => s
  | S fuel' =>
      match width s with
      | O => s
      | n => strip width fuel' (Strings.drop n s)
      end
  end.

(** [strings.TrimLeftFunc(s, unicode.IsSpace)] and
    [strings.TrimRightFunc(s, unicode.IsSpace)]. *)
Definition TrimLeft (s : string) : string :=
  strip space_prefix (String.length s) s.

Definition TrimRight (s : string) : string :=
  rev (strip space_suffix_rev (String.length s) (rev s)).

(** [strings.TrimSpace(s)]: its fast path over ASCII bytes computes the
    same as [TrimFunc(s, unicode.IsSpace)], which it falls back to. *)
Definition TrimSpace (s : string) : string := TrimRight (TrimLeft s).

(** Every byte of [s] is ASCII white space. *)
Fixpoint blank (s : string) : bool :=
  match s with
  | EmptyString => true
  | String c s' => ascii_space (Utf8.byte c) && blank s'
  end.

(** [strings.Index(s, sep)] for a non-empty [sep]: the index of its first
    occurrence. *)
Fixpoint Index (s sep : string) : option nat :=
  if Strings.HasPrefix s sep then Some O
  else
    match s with
    | EmptyString => None
    | String _ s' => option_map S (Index s' sep)
    end.

(** [strings.SplitN(line, sep, 2)] for a non-empty [line], when it has
    two parts: around the first occurrence of [sep]; for an empty [sep],
    the first rune and the rest. *)
Definition SplitN2 (line sep : string) : option (string * string) :=
  if String.eqb sep "" then
    let n := Utf8.width line in
    if String.eqb (Strings.drop n line) "" then None
    else Some (Strings.take n line, Strings.drop n line)
  else
    match Index line sep with
    | Some i =>
        Some (Strings.take i line, Strings.drop (i + String.length sep) line)
    | None => None
    end.

End Strs.

Module Bufio.

Definition LF : ascii := "010"%char.
Definition CR : ascii := "013"%char.

(** [MaxScanTokenSize]: the most a scanner buffers. *)
Definition MaxScanTokenSize : Z := 64 * 1024.

(** What is between the line feeds of [s]; never empty. *)
Fixpoint pieces (s : string) : list string :=
  match s with
  | EmptyString => [EmptyString]
  | String c s' =>
      if Ascii.eqb c LF then EmptyString :: pieces s'
      else match pieces s' with
           | x :: xs => String c x :: xs
           | [] => [String c EmptyString]
           end
  end.

(** The lines [ScanLines] sees: what follows the last line feed is a line
    only when it is not empty. *)
Definition lines (s : string) : list string :=
  let ps := pieces s in
  if String.eqb (List.last ps "") "" then removelast ps else ps.

(** [dropCR]. *)
Definition dropCR (line : string) : string :=
  match Strs.rev line with
  | String c r => if Ascii.eqb c CR then Strs.rev r else line
  | EmptyString => line
  end.

Definition fits (line : string) : bool :=
  Z.of_nat (String.length line) <? MaxScanTokenSize.

(** The tokens successive calls of [scanner.Scan()] deliver for a scanner
    with [ScanLines] and the default buffer over [strings.NewReader(text)]:
    a line, with its line feed, has to fit the buffer, and at the first one
    that does not [Scan] returns false for good (with [ErrTooLong], for
    whoever asks [scanner.Err()]). *)
Fixpoint tokens_of (ls : list string) : list string :=
  match ls with
  | [] => []
  | l :: rest => if fits l then dropCR l :: tokens_of rest else []
  end.

Definition Scan_all (text : string) : list string := tokens_of (lines text).

(** No byte of [s] is a line feed. *)
Fixpoint one_line (s : string) : bool :=
  match s with
  | EmptyString => true
  | String c s' => negb (Ascii.eqb c LF) && one_line s'
  end.

End Bufio.

Module Strconv.

Inductive NumErrKind := ErrSyntax | ErrRange.

Definition maxUint64 : Z := 2 ^ 64 - 1.

(** The loop of [ParseUint(s, 10, 64)]: [n] is the value so far. *)
Fixpoint ParseUint_loop (s : string) (n : Z) : Z * option NumErrKind :=
  match s with
  | EmptyString => (n, None)
  | String c s' =>
      match Time.digitVal c with
      | None => (0, Some ErrSyntax)
      | Some d =>
          if maxUint64 / 10 + 1 <=? n then (maxUint64, Some ErrRange)
          else
            let n1 := n * 10 + d in
            if maxUint64 <? n1 then (maxUint64, Some ErrRange)
            else ParseUint_loop s' n1
      end
  end.

(** [strconv.ParseUint(s, 10, 64)]. *)
Definition ParseUint (s : string) : Z * option NumErrKind :=
  if String.eqb s "" then (0, Some ErrSyntax) else ParseUint_loop s 0.

(** [strconv.ParseInt(s, 10, 0)] with 64-bit [int]. *)
Definition ParseInt (s : string) : Z * option NumErrKind :=
  match s with
  | EmptyString => (0, Some ErrSyntax)
  | String c rest =>
      let neg := Ascii.eqb c "-"%char in
      let digits := if neg || Ascii.eqb c "+"%char then rest else s in
      match ParseUint digits with
      | (_, Some ErrSyntax) => (0, Some ErrSyntax)
      | (un, _) =>
          let cutoff := 2 ^ 63 in
          if negb neg && (cutoff <=? un) then (cutoff - 1, Some ErrRange)
          else if neg && (cutoff <? un) then (- cutoff, Some ErrRange)
          else (if neg then - un else un, None)
      end
  end.

(** [strconv.Atoi(s)]: its fast path for short strings computes what
    [ParseInt(s, 10, 0)] computes. *)
Definition Atoi (s : string) : Z * option NumErrKind := ParseInt s.

(** [strconv.Itoa(n)], [strconv.FormatUint(n, 10)]. *)
Definition Itoa (n : Z) : string := Time.appendInt n 0.

End Strconv.

(* ===================================================================== *)
(** ** Package [utils]                                                    *)
(* ===================================================================== *)

Module Utils.

(** The body of the loop of [ParseKeyValue] for one line. *)
Definition parse_line (sep : string) (result : gmap string string)
    (line : string) : gmap string string :=
  if String.eqb line "" then result
  else
    match Strs.SplitN2 line sep with
    | Some (k, v) => <[Strs.TrimSpace k := Strs.TrimSpace v]> result
    | None => result
    end.

(** [ParseKeyValue(text, sep)]; [scanner.Err()] is not looked at. *)
Definition ParseKeyValue (text sep : string) : gmap string string :=
  fold_left (parse_line sep) (Bufio.Scan_all text) ∅.

(** [os.ReadFile(path)]. *)
Definition ReadFile (path : string) (files : OS.FS) : string + error :=
  if decide (path ∈ OS.fs_deny files)
  then inr (PathError "open" path OS.ErrPermission)
  else match OS.fs_nodes files !! path with
       | Some (OS.RegularFile c) => inl c
       | Some OS.Directory => inr (PathError "read" path OS.EISDIR)
       | None => inr (PathError "open" path OS.ErrNotExist)
       end.

(** The errors of the readers: that of the file system, or a
    [*strconv.NumError] with the text that did not convert. *)
Inductive ReadError :=
| FileError (e : error)
| NumError (num : string) (kind : Strconv.NumErrKind).

(** [ReadSysfsFile(path)]. *)
Definition ReadSysfsFile (path : string) (files : OS.FS) : string * option error :=
  match ReadFile path files with
  | inr err => ("", Some err)
  | inl data => (Strs.TrimSpace data, None)
  end.

Definition convert (conv : string -> Z * option Strconv.NumErrKind)
    (path : string) (files : OS.FS) : Z * option ReadError :=
  match ReadSysfsFile path files with
  | (_, Some err) => (0, Some (FileError err))
  | (data, None) =>
      match conv data with
      | (n, None) => (n, None)
      | (n, Some kind) => (n, Some (NumError data kind))
      end
  end.

(** [ReadSysfsInt(path)] and [ReadSysfsUint64(path)]. *)
Definition ReadSysfsInt := convert Strconv.Atoi.
Definition ReadSysfsUint64 := convert Strconv.ParseUint.

End Utils.
(* ===================================================================== *)
(** ** Packages [model] and [network]                                     *)
(* ===================================================================== *)

Module Model.

Record NetInterface := mkNetInterface {
  DeviceName : string;
  MACAddress : string;
  Driver : string;
  DriverVersion : string;
  FirmwareVersion : string;
  Status : string;
  Speed : string;
  Duplex : string;
  MTU : string;
  Port : string;
  LinkDetected : string
}.

(** The zero value of the struct. *)
Definition zero : NetInterface := mkNetInterface "" "" "" "" "" "" "" "" "" "" "".

End Model.

Module Network.

Definition sysfsNet : string := "/sys/class/net".

Definition collectNetInterface (name : string) : Model.NetInterface :=
  Model.mkNetInterface name "" "" "" "" "" "" "" "" "" "".

(** The body of the loop of [collectNetInterfaces]; [netInterfaces] is the
    slice so far. *)
Definition collect_step (netInterfaces : list Model.NetInterface)
    (dir : OS.DirEntry) : list Model.NetInterface :=
  if negb (OS.IsDir dir) then netInterfaces
  else
    let dirName := OS.Name dir in
    if Strings.HasPrefix dirName "lo" || Strings.HasPrefix dirName "loop"
    then netInterfaces
    else netInterfaces ++ [collectNetInterface dirName].

(** [collectNetInterfaces()]: the slice starts as
    [make([]model.NetInterface, len(dirs))]. *)
Definition collectNetInterfaces (files : OS.FS)
    : list Model.NetInterface + error :=
  match OS.ReadDir sysfsNet files with
  | inr err => inr (fmt_Errorf "read directory /sys/class/net failed: " err)
  | inl dirs =>
      inl (fold_left collect_step dirs (repeat Model.zero (length dirs)))
  end.

End Network.

(* ===================================================================== *)
(** ** Package [executor]                                                 *)
(* ===================================================================== *)

Module Executor.

(** Error values that wrap nothing: the four of this package, the two of
    [context], what [os/exec] reports, and others by their text. *)
Inductive leaf :=
| ErrEmptyCommand
| ErrTimeOut
| ErrCanceled
| ErrExit
| DeadlineExceeded
| Canceled
| ExitError (code : Z)
| Foreign (msg : string).

#[global] Instance leaf_eq_dec : EqDecision leaf.
Proof. solve_decision. Defined.

(** Error values: [Wrap] is what [fmt.Errorf] returns, with its text and
    the operands of its [%w] verbs, which [Unwrap] gives back. *)
Inductive err :=
| Leaf (l : leaf)
| Wrap (text : string) (wrapped : list err).

Definition leaf_text (l : leaf) : string :=
  match l with
  | ErrEmptyCommand => "empty command"
  | ErrTimeOut => "command timed out"
  | ErrCanceled => "command canceled"
  | ErrExit => "command exited with error"
  | DeadlineExceeded => "context deadline exceeded"
  | Canceled => "context canceled"
  | ExitError code => "exit status " +:+ Strconv.Itoa code
  | Foreign msg => msg
  end.

(** [err.Error()]. *)
Definition Error (e : err) : string :=
  match e with Leaf l => leaf_text l | Wrap text _ => text end.

(** [errors.Is(e, target)] for a [target] that wraps nothing: [e] is the
    target, or something it wraps, at any depth, is. *)
Fixpoint Is (e : err) (target : leaf) : bool :=
  match e with
  | Leaf l => bool_decide (l = target)
  | Wrap _ wrapped => existsb (fun x => Is x target) wrapped
  end.

(** [fmt.Errorf("%w: %w", a, b)] and [fmt.Errorf("%s: %w", a, b)]. *)
Definition Errorf_w_w (a b : err) : err :=
  Wrap (Error a +:+ ": " +:+ Error b) [a; b].

Definition Errorf_s_w (a b : err) : err :=
  Wrap (Error a +:+ ": " +:+ Error b) [b].

(** A context as far as the package looks at it: nil or not. *)
Inductive Context := NilContext | LiveContext (deadline : option Z).

(** What running a command gives: what it wrote to the one buffer behind
    [Stdout] and [Stderr], the error of [cmd.Run()], and [ctx.Err()] once
    it has returned. *)
Record Ran := mkRan {
  output : string;
  run_err : option err;
  ctx_err : option leaf
}.

Definition DefaultTimeout : Z := 20 * 60 * Time.nsPerSecond.

Section Running.

(** [exec.CommandContext(ctx, name, args...)] with the buffer attached,
    then [cmd.Run()]: the operating system decides. *)
Variable Run : Context -> string -> list string -> Ran.

(** [ExecutorWithContext] of [pkg/executor/execute.go]. *)
Definition ExecutorWithContext (ctx : Context) (name : string)
    (args : list string) : string * option err :=
  if String.eqb name "" then ("", Some (Leaf ErrEmptyCommand))
  else
    let ran := Run ctx name args in
    match run_err ran with
    | None => (output ran, None)
    | Some e =>
        if Is e DeadlineExceeded
        then (output ran, Some (Errorf_w_w (Leaf ErrTimeOut) e))
        else if Is e Canceled
        then (output ran, Some (Errorf_w_w (Leaf ErrCanceled) e))
        else (output ran, Some (Errorf_w_w (Leaf ErrExit) e))
    end.

(** [ExecuteWithContext] of the other copy of the package. *)
Definition ExecuteWithContext (ctx : Context) (name : string)
    (args : list string) : string * option err :=
  if String.eqb name "" then ("", Some (Leaf ErrEmptyCommand))
  else
    match ctx with
    | NilContext => ("", Some (Leaf (Foreign "context cannot be nil")))
    | _ =>
        let ran := Run ctx name args in
        match run_err ran with
        | None => (output ran, None)
        | Some e =>
            (output ran,
             Some (if bool_decide (ctx_err ran = Some DeadlineExceeded)
                   then Errorf_s_w (Leaf ErrTimeOut) e
                   else if bool_decide (ctx_err ran = Some Canceled)
                   then Errorf_s_w (Leaf ErrCanceled) e
                   else Errorf_s_w (Leaf ErrExit) e))
        end
    end.

(** [Execute], [ExecutorWtihTimeout], [ExecuteShell],
    [ExecuteShellWithTimeout] of [execute.go]; [clock] is the time of the
    call. *)
Definition ExecutorWtihTimeout (clock timeout : Z) (name : string)
    (args : list string) : string * option err :=
  ExecutorWithContext (LiveContext (Some (clock + timeout))) name args.

Definition Execute (clock : Z) (name : string) (args : list string)
    : string * option err :=
  ExecutorWtihTimeout clock DefaultTimeout name args.

Definition ExecuteShell (clock : Z) (cmd : string) : string * option err :=
  if String.eqb cmd "" then ("", Some (Leaf ErrEmptyCommand))
  else Execute clock "bash" ["-c"; cmd].

Definition ExecuteShellWithTimeout (clock timeout : Z) (cmd : string)
    : string * option err :=
  if String.eqb cmd "" then ("", Some (Leaf ErrEmptyCommand))
  else ExecutorWtihTimeout clock timeout "bash" ["-c"; cmd].

End Running.

(** The errors of this package. *)
Definition own (l : leaf) : bool :=
  match l with
  | ErrEmptyCommand | ErrTimeOut | ErrCanceled | ErrExit => true
  | _ => false
  end.

(** An error that holds none of them: what [os/exec] and [context]
    return. *)
Definition foreign (e : err) : Prop :=
  forall l, own l = true -> Is e l = false.

End Executor.
Module Ex4.

(** [/sys/class/net] with two interfaces, the loopback, and a file. *)
Definition net_disk : gmap string OS.Node :=
  <["/sys/class/net" := OS.Directory]>
    (<["/sys/class/net/eth0" := OS.Directory]>
       (<["/sys/class/net/lo" := OS.Directory]>
          (<["/sys/class/net/wlan0" := OS.Directory]>
             (<["/sys/class/net/bonding_masters" := OS.RegularFile "bond0"]>
                (<["/sys/class/net/eth0/mtu"
                    := OS.RegularFile ("1500" +:+ String Bufio.LF "")]> ∅))))).

Definition net_files : OS.FS := OS.boot net_disk ∅.

(** A run that wrote something and was stopped by the deadline, as
    [cmd.Run()] and [ctx.Err()] tell it. *)
Definition timed_out (ctx : Executor.Context) (name : string)
    (args : list string) : Executor.Ran :=
  Executor.mkRan "partial" (Some (Executor.Leaf (Executor.ExitError (-1))))
                 (Some Executor.DeadlineExceeded).

(** A text with a key bound twice, and a line longer than the scanner
    takes. *)
Definition kv_text : string :=
  "name: eth0" +:+ String Bufio.LF ("mtu : 1500" +:+ String Bufio.LF "").

Fixpoint filler (n : nat) : string :=
  match n with O => EmptyString | S n' => String "x"%char (filler n') end.

Definition long_line : string := filler (Z.to_nat 65536).

End Ex4.
(** Two worlds in which every file sink has the level it has in the
    other. *)
Definition same_levels (w w' : World) : Prop :=
  forall p : nat,
    (fun h => Level (cfg h)) <$> heap w' !! p
    = (fun h => Level (cfg h)) <$> heap w !! p.

(* ===================================================================== *)
(** ** Data of the examples that set the two designs side by side         *)
(* ===================================================================== *)

Module Ex5.

(** The logger [InitLogger] of the first design builds for [Ex3.cfg1]:
    the colouring handler on the terminal, then the file handler at
    address 1. *)
Definition first_members : list V1.Handler :=
  [V1.H_Color (V1.NewColorHandler OS.Stderr (Slog.mkOptions false 0));
   V1.H_DailyFile 1].

(** A process of the first design in which the day-file of 2024-01-02
    cannot be opened, after [InitLogger(cfg1)] on 2024-01-01 and after the
    program has closed [os.Stderr]. *)
Definition v_locked : V1.World :=
  V1.start (OS.boot ∅ {["logs/app-2024-01-02.log"]}) (Time.utc 2024 1 1 12 0).

Definition v_mute : V1.World :=
  let w := snd (V1.InitLogger Ex3.cfg1 v_locked) in
  V1.set_fs w (snd (OS.Close OS.Stderr (V1.fs w))).

(** The same for the second design, with both outputs. *)
Definition w_locked : World :=
  start (OS.boot ∅ {["logs/app-2024-01-02.log"]}) (Time.utc 2024 1 1 12 0).

Definition w_mute : World :=
  let w := snd (InitLogger Ex.both w_locked) in
  set_fs w (snd (OS.Close OS.Stderr (fs w))).

(** A process of the second design that may not create [logs]. *)
Definition w_denied : World :=
  start (OS.boot ∅ {["logs"]}) (Time.utc 2024 1 1 12 0).

(** A process of the first design on 2024-01-10 over the log directory of
    [Ex.old_disk], and its state after [InitLogger(forever1)], whose first
    rotation has started one sweep. *)
Definition v_old : V1.World :=
  V1.start (OS.boot Ex.old_disk ∅) (Time.utc 2024 1 10 12 0).

Definition v_forever : V1.World := snd (V1.InitLogger Ex3.forever1 v_old).

End Ex5.

(* ===================================================================== *)
(** * Properties                                                          *)
(* ===================================================================== *)

#[local] Arguments String.append : simpl nomatch.

(** ** Strings *)

Module StringFacts.
Import Strings.

Lemma app_assoc (a b c : string) : (a +:+ b) +:+ c = a +:+ b +:+ c.
Proof. induction a as [|x a IH]; simpl; [reflexivity | now rewrite IH]. Qed.

Lemma app_nil_r (a : string) : a +:+ "" = a.
Proof. induction a as [|x a IH]; simpl; [reflexivity | now rewrite IH]. Qed.

Lemma length_app (a b : string) :
  String.length (a +:+ b) = (String.length a + String.length b)%nat.
Proof. induction a as [|x a IH]; simpl; [reflexivity | now rewrite IH]. Qed.

Lemma app_inv_head (a b c : string) : a +:+ b = a +:+ c -> b = c.
Proof.
  induction a as [|x a IH]; simpl; intros E; [exact E|].
  injection E as E. auto.
Qed.

Lemma app_inv_tail (a b c : string) : a +:+ c = b +:+ c -> a = b.
Proof.
  revert b. induction a as [|x a IH]; intros [|y b] E; simpl in E.
  - reflexivity.
  - apply (f_equal String.length) in E. simpl in E.
    rewrite length_app in E. lia.
  - apply (f_equal String.length) in E. simpl in E.
    rewrite length_app in E. lia.
  - injection E as -> E. f_equal. auto.
Qed.

Lemma drop_app (a b : string) : drop (String.length a) (a +:+ b) = b.
Proof. induction a as [|x a IH]; simpl; auto. Qed.

Lemma drop_app_add (a b : string) (n : nat) :
  drop (String.length a + n) (a +:+ b) = drop n b.
Proof. induction a as [|x a IH]; simpl; auto. Qed.

Lemma take_app (a b : string) : take (String.length a) (a +:+ b) = a.
Proof. induction a as [|x a IH]; simpl; [reflexivity | now rewrite IH]. Qed.

Lemma take_drop (n : nat) (s : string) : take n s +:+ drop n s = s.
Proof.
  revert s. induction n as [|n IH]; intros [|x s]; simpl; try reflexivity.
  now rewrite IH.
Qed.

Lemma length_drop (n : nat) (s : string) :
  String.length (drop n s) = (String.length s - n)%nat.
Proof. revert s. induction n as [|n IH]; intros [|x s]; simpl; auto. Qed.

Lemma HasPrefix_app (p t : string) : HasPrefix (p +:+ t) p = true.
Proof.
  induction p as [|x p IH]; simpl; [reflexivity|].
  now rewrite Ascii.eqb_refl.
Qed.

Lemma HasPrefix_inv (s p : string) :
  HasPrefix s p = true -> s = p +:+ drop (String.length p) s.
Proof.
  revert s. induction p as [|x p IH]; intros s E; simpl in *; [reflexivity|].
  destruct s as [|y s]; [discriminate|].
  destruct (Ascii.eqb x y) eqn:Exy; [|discriminate].
  apply Ascii.eqb_eq in Exy as ->. simpl. f_equal. auto.
Qed.

Lemma TrimPrefix_app (p t : string) : TrimPrefix (p +:+ t) p = t.
Proof. unfold TrimPrefix. now rewrite HasPrefix_app, drop_app. Qed.

Lemma HasSuffix_app (t suf : string) : HasSuffix (t +:+ suf) suf = true.
Proof.
  unfold HasSuffix. rewrite length_app.
  replace (String.length t + String.length suf - String.length suf)%nat
    with (String.length t) by lia.
  rewrite drop_app, String.eqb_refl, andb_true_r.
  apply Nat.leb_le. lia.
Qed.

Lemma HasSuffix_inv (s suf : string) :
  HasSuffix s suf = true ->
  s = take (String.length s - String.length suf) s +:+ suf.
Proof.
  unfold HasSuffix. intros [_ E]%andb_true_iff.
  apply String.eqb_eq in E.
  set (n := (String.length s - String.length suf)%nat) in *.
  rewrite <- E. symmetry. apply take_drop.
Qed.

Lemma TrimSuffix_app (t suf : string) : TrimSuffix (t +:+ suf) suf = t.
Proof.
  unfold TrimSuffix. rewrite HasSuffix_app, length_app.
  replace (String.length t + String.length suf - String.length suf)%nat
    with (String.length t) by lia.
  apply take_app.
Qed.

(** A name that starts with [p] and ends with [suf] and is long enough
    for both is [p], a middle part, and [suf]. *)
Lemma prefix_suffix_split (s p suf : string) :
  HasPrefix s p = true -> HasSuffix s suf = true ->
  (String.length suf <= String.length (TrimPrefix s p))%nat ->
  s = p +:+ TrimSuffix (TrimPrefix s p) suf +:+ suf
  /\ HasSuffix (TrimPrefix s p) suf = true.
Proof.
  intros Hp Hs Hlen.
  assert (Ht : TrimPrefix s p = drop (String.length p) s)
    by (unfold TrimPrefix; now rewrite Hp).
  rewrite Ht in *.
  set (t := drop (String.length p) s) in *.
  assert (Es : s = p +:+ t) by (apply HasPrefix_inv; exact Hp).
  assert (Hts : HasSuffix t suf = true).
  { unfold HasSuffix in *. apply andb_true_iff in Hs as [_ Hs].
    apply andb_true_iff. split; [apply Nat.leb_le; exact Hlen|].
    rewrite <- Hs. f_equal.
    rewrite Es at 2. rewrite Es at 1. rewrite length_app.
    replace (String.length p + String.length t - String.length suf)%nat
      with (String.length p + (String.length t - String.length suf))%nat by lia.
    symmetry. apply drop_app_add. }
  split; [|exact Hts].
  rewrite Es at 1. f_equal.
  unfold TrimSuffix. rewrite Hts. now apply HasSuffix_inv.
Qed.

End StringFacts.

(** ** Files *)

Module OSFacts.
Import OS.

Lemma content_Some path files c :
  content path files = Some c <-> fs_nodes files !! path = Some (RegularFile c).
Proof.
  unfold content. destruct (fs_nodes files !! path) as [[|]|]; split;
    intros E; congruence.
Qed.

(** Writing to an open file whose name is still on disk appends. *)
Lemma Write_open f b files name c :
  fs_files files !! f = Some (mkFile name true) ->
  content name files = Some c ->
  Write f b files =
    (None, set_nodes files (<[name := RegularFile (c +:+ b)]> (fs_nodes files))).
Proof.
  intros Hf Hc%content_Some. unfold Write. now rewrite Hf, Hc.
Qed.

Lemma Write_closed f b files name :
  fs_files files !! f = Some (mkFile name false) ->
  Write f b files = (Some (PathError "write" name ErrClosed), files).
Proof. intros Hf. unfold Write. now rewrite Hf. Qed.

Lemma content_set_nodes_eq files nodes name c :
  content name (set_nodes files (<[name := RegularFile c]> nodes)) = Some c.
Proof. unfold content. simpl. now rewrite lookup_insert_eq. Qed.

Lemma set_nodes_set_nodes files n1 n2 :
  set_nodes (set_nodes files n1) n2 = set_nodes files n2.
Proof. reflexivity. Qed.

End OSFacts.

(** ** The terminal sink *)

Section Terminal.
Context `{Encoder}.

Lemma TerminalHandler_WithAttrs_id t attrs : TerminalHandler_WithAttrs t attrs = t.
Proof. now destruct t. Qed.

Lemma TerminalHandler_WithGroup_id t name : TerminalHandler_WithGroup t name = t.
Proof. now destruct t. Qed.

Lemma decorate_all_terminal t bs w :
  decorate_all (H_Terminal t) bs w = H_Terminal t.
Proof.
  unfold decorate_all. induction bs as [|[attrs|name] bs IH]; simpl.
  - reflexivity.
  - now rewrite TerminalHandler_WithAttrs_id.
  - now rewrite TerminalHandler_WithGroup_id.
Qed.

(** The four colours differ from one another and from the reset
    sequence. *)
Lemma colors_distinct :
  NoDup [colorRed; colorYellow; colorBlue; colorGray; colorReset].
Proof.
  repeat (apply NoDup_cons; split;
          [rewrite ?elem_of_cons, elem_of_nil; intuition discriminate|]).
  apply NoDup_nil. exact I.
Qed.

Lemma level_color_cases level :
  (Slog.LevelError <= level -> level_color level = colorRed)
  /\ (level = Slog.LevelWarn -> level_color level = colorYellow)
  /\ (level = Slog.LevelInfo -> level_color level = colorBlue)
  /\ (level < Slog.LevelInfo -> level_color level = colorGray)
  /\ (Slog.LevelInfo < level < Slog.LevelWarn
      \/ Slog.LevelWarn < level < Slog.LevelError -> level_color level = colorGray).
Proof.
  unfold level_color, Slog.LevelError, Slog.LevelWarn, Slog.LevelInfo.
  repeat split; intros Hl.
  - destruct (Z.leb_spec 8 level); [reflexivity | lia].
  - subst. reflexivity.
  - subst. reflexivity.
  - destruct (Z.leb_spec 8 level); [lia|].
    destruct (Z.eqb_spec level 4); [lia|].
    destruct (Z.eqb_spec level 0); [lia|]. reflexivity.
  - destruct (Z.leb_spec 8 level); [lia|].
    destruct (Z.eqb_spec level 4); [lia|].
    destruct (Z.eqb_spec level 0); [lia|]. reflexivity.
Qed.

(** A colourising handler writes colour, record, reset, and fails only
    if the terminal cannot be written. *)
Lemma TerminalHandler_Handle_open t r w name shown :
  th_colorize t = true ->
  OS.fs_files (fs w) !! th_out t = Some (OS.mkFile name true) ->
  OS.content name (fs w) = Some shown ->
  TerminalHandler_Handle t r w =
    (None,
     set_fs w (OS.set_nodes (fs w)
       (<[name := OS.RegularFile
                    (shown +:+ level_color (Slog.Level r)
                       +:+ encode Slog.TextLayout (th_opts t) [] r
                       +:+ colorReset)]> (OS.fs_nodes (fs w))))).
Proof.
  intros Hc Hf Hs. unfold TerminalHandler_Handle, Buffer_Handle. rewrite Hc.
  rewrite (OSFacts.Write_open _ _ _ _ _ Hf Hs).
  erewrite OSFacts.Write_open;
    [|exact Hf|apply OSFacts.content_set_nodes_eq].
  erewrite OSFacts.Write_open;
    [|exact Hf|apply OSFacts.content_set_nodes_eq].
  unfold OS.set_nodes. cbn [OS.fs_nodes OS.fs_files OS.fs_next OS.fs_deny].
  rewrite !insert_insert_eq.
  now rewrite !StringFacts.app_assoc.
Qed.

(** A handler that does not colourise writes the record alone. *)
Lemma TerminalHandler_Handle_open_plain t r w name shown :
  th_colorize t = false ->
  OS.fs_files (fs w) !! th_out t = Some (OS.mkFile name true) ->
  OS.content name (fs w) = Some shown ->
  TerminalHandler_Handle t r w =
    (None,
     set_fs w (OS.set_nodes (fs w)
       (<[name := OS.RegularFile
                    (shown +:+ encode Slog.TextLayout (th_opts t) [] r)]>
          (OS.fs_nodes (fs w))))).
Proof.
  intros Hc Hf Hs. unfold TerminalHandler_Handle, Buffer_Handle. rewrite Hc.
  now rewrite (OSFacts.Write_open _ _ _ _ _ Hf Hs).
Qed.

(** On a terminal that has been closed nothing is written and the error is
    that of the write. *)
Lemma TerminalHandler_Handle_closed t r w name :
  OS.fs_files (fs w) !! th_out t = Some (OS.mkFile name false) ->
  TerminalHandler_Handle t r w = (Some (PathError "write" name OS.ErrClosed), w).
Proof.
  intros Hf.
  assert (Hw : forall b, OS.Write (th_out t) b (fs w)
                         = (Some (PathError "write" name OS.ErrClosed), fs w))
    by (intros b; unfold OS.Write; now rewrite Hf).
  unfold TerminalHandler_Handle, Buffer_Handle.
  destruct (th_colorize t); rewrite !Hw; now destruct w.
Qed.

(** C7. A terminal handler [t] decorated through [WithAttrs] and
    [WithGroup] in any number and order.  [Handle] of the decorated handler
    formats the record with a text encoder over the options of [t] with
    nothing bound, and hands the terminal these bytes, between the colour of
    the level and the reset sequence when [t] colourises: on an open
    terminal it succeeds and the terminal shows exactly these bytes more; on
    a closed one it fails with the error of the write and shows nothing
    more.  What was bound appears nowhere, the [inner] field is not read,
    and the call is in every respect the one of the undecorated handler. *)
Theorem terminal_decoration_dropped (t : TerminalHandler)
    (bs : list Slog.Bound) (w0 : World) (r : Slog.Record) (w : World) :
  let h := decorate_all (H_Terminal t) bs w0 in
  let bytes := encode Slog.TextLayout (th_opts t) [] r in
  let color := level_color (Slog.Level r) in
  Handle h r w = Handle (H_Terminal t) r w
  /\ (forall attrs, Handle (WithAttrs (H_Terminal t) attrs w0) r w
                    = TerminalHandler_Handle t r w)
  /\ (forall name, Handle (WithGroup (H_Terminal t) name w0) r w
                   = TerminalHandler_Handle t r w)
  /\ (forall enc,
        TerminalHandler_Handle
          (mkTerminalHandler (th_out t) enc (th_opts t) (th_colorize t)) r w
        = TerminalHandler_Handle t r w)
  /\ Buffer_Handle (th_opts t) r "" = (None, bytes)
  /\ Handle h r w =
       (if th_colorize t then
          let fs1 := snd (OS.Write (th_out t) color (fs w)) in
          let res := OS.Write (th_out t) bytes fs1 in
          (fst res, set_fs w (snd (OS.Write (th_out t) colorReset (snd res))))
        else
          let res := OS.Write (th_out t) bytes (fs w) in
          (fst res, set_fs w (snd res)))
  /\ (forall name shown,
        OS.fs_files (fs w) !! th_out t = Some (OS.mkFile name true) ->
        OS.content name (fs w) = Some shown ->
        Handle h r w =
          (None,
           set_fs w (OS.set_nodes (fs w)
             (<[name := OS.RegularFile
                          (shown +:+ (if th_colorize t
                                      then color +:+ bytes +:+ colorReset
                                      else bytes))]>
                (OS.fs_nodes (fs w))))))
  /\ (forall name,
        OS.fs_files (fs w) !! th_out t = Some (OS.mkFile name false) ->
        Handle h r w = (Some (PathError "write" name OS.ErrClosed), w)).
Proof.
  intros h bytes color. subst h. rewrite decorate_all_terminal.
  cbn [Handle].
  split; [reflexivity|].
  split; [intros attrs; simpl; now rewrite TerminalHandler_WithAttrs_id|].
  split; [intros name; simpl; now rewrite TerminalHandler_WithGroup_id|].
  split; [intros enc; reflexivity|].
  split; [reflexivity|].
  split; [|split].
  - unfold TerminalHandler_Handle, Buffer_Handle. fold bytes color.
    cbn [String.append].
    destruct (th_colorize t).
    + destruct (OS.Write (th_out t) color (fs w)) as [e1 fs1]. cbn [snd].
      destruct (OS.Write (th_out t) bytes fs1) as [e2 fs2]. cbn [fst snd].
      now destruct (OS.Write (th_out t) colorReset fs2) as [e3 fs3].
    + now destruct (OS.Write (th_out t) bytes (fs w)) as [e1 fs1].
  - intros name shown Hf Hs. destruct (th_colorize t) eqn:Hc.
    + now rewrite (TerminalHandler_Handle_open t r w name shown Hc Hf Hs).
    + now rewrite (TerminalHandler_Handle_open_plain t r w name shown Hc Hf Hs).
  - intros name Hf. now apply TerminalHandler_Handle_closed.
Qed.

End Terminal.

(** ** The process-wide logger *)

Section Singleton.

Lemma InitLogger_done c w :
  loggerOnce w = true -> InitLogger c w = (InitLogger_result w, c, w).
Proof. intros E. unfold InitLogger. now rewrite E. Qed.

Lemma InitLogger_first c w :
  loggerOnce w = false ->
  InitLogger c w =
    (InitLogger_result (set_loggerOnce (snd (InitLogger_once c w))),
     fst (InitLogger_once c w),
     set_loggerOnce (snd (InitLogger_once c w))).
Proof.
  intros E. unfold InitLogger. rewrite E.
  now destruct (InitLogger_once c w).
Qed.

Lemma InitLogger_sets_once c w : loggerOnce (snd (InitLogger c w)) = true.
Proof.
  destruct (loggerOnce w) eqn:E.
  - now rewrite InitLogger_done.
  - now rewrite InitLogger_first.
Qed.

(** Once [loggerOnce] is done, every call answers from the package
    variables and touches nothing. *)
Lemma InitLogger_calls_done cs w :
  loggerOnce w = true ->
  InitLogger_calls cs w = (map (fun c => (InitLogger_result w, c)) cs, w).
Proof.
  intros E. induction cs as [|c cs IH]; simpl; [reflexivity|].
  now rewrite (InitLogger_done c w E), IH.
Qed.

Lemma rotateIfNeeded_frame h t w :
  let w' := snd (rotateIfNeeded h t w) in
  pkg_vars w' = pkg_vars w /\ heap w' = heap w
  /\ next_addr w' = next_addr w /\ now w' = now w.
Proof.
  unfold rotateIfNeeded.
  destruct (String.eqb _ _ && _); [now simpl|].
  destruct (curFile h) as [f|].
  - destruct (OS.Close f (fs w)) as [[e|] files];
      destruct (OS.OpenFile _ _) as [[file|e'] files']; now simpl.
  - destruct (OS.OpenFile _ _) as [[file|e'] files']; now simpl.
Qed.

Lemma NewFileHandler_pkg_vars c w :
  pkg_vars (snd (NewFileHandler c w)) = pkg_vars w.
Proof.
  unfold NewFileHandler.
  destruct (OS.MkdirAll (Dir c) (fs w)) as [[e|] files]; [reflexivity|].
  pose proof (rotateIfNeeded_frame
                (mkDailyFileHandler c "" None None None (Some ChanOpen) false)
                (now (set_fs w files)) (set_fs w files)) as (Hp & _).
  destruct (rotateIfNeeded _ _ _) as [[[e|] h'] w']; simpl in *; exact Hp.
Qed.

(** The once-function ends in exactly one of two ways: it has recorded a
    failure in [initErr] and installed nothing, or it has installed a
    logger and left [initErr] as it was. *)
Lemma InitLogger_once_outcome c w :
  let w' := snd (InitLogger_once c w) in
  (exists e, initErr w' = Some e /\ onceLogger w' = onceLogger w)
  \/ (exists l, onceLogger w' = Some l /\ initErr w' = initErr w
                /\ slog_default w' = Some l).
Proof.
  unfold InitLogger_once.
  destruct (validate c) as [c' [e|]]; [left; now eexists|].
  destruct (negb (Z.land (Output c') OutputFile =? 0)).
  - pose proof (NewFileHandler_pkg_vars c' w) as Hp.
    destruct (NewFileHandler c' w) as [[p|e] w1]; simpl in Hp;
      injection Hp as H1 H2 H3 H4 H5.
    + destruct (negb (Z.land (Output c') OutputTerminal =? 0)); simpl;
        right; eexists; repeat split; assumption.
    + left. simpl. eexists. split; [reflexivity | assumption].
  - destruct (negb (Z.land (Output c') OutputTerminal =? 0)); simpl.
    + right. now eexists.
    + left. now eexists.
Qed.

End Singleton.

Section Callers.

Lemma callers_inv_step cs w0 st st' :
  loggerOnce w0 = false ->
  callers_inv cs w0 st -> callers_step st st' -> callers_inv cs w0 st'.
Proof.
  intros H0 Hinv Hstep. destruct Hstep as [i c ts w Hi|i c ts w Hi];
    destruct Hinv as [[Hw Hall]|(Hdone & Hbody & Hall)]; cbn [fst snd] in *.
  - subst w. rewrite H0. right. cbn [fst snd].
    assert (Hc : c ∈ cs).
    { rewrite Forall_lookup in Hall. destruct (Hall i _ Hi) as (c' & E & Hc).
      now injection E as ->. }
    split; [reflexivity|]. split; [now exists c|].
    apply Forall_insert; [|exact I].
    eapply Forall_impl; [exact Hall|]. intros t (c' & -> & Hc'). exact Hc'.
  - rewrite Hdone. right. cbn [fst snd]. split; [exact Hdone|].
    split; [exact Hbody|]. now apply Forall_insert.
  - rewrite Forall_lookup in Hall. destruct (Hall i _ Hi) as (c' & E & _).
    discriminate E.
  - right. cbn [fst snd]. split; [exact Hdone|]. split; [exact Hbody|].
    now apply Forall_insert.
Qed.

Lemma callers_inv_run cs w0 st :
  loggerOnce w0 = false ->
  rtc callers_step (Calling <$> cs, w0) st -> callers_inv cs w0 st.
Proof.
  intros H0 Hrun.
  assert (Hinit : callers_inv cs w0 (Calling <$> cs, w0)).
  { left. split; [reflexivity|]. cbn [fst]. apply Forall_fmap, Forall_forall.
    intros c Hc. now exists c. }
  revert Hinit. induction Hrun as [st|st1 st2 st3 Hstep _ IH]; [tauto|].
  intros Hinv. apply IH. now apply callers_inv_step with st1.
Qed.

(** One caller alone: passing [Do] and reading is [InitLogger]. *)
Lemma InitLogger_as_steps c w :
  rtc callers_step ([Calling c], w)
      ([Done (fst (fst (InitLogger c w))) (snd (fst (InitLogger c w)))],
       snd (InitLogger c w)).
Proof.
  pose proof (step_Do 0 c [Calling c] w eq_refl) as Hdo.
  unfold InitLogger. destruct (loggerOnce w).
  - eapply rtc_l; [exact Hdo|].
    eapply rtc_l; [apply (step_read 0 c [Reading c] w eq_refl)|].
    apply rtc_refl.
  - destruct (InitLogger_once c w) as [c' w'] eqn:E. cbn [fst snd] in *.
    eapply rtc_l; [exact Hdo|].
    eapply rtc_l;
      [apply (step_read 0 c' [Reading c'] (set_loggerOnce w') eq_refl)|].
    apply rtc_refl.
Qed.

End Callers.

(** X29. [InitLogger] of the second design, where [initErr] is a package
    variable.  In a process that has not initialised the logger yet, the first
    call of [InitLogger] runs the once-function; whatever calls follow, with
    whatever configurations, do not run it: they leave the world and their
    own configuration untouched and return what the first call returned,
    which is either the one logger that was installed or the one failure
    that was recorded.  The same holds of callers whose steps interleave:
    at any moment the once-function has run at most once, for one of them,
    and all the callers that have returned hold the same outcome, the one
    read from the package variables. *)
Theorem InitLogger_memoized (files : OS.FS) (clock : Time.Time)
    (c : LogConfig) (cs : list LogConfig) :
  let w := start files clock in
  let first := InitLogger c w in
  let res := fst (fst first) in
  let w1 := snd first in
  let later := InitLogger_calls cs w1 in
  (snd (fst first), w1)
    = (fst (InitLogger_once c w), set_loggerOnce (snd (InitLogger_once c w)))
  /\ snd later = w1
  /\ fst later = map (fun c2 => (res, c2)) cs
  /\ ((exists l, res = (Some l, None) /\ onceLogger w1 = Some l
                 /\ slog_default w1 = Some l)
      \/ (exists e, res = (None, Some e) /\ initErr w1 = Some e
                    /\ onceLogger w1 = None))
  /\ (forall (ts : list caller) (w' : World),
        rtc callers_step (Calling <$> (c :: cs), w) (ts, w') ->
        (w' = w
         \/ exists c0, c0 ∈ c :: cs
                       /\ w' = set_loggerOnce (snd (InitLogger_once c0 w)))
        /\ (forall r c1, Done r c1 ∈ ts -> r = InitLogger_result w')
        /\ (forall r1 c1 r2 c2, Done r1 c1 ∈ ts -> Done r2 c2 ∈ ts -> r1 = r2)).
Proof.
  intros w first res w1 later.
  assert (Hfirst : first = (InitLogger_result w1, fst (InitLogger_once c w), w1)
                   /\ w1 = set_loggerOnce (snd (InitLogger_once c w))).
  { subst w1 first. rewrite (InitLogger_first c w eq_refl). now simpl. }
  destruct Hfirst as [Hfirst Hw1].
  assert (Hres : res = InitLogger_result w1) by (subst res; now rewrite Hfirst).
  assert (Hdone : loggerOnce w1 = true) by (rewrite Hw1; reflexivity).
  split; [rewrite Hfirst; simpl; now rewrite <- Hw1|].
  subst later. rewrite (InitLogger_calls_done cs w1 Hdone). simpl.
  split; [reflexivity|]. split; [now rewrite Hres|]. split.
  - rewrite Hres. unfold InitLogger_result.
    destruct (InitLogger_once_outcome c w) as [(e & He & Hl)|(l & Hl & He & Hd)];
      rewrite Hw1; simpl.
    + right. exists e. rewrite He. now repeat split.
    + left. exists l. rewrite He, Hl. now repeat split.
  - intros ts w' Hrun.
    pose proof (callers_inv_run (c :: cs) w (ts, w') eq_refl Hrun) as Hinv.
    assert (Hread : forall r c1, Done r c1 ∈ ts -> r = InitLogger_result w').
    { intros r c1 Hin.
      destruct Hinv as [[_ Hall]|(_ & _ & Hall)]; cbn [fst snd] in Hall;
        rewrite Forall_forall in Hall; specialize (Hall _ Hin).
      - destruct Hall as (c' & E & _). discriminate E.
      - exact Hall. }
    split; [|split; [exact Hread|]].
    + destruct Hinv as [[Hw _]|(_ & Hbody & _)]; cbn [fst snd] in *;
        [now left | now right].
    + intros r1 c1 r2 c2 H1 H2.
      now rewrite (Hread r1 c1 H1), (Hread r2 c2 H2).
Qed.

Section Validation.

Lemma validate_none c :
  Output c = OutputNone ->
  validate c = (c, Some (errors_New "output target cannot be OutputNone")).
Proof. intros E. unfold validate. now rewrite E. Qed.

Lemma validate_steps c :
  Output c <> OutputNone ->
  validate c =
    (let c' := format_default (file_defaults c) in
     if negb (String.eqb (Format c') LogFormatText)
        && negb (String.eqb (Format c') LogFormatJSON)
     then (c', Some (errors_New ("unsupported log format: " +:+ Format c')))
     else (c', None)).
Proof.
  intros Hn. unfold validate.
  destruct (Z.eqb_spec (Output c) OutputNone) as [E|_]; [contradiction|].
  reflexivity.
Qed.

Lemma file_defaults_fields c :
  let c' := file_defaults c in
  let file := negb (Z.land (Output c) OutputFile =? 0) in
  Output c' = Output c /\ Level c' = Level c /\ AddSource c' = AddSource c
  /\ Format c' = Format c
  /\ Dir c' = (if file && String.eqb (Dir c) "" then "./logs" else Dir c)
  /\ FilenamePrefix c'
     = (if file && String.eqb (FilenamePrefix c) "" then "app"
        else FilenamePrefix c)
  /\ RetainDays c'
     = (if file && (RetainDays c <=? 0) then 30 else RetainDays c).
Proof.
  unfold file_defaults. destruct c as [o d p rd f l a].
  cbn [Output Dir FilenamePrefix RetainDays Format Level AddSource].
  destruct (negb (Z.land o OutputFile =? 0)); cbn [andb];
    [|repeat split; reflexivity].
  unfold set_Dir, set_FilenamePrefix, set_RetainDays.
  destruct (String.eqb d "");
    cbn [Output Dir FilenamePrefix RetainDays Format Level AddSource];
    destruct (String.eqb p "");
    cbn [Output Dir FilenamePrefix RetainDays Format Level AddSource];
    destruct (rd <=? 0);
    cbn [Output Dir FilenamePrefix RetainDays Format Level AddSource];
    repeat split; reflexivity.
Qed.

Lemma format_default_fields c :
  let c' := format_default c in
  Output c' = Output c /\ Level c' = Level c /\ AddSource c' = AddSource c
  /\ Dir c' = Dir c /\ FilenamePrefix c' = FilenamePrefix c
  /\ RetainDays c' = RetainDays c
  /\ Format c' = (if String.eqb (Format c) "" then LogFormatText else Format c).
Proof.
  unfold format_default.
  destruct (String.eqb (Format c) ""); repeat split; reflexivity.
Qed.

(** The fields [validate] leaves behind when the output is not "none". *)
Lemma validate_fields c :
  Output c <> OutputNone ->
  let c' := fst (validate c) in
  let file := negb (Z.land (Output c) OutputFile =? 0) in
  Output c' = Output c /\ Level c' = Level c /\ AddSource c' = AddSource c
  /\ Dir c' = (if file && String.eqb (Dir c) "" then "./logs" else Dir c)
  /\ FilenamePrefix c'
     = (if file && String.eqb (FilenamePrefix c) "" then "app"
        else FilenamePrefix c)
  /\ RetainDays c'
     = (if file && (RetainDays c <=? 0) then 30 else RetainDays c)
  /\ Format c' = (if String.eqb (Format c) "" then LogFormatText else Format c)
  /\ snd (validate c)
     = (if negb (String.eqb (Format c') LogFormatText)
           && negb (String.eqb (Format c') LogFormatJSON)
        then Some (errors_New ("unsupported log format: " +:+ Format c'))
        else None).
Proof.
  intros Hn c' file. subst c'. rewrite (validate_steps c Hn).
  destruct (file_defaults_fields c) as (F1 & F2 & F3 & F4 & F5 & F6 & F7).
  destruct (format_default_fields (file_defaults c))
    as (G1 & G2 & G3 & G4 & G5 & G6 & G7).
  set (c2 := format_default (file_defaults c)) in *.
  cbv zeta.
  assert (E : fst (if negb (String.eqb (Format c2) LogFormatText)
                      && negb (String.eqb (Format c2) LogFormatJSON)
                   then (c2, Some (errors_New ("unsupported log format: "
                                                +:+ Format c2)))
                   else (c2, None)) = c2)
    by (destruct (negb _ && negb _); reflexivity).
  rewrite E.
  split; [congruence|]. split; [congruence|]. split; [congruence|].
  split; [rewrite G4; exact F5|]. split; [rewrite G5; exact F6|].
  split; [rewrite G6; exact F7|]. split; [rewrite G7, F4; reflexivity|].
  destruct (negb _ && negb _); reflexivity.
Qed.

(** A failed validation is the whole of the first [InitLogger]. *)
Lemma InitLogger_invalid c err w :
  loggerOnce w = false -> snd (validate c) = Some err ->
  InitLogger c w =
    (InitLogger_result
       (set_loggerOnce (set_initErr w (fmt_Errorf "invalid config: " err))),
     fst (validate c),
     set_loggerOnce (set_initErr w (fmt_Errorf "invalid config: " err))).
Proof.
  intros Ho Hv. rewrite (InitLogger_first c w Ho).
  unfold InitLogger_once. destruct (validate c) as [c' [e|]]; simpl in *;
    [|discriminate].
  now injection Hv as ->.
Qed.

End Validation.

(** C10. Validation inside [InitLogger], for every configuration [c]:
    - output "none" is refused by [validate];
    - otherwise, when the file bit is set, an empty directory becomes
      ["./logs"], an empty prefix ["app"], a retention of zero or less [30],
      and nothing else is defaulted; an empty format becomes ["text"];
    - [validate] fails exactly when the output is "none" or the format,
      after defaulting, is neither ["text"] nor ["json"];
    - when [validate] fails, the first [InitLogger] of the process returns
      that failure wrapped as "invalid config", builds no sink (the file
      system and the handler heap are untouched, no logger is installed),
      and every later [InitLogger], whatever its configuration, returns the
      same failure without validating anything again. *)
Theorem validation_in_InitLogger (c : LogConfig) :
  (Output c = OutputNone ->
     validate c = (c, Some (errors_New "output target cannot be OutputNone")))
  /\ (Output c <> OutputNone ->
      let c' := fst (validate c) in
      let file := negb (Z.land (Output c) OutputFile =? 0) in
      Dir c' = (if file && String.eqb (Dir c) "" then "./logs" else Dir c)
      /\ FilenamePrefix c'
         = (if file && String.eqb (FilenamePrefix c) "" then "app"
            else FilenamePrefix c)
      /\ RetainDays c'
         = (if file && (RetainDays c <=? 0) then 30 else RetainDays c)
      /\ Format c' = (if String.eqb (Format c) "" then "text" else Format c)
      /\ (snd (validate c) = None <->
          Format c = "" \/ Format c = "text" \/ Format c = "json")
      /\ (forall e, snd (validate c) = Some e ->
          e = errors_New ("unsupported log format: " +:+ Format c)))
  /\ (forall err files clock c2,
        snd (validate c) = Some err ->
        let w := start files clock in
        let first := InitLogger c w in
        let w1 := snd first in
        fst (fst first) = (None, Some (fmt_Errorf "invalid config: " err))
        /\ fs w1 = files /\ heap w1 = ∅ /\ onceLogger w1 = None
        /\ onceFileHandler w1 = None
        /\ InitLogger c2 w1 = (fst (fst first), c2, w1)).
Proof.
  split; [apply validate_none|]. split.
  - intros Hn c' file.
    destruct (validate_fields c Hn) as (_ & _ & _ & Hd & Hp & Hr & Hf & He).
    fold c' in Hd, Hp, Hr, Hf, He. fold file in Hd, Hp, Hr.
    split; [exact Hd|]. split; [exact Hp|]. split; [exact Hr|].
    split; [exact Hf|].
    rewrite He, Hf. unfold LogFormatText, LogFormatJSON.
    destruct (String.eqb_spec (Format c) "") as [E0|N0].
    + split; [split; [intros _; now left | reflexivity]|]. simpl. discriminate.
    + destruct (String.eqb_spec (Format c) "text") as [E1|N1];
        destruct (String.eqb_spec (Format c) "json") as [E2|N2]; simpl;
        (split; [split; [intros E; try discriminate E; tauto
                        | intros [E|[E|E]]; congruence]
                | intros e E; congruence]).
  - intros err files clock c2 Hv w first w1.
    subst first w1. rewrite (InitLogger_invalid c err w eq_refl Hv).
    cbn [fst snd]. split; [reflexivity|]. split; [reflexivity|].
    split; [reflexivity|]. split; [reflexivity|]. split; [reflexivity|].
    now rewrite InitLogger_done.
Qed.

(** ** Closing the rotating file sink *)

Section Closing.

#[local] Arguments store : simpl never.

Lemma store_same p h w : heap w !! p = Some h -> store p h w = w.
Proof.
  intros E. unfold store, set_heap. rewrite (insert_id _ _ _ E).
  now destruct w.
Qed.

Lemma heap_store p h w : heap (store p h w) !! p = Some h.
Proof. unfold store, set_heap. simpl. apply lookup_insert_eq. Qed.

(** A call of [Close] on a handler whose [closeOnce] is done does
    nothing and reports success. *)
Lemma Close_done p h w :
  heap w !! p = Some h -> closeOnce h = true ->
  DailyFileHandler_Close p w = (Returned None, w).
Proof.
  intros Hh Hc. unfold DailyFileHandler_Close, with_receiver.
  rewrite Hh, Hc. now rewrite (store_same p h w Hh).
Qed.

Lemma Close_calls_done n p h w :
  heap w !! p = Some h -> closeOnce h = true ->
  Close_calls n p w = (repeat (Returned None) n, w).
Proof.
  intros Hh Hc. induction n as [|n IH]; simpl; [reflexivity|].
  now rewrite (Close_done p h w Hh Hc), IH.
Qed.

(** What the once-function does to the fields and to the file. *)
Lemma Close_once_open h w f name :
  cleanDone h <> Some ChanClosed ->
  curFile h = Some f ->
  OS.fs_files (fs w) !! f = Some (OS.mkFile name true) ->
  Close_once h w =
    (Returned None,
     mkDailyFileHandler (cfg h) (curDate h) None None
       (match cleanTicker h with Some _ => Some TickerStopped | None => None end)
       (match cleanDone h with Some _ => Some ChanClosed | None => None end)
       (closeOnce h),
     set_fs w (OS.set_files (fs w)
                 (<[f := OS.mkFile name false]> (OS.fs_files (fs w))))).
Proof.
  intros Hd Hf Ho. unfold Close_once.
  destruct h as [c d cf ci [t|] [[|]|] o]; simpl in *; try congruence;
    subst cf; unfold OS.Close; rewrite Ho; reflexivity.
Qed.

Lemma Close_first_sets_once p h w :
  heap w !! p = Some h ->
  exists h1, heap (snd (DailyFileHandler_Close p w)) !! p = Some h1
             /\ closeOnce h1 = true.
Proof.
  intros Hh. unfold DailyFileHandler_Close, with_receiver. rewrite Hh.
  destruct (closeOnce h) eqn:Hc.
  - exists h. simpl. now rewrite lookup_insert_eq.
  - destruct (Close_once h w) as [[res h1] w1]. simpl.
    exists (set_closeOnce h1 true). now rewrite lookup_insert_eq.
Qed.

End Closing.

(** C8. [Close] on a rotating file sink, called [1 + n] times in a row:
    after the first call [closeOnce] is done; each of the [n] later calls
    returns success and leaves the whole world as the first call left it.
    When the first call is the first ever ([closeOnce] was not done) on a
    sink as [NewFileHandler] builds it (stop channel open) it stops the
    ticker, closes the stop channel, and, if a file is open, closes it once
    and clears [curFile] and [curInner]. *)
Theorem Close_idempotent (p : nat) (h : DailyFileHandler) (w : World) (n : nat) :
  heap w !! p = Some h ->
  let first := DailyFileHandler_Close p w in
  let w1 := snd first in
  let later := Close_calls n p w1 in
  fst later = repeat (Returned None) n
  /\ snd later = w1
  /\ (exists h1, heap w1 !! p = Some h1 /\ closeOnce h1 = true)
  /\ (closeOnce h = true -> first = (Returned None, w))
  /\ (forall f name,
        closeOnce h = false -> cleanDone h = Some ChanOpen ->
        curFile h = Some f ->
        OS.fs_files (fs w) !! f = Some (OS.mkFile name true) ->
        fst first = Returned None
        /\ heap w1 !! p
           = Some (mkDailyFileHandler (cfg h) (curDate h) None None
                     (match cleanTicker h with
                      | Some _ => Some TickerStopped
                      | None => None
                      end)
                     (Some ChanClosed) true)
        /\ OS.fs_files (fs w1) !! f = Some (OS.mkFile name false)
        /\ OS.fs_nodes (fs w1) = OS.fs_nodes (fs w)).
Proof.
  intros Hh first w1 later.
  destruct (Close_first_sets_once p h w Hh) as (h1 & Hh1 & Hc1).
  fold first in Hh1. fold w1 in Hh1.
  subst later. rewrite (Close_calls_done n p h1 w1 Hh1 Hc1). simpl.
  split; [reflexivity|]. split; [reflexivity|].
  split; [now exists h1|]. split.
  - intros Hc. subst first. now apply Close_done with h.
  - intros f name Hc Hd Hf Ho. subst w1 first.
    unfold DailyFileHandler_Close, with_receiver. rewrite Hh, Hc.
    rewrite (Close_once_open h w f name) by congruence.
    cbn [fst snd]. rewrite heap_store, Hd.
    split; [reflexivity|]. split; [reflexivity|].
    split; [apply lookup_insert_eq | reflexivity].
Qed.

(** ** Fan-out *)

Section FanOut.
Context {M : Type}.
Variable enabled : M -> Z -> World -> bool.
Variable handle : M -> Slog.Record -> World -> option error * World.

(** The loop with its accumulator, against delivery to all. *)
Lemma MultiHandler_loop_deliver handlers r errs w :
  MultiHandler_loop enabled handle handlers r errs w =
    (errs ++ failures (fst (deliver_all enabled handle handlers r w)),
     snd (deliver_all enabled handle handlers r w)).
Proof.
  revert errs w. induction handlers as [|h rest IH]; intros errs w; simpl.
  - now rewrite app_nil_r.
  - destruct (enabled h (Slog.Level r) w); simpl; [|apply IH].
    destruct (handle h r w) as [[e|] w1];
      destruct (deliver_all enabled handle rest r w1) as [more w2] eqn:Ed;
      rewrite IH, Ed; simpl; [|reflexivity].
    unfold failures. simpl. now rewrite <- app_assoc.
Qed.

Lemma failures_nil answers :
  failures answers = [] <-> Forall (fun a => a = None) answers.
Proof.
  unfold failures. induction answers as [|[e|] answers IH]; simpl.
  - split; [constructor | reflexivity].
  - split; [discriminate | intros Hf; inversion Hf; discriminate].
  - rewrite IH. split; [now constructor | intros Hf; now inversion Hf].
Qed.

Lemma failures_elem e answers : e ∈ failures answers <-> Some e ∈ answers.
Proof.
  unfold failures. rewrite list_elem_of_omap. split.
  - intros ([x|] & Hin & Hx); simpl in Hx; [|discriminate].
    now injection Hx as ->.
  - intros Hin. now exists (Some e).
Qed.

(** Delivery to all does not depend on what the first member answered:
    an accepting member is called, and the rest is delivered to in the
    world that member left, whether it failed or not. *)
Lemma deliver_all_cons h rest r w :
  deliver_all enabled handle (h :: rest) r w =
    if enabled h (Slog.Level r) w then
      (fst (handle h r w)
         :: fst (deliver_all enabled handle rest r (snd (handle h r w))),
       snd (deliver_all enabled handle rest r (snd (handle h r w))))
    else deliver_all enabled handle rest r w.
Proof.
  simpl. destruct (enabled h (Slog.Level r) w); [|reflexivity].
  destruct (handle h r w) as [res w1]. simpl.
  now destruct (deliver_all enabled handle rest r w1).
Qed.

End FanOut.

(** ** Day-file names *)

Module PathFacts.
Import Strings Filepath StringFacts.

Lemma no_slash_app a b : no_slash (a +:+ b) = no_slash a && no_slash b.
Proof.
  induction a as [|x a IH]; simpl; [reflexivity|].
  now rewrite IH, andb_assoc.
Qed.

Lemma split_no_slash t : no_slash t = true -> split_slash t = [t].
Proof.
  induction t as [|x t IH]; simpl; [reflexivity|].
  intros [Hx Ht]%andb_true_iff. apply negb_true_iff in Hx.
  now rewrite Hx, (IH Ht).
Qed.

(** Appending slash-free text to a path extends its last element. *)
Lemma split_app_no_slash s t :
  no_slash t = true ->
  exists init lst,
    split_slash s = init ++ [lst] /\ split_slash (s +:+ t) = init ++ [lst +:+ t].
Proof.
  intros Ht. induction s as [|x s (init & lst & Es & Est)]; simpl.
  - exists [], "". now rewrite (split_no_slash t Ht).
  - destruct (Ascii.eqb x "/").
    + exists ("" :: init), lst. now rewrite Es, Est.
    + rewrite Es, Est. destruct init as [|y init]; simpl.
      * now exists [], (String x lst).
      * now exists (String x y :: init), lst.
Qed.

Lemma join_slash_snoc (l : list string) :
  exists pre, forall y, join_slash (l ++ [y]) = pre +:+ y.
Proof.
  induction l as [|e l (pre & IH)]; simpl.
  - now exists "".
  - exists (e +:+ "/" +:+ pre). intros y. rewrite IH.
    destruct (l ++ [y]) eqn:E.
    + now destruct l.
    + now rewrite !app_assoc.
Qed.

Lemma dot_log_not_special s :
  let e := s +:+ ".log" in
  String.eqb e "" || String.eqb e "." = false /\ String.eqb e ".." = false.
Proof.
  intros e. assert (Hl : (4 <= String.length e)%nat).
  { subst e. rewrite length_app. simpl. lia. }
  split.
  - apply orb_false_iff. split; apply String.eqb_neq; intros E;
      rewrite E in Hl; simpl in Hl; lia.
  - apply String.eqb_neq. intros E. rewrite E in Hl. simpl in Hl. lia.
Qed.

Lemma HasPrefix_slash_app p t :
  no_slash t = true -> HasPrefix (p +:+ t) "/" = HasPrefix p "/" .
Proof.
  intros Ht. destruct p as [|x p]; [|reflexivity].
  destruct t as [|y t]; [reflexivity|].
  change (no_slash (String y t))
    with (negb (Ascii.eqb y "/") && no_slash t) in Ht.
  apply andb_true_iff in Ht as [Hy _]. apply negb_true_iff in Hy.
  change (HasPrefix ("" +:+ String y t) "/")
    with (if Ascii.eqb "/" y then true else false).
  rewrite Ascii.eqb_sym. now rewrite Hy.
Qed.

(** [Clean] of a path that ends in a slash-free element with the suffix
    [.log]: a part that depends on what precedes only, then that text. *)
Lemma Clean_app_log p :
  exists pre, forall t,
    no_slash t = true -> Clean (p +:+ t +:+ ".log") = pre +:+ t +:+ ".log".
Proof.
  destruct (split_app_no_slash p "" eq_refl) as (init & lst & Ep & _).
  set (rooted := HasPrefix p "/").
  set (st := fold_left (clean_step rooted) init []).
  destruct (join_slash_snoc (rev st)) as (pre & Hpre).
  exists ((if rooted then "/" +:+ pre else pre) +:+ lst).
  intros t Ht.
  assert (Htl : no_slash (t +:+ ".log") = true)
    by (rewrite no_slash_app, Ht; reflexivity).
  destruct (split_app_no_slash p (t +:+ ".log") Htl) as (init' & lst' & Ep' & Es).
  rewrite Ep in Ep'. apply app_inj_tail in Ep' as [<- <-].
  unfold Clean.
  assert (Hne : String.eqb (p +:+ t +:+ ".log") "" = false).
  { apply String.eqb_neq. intros E. apply (f_equal String.length) in E.
    rewrite !length_app in E. simpl in E. lia. }
  rewrite Hne, Es, (HasPrefix_slash_app p _ Htl). fold rooted.
  rewrite fold_left_app. fold st.
  destruct (dot_log_not_special (lst +:+ t)) as [H1 H2].
  rewrite app_assoc in H1, H2.
  assert (Hstep : fold_left (clean_step rooted) [lst +:+ t +:+ ".log"] st
                  = (lst +:+ t +:+ ".log") :: st).
  { cbn [fold_left]. unfold clean_step. now rewrite H1, H2. }
  rewrite Hstep. cbn [rev]. rewrite Hpre.
  assert (Hres : forall body : string,
             String.eqb (body +:+ lst +:+ t +:+ ".log") "" = false).
  { intros body. apply String.eqb_neq. intros E.
    apply (f_equal String.length) in E. rewrite !length_app in E.
    simpl in E. lia. }
  destruct rooted.
  - rewrite <- (app_assoc "/" pre), (Hres ("/" +:+ pre)).
    now rewrite !app_assoc.
  - rewrite (Hres pre). now rewrite !app_assoc.
Qed.

(** [Join dir (prefix-DATE.log)]: a part that depends on [dir] and
    [prefix] only, then [DATE.log]. *)
Lemma Join_day_file dir prefix :
  exists pre, forall date,
    no_slash date = true ->
    Join dir (prefix +:+ "-" +:+ date +:+ ".log") = pre +:+ date +:+ ".log".
Proof.
  unfold Join. destruct (String.eqb dir "") eqn:Ed.
  - destruct (Clean_app_log (prefix +:+ "-")) as (pre & Hpre).
    exists pre. intros date Hd.
    assert (Hne : String.eqb (prefix +:+ "-" +:+ date +:+ ".log") "" = false).
    { apply String.eqb_neq. intros E. apply (f_equal String.length) in E.
      rewrite !length_app in E. simpl in E. lia. }
    rewrite Hne, <- (Hpre date Hd). now rewrite !app_assoc.
  - destruct (Clean_app_log (dir +:+ "/" +:+ prefix +:+ "-")) as (pre & Hpre).
    exists pre. intros date Hd. rewrite <- (Hpre date Hd).
    now rewrite !app_assoc.
Qed.

(** Two dates give two paths. *)
Lemma Join_day_file_inj dir prefix d1 d2 :
  no_slash d1 = true -> no_slash d2 = true ->
  Join dir (prefix +:+ "-" +:+ d1 +:+ ".log")
  = Join dir (prefix +:+ "-" +:+ d2 +:+ ".log") ->
  d1 = d2.
Proof.
  intros H1 H2. destruct (Join_day_file dir prefix) as (pre & Hpre).
  rewrite (Hpre d1 H1), (Hpre d2 H2). intros E.
  apply app_inv_head in E. now apply app_inv_tail in E.
Qed.

End PathFacts.

Module TimeFacts.
Import Strings Time.

Lemma digitChar_not_slash d : Ascii.eqb (digitChar d) "/" = false.
Proof.
  unfold digitChar.
  assert (Hk : (Z.to_nat (d mod 10) < 10)%nat)
    by (pose proof (Z.mod_pos_bound d 10); lia).
  generalize dependent (Z.to_nat (d mod 10)). intros k Hk.
  do 10 (destruct k as [|k]; [reflexivity|]). lia.
Qed.

#[local] Arguments digitChar : simpl never.

Lemma no_slash_digit d acc :
  no_slash acc = true -> no_slash (String (digitChar d) acc) = true.
Proof.
  intros Ha. cbn [no_slash]. now rewrite digitChar_not_slash, Ha.
Qed.

Lemma digits_no_slash fuel u acc :
  no_slash acc = true -> no_slash (digits fuel u acc) = true.
Proof.
  revert u acc. induction fuel as [|fuel IH]; intros u acc Ha; cbn [digits].
  - now apply no_slash_digit.
  - destruct (u <? 10); [now apply no_slash_digit|].
    apply IH. now apply no_slash_digit.
Qed.

Lemma zeros_no_slash n s : no_slash s = true -> no_slash (zeros n s) = true.
Proof. intros Hs. induction n as [|n IH]; cbn [zeros no_slash]; auto. Qed.

Lemma appendInt_no_slash x width : no_slash (appendInt x width) = true.
Proof.
  unfold appendInt.
  assert (no_slash (digits (Z.to_nat (Z.log2 (Z.abs x))) (Z.abs x) "") = true)
    by now apply digits_no_slash.
  destruct (x <? 0); cbn [no_slash negb andb]; now apply zeros_no_slash.
Qed.

(** A formatted date holds no slash. *)
Lemma Format_date_no_slash t : no_slash (Format_date t) = true.
Proof.
  unfold Format_date. destruct (Date t) as [[y m] d].
  rewrite !PathFacts.no_slash_app, !appendInt_no_slash. reflexivity.
Qed.

End TimeFacts.

(** ** Rotation *)

Section Rotation.
Context `{Encoder}.

Lemma rotate_same_day h t w :
  Time.Format_date t = curDate h -> curInner h <> None ->
  rotateIfNeeded h t w = (None, h, w).
Proof.
  intros Hd Hi. unfold rotateIfNeeded.
  rewrite Hd, String.eqb_refl, (bool_decide_eq_true_2 _ Hi). reflexivity.
Qed.

Lemma rotate_new_day h t w f old :
  curFile h = Some f ->
  OS.fs_files (fs w) !! f = Some (OS.mkFile old true) ->
  Time.Format_date t <> curDate h ->
  let date := Time.Format_date t in
  let path := day_path (cfg h) date in
  path ∉ OS.fs_deny (fs w) ->
  OS.fs_nodes (fs w) !! path <> Some OS.Directory ->
  rotateIfNeeded h t w =
    (None,
     set_cur h date (Some (OS.fs_next (fs w)))
             (Some (day_encoder (cfg h) (OS.fs_next (fs w)))),
     set_fs w (rotated (fs w) f old path)).
Proof.
  intros Hf Ho Hd date path Hdeny Hdir. unfold rotateIfNeeded.
  fold date. apply String.eqb_neq in Hd. fold date in Hd. rewrite Hd, Hf.
  cbn [andb]. unfold OS.Close. rewrite Ho.
  cbn [cfg set_cur fs set_fs]. change (Filepath.Join _ _) with path.
  unfold OS.OpenFile. cbn [OS.fs_deny OS.set_files OS.fs_nodes OS.fs_files OS.fs_next].
  rewrite (decide_False (P := path ∈ OS.fs_deny (fs w))) by exact Hdeny.
  unfold rotated, day_encoder.
  destruct (OS.fs_nodes (fs w) !! path) as [[c|]|] eqn:En;
    [ | congruence | ];
    destruct (String.eqb (Format (cfg h)) LogFormatJSON); reflexivity.
Qed.

Lemma day_encoder_bytes c f r :
  encode (Slog.bh_layout (day_encoder c f)) (Slog.bh_opts (day_encoder c f))
         (Slog.bh_bound (day_encoder c f)) r = day_bytes c r.
Proof.
  unfold day_encoder, day_bytes.
  now destruct (String.eqb (Format c) LogFormatJSON).
Qed.

Lemma store_same_frame p h w w' :
  heap w !! p = Some h -> heap w' = heap w -> store p h w' = w'.
Proof.
  intros Hh E. unfold store, set_heap. rewrite E, (insert_id _ _ _ Hh).
  rewrite <- E. now destruct w'.
Qed.

(** Same day: no rotation, one append to the current day-file. *)
Lemma Handle_same_day p h r w c0 :
  heap w !! p = Some h -> open_for_day h (fs w) ->
  Time.Format_date (Slog.Time r) = curDate h ->
  let path := day_path (cfg h) (curDate h) in
  OS.content path (fs w) = Some c0 ->
  DailyFileHandler_Handle p r w =
    (None,
     set_fs w (OS.set_nodes (fs w)
       (<[path := OS.RegularFile (c0 +:+ day_bytes (cfg h) r)]>
          (OS.fs_nodes (fs w))))).
Proof.
  intros Hh (f & Hf & Hi & Ho & _) Hd path Hc.
  unfold DailyFileHandler_Handle, with_receiver. rewrite Hh.
  rewrite (rotate_same_day h (Slog.Time r) w Hd) by congruence.
  rewrite Hi. unfold Builtin_Handle. rewrite day_encoder_bytes.
  replace (Slog.bh_w (day_encoder (cfg h) f)) with f
    by (unfold day_encoder; now destruct (String.eqb _ _)).
  rewrite (OSFacts.Write_open f _ (fs w) path c0 Ho Hc).
  f_equal. now apply store_same_frame with w.
Qed.

(** Another day: the old file object is closed, the day-file of the
    record's date is opened (created empty if absent) and appended to. *)
Lemma Handle_new_day p h r w f old :
  heap w !! p = Some h ->
  curFile h = Some f ->
  OS.fs_files (fs w) !! f = Some (OS.mkFile old true) ->
  let date := Time.Format_date (Slog.Time r) in
  let path := day_path (cfg h) date in
  date <> curDate h ->
  path ∉ OS.fs_deny (fs w) ->
  OS.fs_nodes (fs w) !! path <> Some OS.Directory ->
  let files := rotated (fs w) f old path in
  DailyFileHandler_Handle p r w =
    (None,
     store p (set_cur h date (Some (OS.fs_next (fs w)))
                (Some (day_encoder (cfg h) (OS.fs_next (fs w)))))
       (set_fs w (OS.set_nodes files
          (<[path := OS.RegularFile
                       (from_option id "" (OS.content path (fs w))
                          +:+ day_bytes (cfg h) r)]>
             (OS.fs_nodes files))))).
Proof.
  intros Hh Hf Ho date path Hd Hdeny Hdir files.
  unfold DailyFileHandler_Handle, with_receiver. rewrite Hh.
  rewrite (rotate_new_day h (Slog.Time r) w f old Hf Ho Hd Hdeny Hdir).
  fold date path files. cbn [curInner set_cur].
  unfold Builtin_Handle. rewrite day_encoder_bytes. cbn [cfg fs set_fs].
  replace (Slog.bh_w (day_encoder (cfg h) (OS.fs_next (fs w))))
    with (OS.fs_next (fs w))
    by (unfold day_encoder; now destruct (String.eqb _ _)).
  rewrite (OSFacts.Write_open (OS.fs_next (fs w)) _ files path
             (from_option id "" (OS.content path (fs w)))).
  - reflexivity.
  - subst files. unfold rotated. cbn [OS.fs_files]. apply lookup_insert_eq.
  - subst files. unfold rotated, OS.content. cbn [OS.fs_nodes].
    destruct (OS.fs_nodes (fs w) !! path) as [[c|]|] eqn:En;
      rewrite ?En, ?lookup_insert_eq; first [reflexivity | congruence].
Qed.

End Rotation.

Section Landing.
Context `{Encoder}.

(** One record on a sink that is open for some day: where it lands and
    what else changes. *)
Lemma Handle_lands p h r w :
  heap w !! p = Some h -> open_for_day h (fs w) ->
  let date := Time.Format_date (Slog.Time r) in
  let path := day_path (cfg h) date in
  path ∉ OS.fs_deny (fs w) ->
  OS.fs_nodes (fs w) !! path <> Some OS.Directory ->
  (date = curDate h -> OS.content path (fs w) <> None) ->
  let res := DailyFileHandler_Handle p r w in
  fst res = None
  /\ OS.content path (fs (snd res))
     = Some (from_option id "" (OS.content path (fs w)) +:+ day_bytes (cfg h) r)
  /\ (forall q, q <> path ->
        OS.fs_nodes (fs (snd res)) !! q = OS.fs_nodes (fs w) !! q)
  /\ OS.fs_deny (fs (snd res)) = OS.fs_deny (fs w)
  /\ (exists h', heap (snd res) !! p = Some h' /\ cfg h' = cfg h
                 /\ curDate h' = date /\ open_for_day h' (fs (snd res)))
  /\ (date = curDate h ->
      heap (snd res) = heap w
      /\ OS.fs_files (fs (snd res)) = OS.fs_files (fs w))
  /\ (date <> curDate h ->
      forall f, curFile h = Some f ->
        OS.fs_files (fs (snd res)) !! f
        = Some (OS.mkFile (day_path (cfg h) (curDate h)) false)
        /\ heap (snd res) !! p
           = Some (set_cur h date (Some (OS.fs_next (fs w)))
                     (Some (day_encoder (cfg h) (OS.fs_next (fs w)))))
        /\ OS.fs_files (fs (snd res)) !! OS.fs_next (fs w)
           = Some (OS.mkFile path true)).
Proof.
  intros Hh Hopen date path Hdeny Hdir Hvis res.
  destruct (decide (date = curDate h)) as [Hd|Hd].
  - destruct (OS.content path (fs w)) as [c0|] eqn:Hc;
      [|now specialize (Hvis Hd)].
    assert (Hc' : OS.content (day_path (cfg h) (curDate h)) (fs w) = Some c0)
      by (rewrite <- Hd; exact Hc).
    subst res. rewrite (Handle_same_day p h r w c0 Hh Hopen Hd Hc').
    rewrite <- Hd. fold path. cbn [fst snd fs set_fs heap].
    split; [reflexivity|]. split; [apply OSFacts.content_set_nodes_eq|].
    split; [intros q Hq; cbn; now apply lookup_insert_ne|].
    split; [reflexivity|]. split.
    + exists h. split; [exact Hh|]. split; [reflexivity|].
      split; [now symmetry|]. exact Hopen.
    + split; [intros _; now split | contradiction].
  - destruct Hopen as (f & Hf & Hi & Ho & Hlt).
    subst res.
    rewrite (Handle_new_day p h r w f _ Hh Hf Ho Hd Hdeny Hdir).
    fold date path. cbn [fst snd].
    set (files := rotated (fs w) f (day_path (cfg h) (curDate h)) path).
    unfold store, set_heap. cbn [fs set_fs heap].
    split; [reflexivity|]. split; [apply OSFacts.content_set_nodes_eq|].
    split.
    { intros q Hq. cbn [OS.fs_nodes OS.set_nodes].
      rewrite lookup_insert_ne by congruence.
      subst files. unfold rotated. cbn [OS.fs_nodes].
      destruct (OS.fs_nodes (fs w) !! path); [reflexivity|].
      now apply lookup_insert_ne. }
    split; [reflexivity|].
    assert (Hnew : OS.fs_files (OS.set_nodes files
                     (<[path := OS.RegularFile
                          (from_option id "" (OS.content path (fs w))
                             +:+ day_bytes (cfg h) r)]> (OS.fs_nodes files)))
                   !! OS.fs_next (fs w) = Some (OS.mkFile path true))
      by (subst files; unfold rotated; cbn; apply lookup_insert_eq).
    split.
    + eexists. split; [apply lookup_insert_eq|]. split; [reflexivity|].
      split; [reflexivity|].
      exists (OS.fs_next (fs w)). split; [reflexivity|].
      split; [reflexivity|]. split; [exact Hnew|]. cbn. lia.
    + split; [contradiction|]. intros _ f' Hf'.
      assert (f' = f) by congruence. subst f'.
      split; [|split; [apply lookup_insert_eq | exact Hnew]].
      subst files. unfold rotated. cbn.
      rewrite lookup_insert_ne by lia. apply lookup_insert_eq.
Qed.

(** [Handle] does not read the clock. *)
Lemma Handle_ignores_clock p r w clock :
  DailyFileHandler_Handle p r (set_now w clock) =
    (fst (DailyFileHandler_Handle p r w),
     set_now (snd (DailyFileHandler_Handle p r w)) clock).
Proof.
  unfold DailyFileHandler_Handle, with_receiver. cbn [heap set_now].
  destruct (heap w !! p) as [h|]; [|reflexivity].
  unfold rotateIfNeeded.
  destruct (String.eqb _ _ && _).
  - destruct (curInner h) as [enc|]; [|reflexivity].
    unfold Builtin_Handle. cbn [fs set_now].
    now destruct (OS.Write _ _ _) as [e files].
  - destruct (curFile h) as [f|]; cbn [fs set_now].
    + destruct (OS.Close f (fs w)) as [[e|] files];
        cbn [fs set_fs slog_Warn slog_log];
        destruct (OS.OpenFile _ files) as [[file|e'] files'];
        try reflexivity;
        cbn [curInner set_cur]; unfold Builtin_Handle; cbn [fs set_fs];
        now destruct (OS.Write _ _ _) as [e2 files2].
    + destruct (OS.OpenFile _ (fs w)) as [[file|e'] files'];
        try reflexivity;
        cbn [curInner set_cur]; unfold Builtin_Handle; cbn [fs set_fs];
        now destruct (OS.Write _ _ _) as [e2 files2].
Qed.

End Landing.

(** C4. A record [r1] handled by a rotating file sink that is open for some
    day, when the day-file of the record's own date can be opened (and, if
    it is the current one, is still on disk): [Handle] succeeds and appends
    the encoded record to the file [Join Dir "{prefix}-{date of r1}.log"],
    which is created empty if it did not exist and is never truncated.  If
    the date is the current day no rotation occurs (same handler state, same
    file objects); if it differs, the old file object is closed and a new
    one, opened on that day-file, becomes current.  Nothing of this depends
    on the clock.  A second record [r2] of another date then lands in
    another file, and each of the two files holds its own record. *)
Theorem rotation_follows_record_time `{Encoder} (p : nat)
    (h : DailyFileHandler) (w : World) (r1 r2 : Slog.Record) :
  heap w !! p = Some h -> open_for_day h (fs w) ->
  let d1 := Time.Format_date (Slog.Time r1) in
  let d2 := Time.Format_date (Slog.Time r2) in
  let path1 := Filepath.Join (Dir (cfg h))
                 (FilenamePrefix (cfg h) +:+ "-" +:+ d1 +:+ ".log") in
  let path2 := Filepath.Join (Dir (cfg h))
                 (FilenamePrefix (cfg h) +:+ "-" +:+ d2 +:+ ".log") in
  path1 ∉ OS.fs_deny (fs w) ->
  OS.fs_nodes (fs w) !! path1 <> Some OS.Directory ->
  (d1 = curDate h -> OS.content path1 (fs w) <> None) ->
  let before1 := from_option id "" (OS.content path1 (fs w)) in
  let before2 := from_option id "" (OS.content path2 (fs w)) in
  let res1 := DailyFileHandler_Handle p r1 w in
  let res2 := DailyFileHandler_Handle p r2 (snd res1) in
  fst res1 = None
  /\ OS.content path1 (fs (snd res1)) = Some (before1 +:+ day_bytes (cfg h) r1)
  /\ (d1 = curDate h ->
      heap (snd res1) = heap w
      /\ OS.fs_files (fs (snd res1)) = OS.fs_files (fs w))
  /\ (d1 <> curDate h ->
      forall f, curFile h = Some f ->
        OS.fs_files (fs (snd res1)) !! f
        = Some (OS.mkFile (day_path (cfg h) (curDate h)) false)
        /\ heap (snd res1) !! p
           = Some (set_cur h d1 (Some (OS.fs_next (fs w)))
                     (Some (day_encoder (cfg h) (OS.fs_next (fs w)))))
        /\ OS.fs_files (fs (snd res1)) !! OS.fs_next (fs w)
           = Some (OS.mkFile path1 true))
  /\ (forall clock,
        DailyFileHandler_Handle p r1 (set_now w clock)
        = (fst res1, set_now (snd res1) clock))
  /\ (d1 <> d2 ->
      path2 ∉ OS.fs_deny (fs w) ->
      OS.fs_nodes (fs w) !! path2 <> Some OS.Directory ->
      path1 <> path2
      /\ fst res2 = None
      /\ OS.content path1 (fs (snd res2)) = Some (before1 +:+ day_bytes (cfg h) r1)
      /\ OS.content path2 (fs (snd res2)) = Some (before2 +:+ day_bytes (cfg h) r2)).
Proof.
  intros Hh Hopen d1 d2 path1 path2 Hdeny1 Hdir1 Hvis1 before1 before2 res1 res2.
  destruct (Handle_lands p h r1 w Hh Hopen Hdeny1 Hdir1 Hvis1)
    as (Hres & Hc1 & Hframe & Hden & (h' & Hh' & Hcfg & Hdate & Hopen')
        & Hsame & Hnew).
  fold res1 in Hres, Hc1, Hframe, Hden, Hh', Hopen', Hsame, Hnew.
  split; [exact Hres|]. split; [exact Hc1|]. split; [exact Hsame|].
  split; [exact Hnew|]. split; [intros clock; apply Handle_ignores_clock|].
  intros Hd Hdeny2 Hdir2.
  assert (Hp : path1 <> path2).
  { intros E. apply Hd.
    apply (PathFacts.Join_day_file_inj (Dir (cfg h)) (FilenamePrefix (cfg h)));
      [apply TimeFacts.Format_date_no_slash .. | exact E]. }
  split; [exact Hp|].
  assert (Epath2 : path2 = day_path (cfg h') (Time.Format_date (Slog.Time r2)))
    by (rewrite Hcfg; reflexivity).
  destruct (Handle_lands p h' r2 (snd res1) Hh' Hopen')
    as (Hres2 & Hc2 & Hframe2 & _).
  - rewrite <- Epath2, Hden. exact Hdeny2.
  - rewrite <- Epath2, (Hframe path2) by (intros E; apply Hp; now symmetry).
    exact Hdir2.
  - intros E. rewrite Hdate in E. now contradiction Hd.
  - fold res2 in Hres2, Hc2, Hframe2. rewrite <- Epath2 in Hc2, Hframe2.
    split; [exact Hres2|]. split.
    + unfold OS.content. rewrite (Hframe2 path1 Hp). exact Hc1.
    + rewrite Hc2, Hcfg. unfold OS.content.
      rewrite (Hframe path2) by (intros E; apply Hp; now symmetry).
      reflexivity.
Qed.

(** ** Dates and directory listings *)

Section Sweep.
Import StringFacts.

Lemma Parse_date_length s date :
  Time.Parse_date s = Some date -> String.length s = 10%nat.
Proof.
  unfold Time.Parse_date.
  do 10 (destruct s as [|? s]; [discriminate|]).
  destruct s; [reflexivity | discriminate].
Qed.

(** The entries [os.ReadDir] lists: the nodes whose path is [dir] joined
    with their last element. *)
Lemma ReadDir_entries dir files entries name isdir :
  OS.ReadDir dir files = inl entries ->
  OS.mkDirEntry name isdir ∈ entries
  <-> exists k n, OS.fs_nodes files !! k = Some n /\ Filepath.lastElem k = name
                  /\ name <> "" /\ Filepath.Join dir name = k
                  /\ isdir = OS.isDir n.
Proof.
  unfold OS.ReadDir.
  destruct (OS.fs_nodes files !! Filepath.Clean dir) as [[c|]|]; try discriminate.
  intros [= <-]. rewrite merge_sort_Permutation, list_elem_of_omap. split.
  - intros ([k n] & Hin%elem_of_map_to_list & He). unfold OS.entry_in in He.
    cbn [fst snd] in He.
    destruct (negb (String.eqb (Filepath.lastElem k) "")
              && String.eqb (Filepath.Join dir (Filepath.lastElem k)) k) eqn:Eb;
      [|discriminate].
    injection He as <- <-. apply andb_true_iff in Eb as [E1 E2].
    apply negb_true_iff, String.eqb_neq in E1. apply String.eqb_eq in E2.
    now exists k, n.
  - intros (k & n & Hk & <- & Hne & Hj & ->). exists (k, n).
    split; [now apply elem_of_map_to_list|].
    unfold OS.entry_in. cbn [fst snd].
    apply String.eqb_neq in Hne. apply String.eqb_eq in Hj.
    now rewrite Hne, Hj.
Qed.

End Sweep.

(** ** Worked examples *)

Example w_file_sink : heap Ex.w_file !! 1%nat = Some Ex.sink.
Proof. reflexivity. Qed.

Example ReadDir_old_disk :
  OS.ReadDir "logs" (fs Ex.w_sweep)
  = inl [OS.mkDirEntry "app-2023-01-01.log" true;
         OS.mkDirEntry "app-2024-01-02.log" false;
         OS.mkDirEntry "app-2024-01-05.log" false;
         OS.mkDirEntry "app-latest.log" false;
         OS.mkDirEntry "web-2023-01-01.log" false].
Proof. vm_compute. reflexivity. Qed.

Lemma w_file_open_for_day : open_for_day Ex.sink (fs Ex.w_file).
Proof.
  exists 3%nat. split; [reflexivity|]. split; [reflexivity|].
  split; [reflexivity|]. vm_compute. lia.
Qed.

(** A record late on 2024-01-01 and one early on 2024-01-02, on a sink
    opened on 2024-01-01: two day-files, one record in each. *)
Lemma rotation_follows_record_time_witness :
  heap Ex.w_file !! 1%nat = Some Ex.sink
  /\ open_for_day Ex.sink (fs Ex.w_file)
  /\ let res1 := DailyFileHandler_Handle (H:=Ex.plain) 1 Ex.r1 Ex.w_file in
     let res2 := DailyFileHandler_Handle (H:=Ex.plain) 1 Ex.r2 (snd res1) in
     fst res1 = None /\ fst res2 = None /\ Ex.day1 <> Ex.day2
     /\ OS.content Ex.day1 (fs (snd res2)) = Some "msg=one;"
     /\ OS.content Ex.day2 (fs (snd res2)) = Some "msg=two;".
Proof.
  assert (Hh : heap Ex.w_file !! 1%nat = Some Ex.sink) by reflexivity.
  pose proof w_file_open_for_day as Ho.
  split; [exact Hh|]. split; [exact Ho|].
  destruct (rotation_follows_record_time (H:=Ex.plain) 1 Ex.sink Ex.w_file
              Ex.r1 Ex.r2 Hh Ho)
    as (Hres1 & _ & _ & _ & _ & Htwo).
  - vm_compute. discriminate.
  - vm_compute. discriminate.
  - intros _. vm_compute. discriminate.
  - destruct Htwo as (Hne & Hres2 & Hc1 & Hc2).
    + vm_compute. discriminate.
    + vm_compute. discriminate.
    + vm_compute. discriminate.
    + cbv zeta. split; [exact Hres1|]. split; [exact Hres2|].
      split; [exact Hne|]. split; [exact Hc1 | exact Hc2].
Defined.

(** Three calls of [Close] on the sink of the example. *)
Lemma Close_idempotent_witness :
  heap Ex.w_file !! 1%nat = Some Ex.sink
  /\ let w1 := snd (DailyFileHandler_Close 1 Ex.w_file) in
     fst (Close_calls 2 1 w1) = [Returned None; Returned None]
     /\ snd (Close_calls 2 1 w1) = w1
     /\ fst (DailyFileHandler_Close 1 Ex.w_file) = Returned None
     /\ OS.fs_files (fs w1) !! 3%nat = Some (OS.mkFile Ex.day1 false).
Proof.
  assert (Hh : heap Ex.w_file !! 1%nat = Some Ex.sink) by reflexivity.
  split; [exact Hh|].
  destruct (Close_idempotent 1 Ex.sink Ex.w_file 2 Hh)
    as (Hlater & Hsame & _ & _ & Hfirst).
  destruct (Hfirst 3%nat Ex.day1 eq_refl eq_refl eq_refl eq_refl)
    as (Hres & _ & Hclosed & _).
  cbv zeta. split; [exact Hlater|]. split; [exact Hsame|].
  split; [exact Hres | exact Hclosed].
Defined.

(** ** Where the code departs from its specification *)

(** C1. A sink opened on 2024-01-01 is given the attribute [k=v] through
    [WithAttrs]; the decorated handler is a wrapper around the encoder of
    that day's file object.  A record of 2024-01-01 through the wrapper
    lands, with the attribute, in the file of that day.  A record of
    2024-01-02 through the same wrapper rotates the original (the file of
    2024-01-02 is created and becomes current) and is then written through
    the wrapper's own encoder, which is still bound to the file object that
    the rotation has just closed: [Handle] fails with "file already closed"
    and the file of 2024-01-02 stays empty. *)
Theorem decorated_handler_across_days `{Encoder} :
  let h := WithAttrs (H_DailyFile 1) Ex.kv Ex.w_file in
  let stale :=
    Slog.WithAttrs (Slog.NewTextHandler 3 (Slog.mkOptions false 0)) Ex.kv in
  let res1 := Handle h Ex.r1 Ex.w_file in
  let res2 := Handle h Ex.r2 (snd res1) in
  h = H_Wrapper (mkWrapper 1 stale)
  /\ fst res1 = None
  /\ OS.content Ex.day1 (fs (snd res1))
     = Some (encode Slog.TextLayout (Slog.mkOptions false 0)
                    [Slog.BoundAttrs Ex.kv] Ex.r1)
  /\ fst res2 = Some (PathError "write" Ex.day1 OS.ErrClosed)
  /\ OS.content Ex.day2 (fs (snd res2)) = Some ""
  /\ OS.content Ex.day1 (fs (snd res2)) = OS.content Ex.day1 (fs (snd res1))
  /\ heap (snd res2) !! 1%nat
     = Some (set_cur Ex.sink "2024-01-02" (Some 4%nat)
               (Some (Slog.NewTextHandler 4 (Slog.mkOptions false 0))))
  /\ OS.fs_files (fs (snd res2)) !! 3%nat = Some (OS.mkFile Ex.day1 false)
  /\ OS.fs_files (fs (snd res2)) !! 4%nat = Some (OS.mkFile Ex.day2 true).
Proof. vm_compute. repeat split. Qed.

(** C5. The sink of the example is closed, then handles a record: [Close]
    has left [curDate] in place and cleared [curInner], so
    [rotateIfNeeded] opens the day-file again; [Handle] succeeds, the
    record is in the file, and the sink holds a new open file object that
    a further [Close] does not release. *)
Theorem Handle_after_Close_reopens `{Encoder} :
  let w1 := snd (DailyFileHandler_Close 1 Ex.w_file) in
  let res := DailyFileHandler_Handle 1 Ex.r1 w1 in
  let w3 := snd (DailyFileHandler_Close 1 (snd res)) in
  fst (DailyFileHandler_Close 1 Ex.w_file) = Returned None
  /\ heap w1 !! 1%nat
     = Some (mkDailyFileHandler (cfg Ex.sink) "2024-01-01" None None
               (Some TickerStopped) (Some ChanClosed) true)
  /\ fst res = None
  /\ OS.content Ex.day1 (fs (snd res))
     = Some (encode Slog.TextLayout (Slog.mkOptions false 0) [] Ex.r1)
  /\ heap (snd res) !! 1%nat
     = Some (mkDailyFileHandler (cfg Ex.sink) "2024-01-01" (Some 4%nat)
               (Some (Slog.NewTextHandler 4 (Slog.mkOptions false 0)))
               (Some TickerStopped) (Some ChanClosed) true)
  /\ OS.fs_files (fs (snd res)) !! 4%nat = Some (OS.mkFile Ex.day1 true)
  /\ OS.fs_files (fs w3) !! 4%nat = Some (OS.mkFile Ex.day1 true).
Proof. vm_compute. repeat split. Qed.

Section Unreachable.
Context `{Encoder}.

Lemma rotateIfNeeded_answer h t w :
  match fst (fst (rotateIfNeeded h t w)) with
  | None => curInner (snd (fst (rotateIfNeeded h t w))) <> None
  | Some e => exists cause, e = fmt_Errorf "open log file failed: " cause
  end.
Proof.
  unfold rotateIfNeeded.
  destruct (String.eqb _ _ && bool_decide _) eqn:E.
  - cbn. apply andb_true_iff in E as [_ E].
    now apply bool_decide_eq_true in E.
  - destruct (curFile h) as [f|].
    + destruct (OS.Close f (fs w)) as [e files].
      destruct (OS.OpenFile _ _) as [[file|e'] files']; cbn;
        [discriminate | now eexists].
    + destruct (OS.OpenFile _ _) as [[file|e'] files']; cbn;
        [discriminate | now eexists].
Qed.

Lemma Write_error_kind f b files e :
  fst (OS.Write f b files) = Some e ->
  e = OS.ErrInvalid \/ exists name, e = PathError "write" name OS.ErrClosed.
Proof.
  unfold OS.Write. destruct (OS.fs_files files !! f) as [[name [|]]|]; cbn.
  - destruct (OS.fs_nodes files !! name) as [[c|]|]; discriminate.
  - intros [= <-]. right. now exists name.
  - intros [= <-]. now left.
Qed.

(** X1. Whatever the state of the sink, [Handle] never answers with the
    error "file handler not initialized": when [rotateIfNeeded] succeeds,
    an encoder is bound. *)
Lemma Handle_never_uninitialized p r w :
  fst (DailyFileHandler_Handle p r w)
  <> Some (errors_New "file handler not initialized").
Proof.
  unfold DailyFileHandler_Handle, with_receiver.
  destruct (heap w !! p) as [h|]; [|cbn; discriminate].
  pose proof (rotateIfNeeded_answer h (Slog.Time r) w) as Hb.
  destruct (rotateIfNeeded h (Slog.Time r) w) as [[[e|] h1] w1]; cbn in *.
  - destruct Hb as [cause ->]. discriminate.
  - destruct (curInner h1) as [enc|]; [|contradiction].
    unfold Builtin_Handle.
    destruct (OS.Write _ _ _) as [e files] eqn:Ew. cbn.
    intros ->. pose proof (Write_error_kind _ _ _ _ (f_equal fst Ew)) as [E|[n E]];
      discriminate E.
Qed.

End Unreachable.

Section Departures.
Context `{Encoder}.

Lemma day_encoder_w c f : Slog.bh_w (day_encoder c f) = f.
Proof. unfold day_encoder. now destruct (String.eqb _ _). Qed.

Lemma WithAttrs_w enc attrs : Slog.bh_w (Slog.WithAttrs enc attrs) = Slog.bh_w enc.
Proof. now destruct attrs. Qed.

(** X2. A handler decorated while the sink was open for one day, used for
    a record of another day: the original rotates, and the record is then
    written through the encoder of the file object that the rotation has
    closed.  The call fails and the record is in no file. *)
Lemma wrapper_stale_after_rotation p h attrs r w :
  heap w !! p = Some h -> open_for_day h (fs w) ->
  let date := Time.Format_date (Slog.Time r) in
  let path := day_path (cfg h) date in
  date <> curDate h ->
  path ∉ OS.fs_deny (fs w) ->
  OS.fs_nodes (fs w) !! path <> Some OS.Directory ->
  let res := Handle (WithAttrs (H_DailyFile p) attrs w) r w in
  fst res = Some (PathError "write" (day_path (cfg h) (curDate h)) OS.ErrClosed)
  /\ OS.content path (fs (snd res))
     = Some (from_option id "" (OS.content path (fs w)))
  /\ (forall q, q <> path ->
        OS.fs_nodes (fs (snd res)) !! q = OS.fs_nodes (fs w) !! q)
  /\ heap (snd res) !! p
     = Some (set_cur h date (Some (OS.fs_next (fs w)))
               (Some (day_encoder (cfg h) (OS.fs_next (fs w))))).
Proof.
  intros Hh (f & Hf & Hi & Ho & Hlt) date path Hd Hdeny Hdir res. subst res.
  cbn [WithAttrs]. unfold DailyFileHandler_WithAttrs. rewrite Hh, Hi.
  cbn [Handle]. unfold fileHandlerWrapper_Handle, with_receiver.
  cbn [original inner]. rewrite Hh.
  rewrite (rotate_new_day h (Slog.Time r) w f _ Hf Ho Hd Hdeny Hdir).
  fold date path. unfold Builtin_Handle. rewrite WithAttrs_w, day_encoder_w.
  cbn [fs set_fs].
  rewrite (OSFacts.Write_closed f _ _ (day_path (cfg h) (curDate h))).
  2: { unfold rotated. cbn [OS.fs_files]. rewrite lookup_insert_ne by lia.
       apply lookup_insert_eq. }
  cbn [fst snd]. split; [reflexivity|].
  unfold store, set_heap. cbn [fs heap set_fs].
  split; [|split; [|apply lookup_insert_eq]].
  - unfold OS.content, rotated. cbn [OS.fs_nodes].
    destruct (OS.fs_nodes (fs w) !! path) as [[c|]|] eqn:En;
      rewrite ?En, ?lookup_insert_eq; first [reflexivity | congruence].
  - intros q Hq. unfold rotated. cbn [OS.fs_nodes].
    destruct (OS.fs_nodes (fs w) !! path); [reflexivity|].
    now apply lookup_insert_ne.
Qed.

(** A sink without file and encoder (never opened, or closed): a record
    makes [rotateIfNeeded] open the day-file whatever [curDate] is. *)
Lemma rotate_reopens h t w :
  curFile h = None -> curInner h = None ->
  let date := Time.Format_date t in
  let path := day_path (cfg h) date in
  path ∉ OS.fs_deny (fs w) ->
  OS.fs_nodes (fs w) !! path <> Some OS.Directory ->
  rotateIfNeeded h t w =
    (None,
     set_cur h date (Some (OS.fs_next (fs w)))
             (Some (day_encoder (cfg h) (OS.fs_next (fs w)))),
     set_fs w (OS.mkFS
                 (match OS.fs_nodes (fs w) !! path with
                  | None => <[path := OS.RegularFile ""]> (OS.fs_nodes (fs w))
                  | Some _ => OS.fs_nodes (fs w)
                  end)
                 (<[OS.fs_next (fs w) := OS.mkFile path true]> (OS.fs_files (fs w)))
                 (S (OS.fs_next (fs w))) (OS.fs_deny (fs w)))).
Proof.
  intros Hf Hi date path Hdeny Hdir. unfold rotateIfNeeded. fold date.
  rewrite Hi, Hf.
  rewrite (bool_decide_eq_false_2 (None <> None)) by (intros E; now apply E).
  rewrite andb_false_r. change (Filepath.Join _ _) with path.
  unfold OS.OpenFile.
  rewrite (decide_False (P := path ∈ OS.fs_deny (fs w))) by exact Hdeny.
  unfold day_encoder.
  destruct (OS.fs_nodes (fs w) !! path) as [[c|]|] eqn:En;
    [ | congruence | ];
    destruct (String.eqb (Format (cfg h)) LogFormatJSON); reflexivity.
Qed.

(** X3. [Handle] on a sink that has been closed: the day-file of the record
    is opened again and the record is appended to it; the call succeeds, and
    the sink is left with an open file although its [closeOnce] is done. *)
Lemma Handle_after_Close p h r w :
  heap w !! p = Some h -> open_for_day h (fs w) ->
  closeOnce h = false -> cleanDone h <> Some ChanClosed ->
  let date := Time.Format_date (Slog.Time r) in
  let path := day_path (cfg h) date in
  path ∉ OS.fs_deny (fs w) ->
  OS.fs_nodes (fs w) !! path <> Some OS.Directory ->
  let w1 := snd (DailyFileHandler_Close p w) in
  let res := DailyFileHandler_Handle p r w1 in
  fst (DailyFileHandler_Close p w) = Returned None
  /\ fst res = None
  /\ OS.content path (fs (snd res))
     = Some (from_option id "" (OS.content path (fs w)) +:+ day_bytes (cfg h) r)
  /\ exists h', heap (snd res) !! p = Some h' /\ closeOnce h' = true
                /\ curFile h' = Some (OS.fs_next (fs w))
                /\ OS.fs_files (fs (snd res)) !! OS.fs_next (fs w)
                   = Some (OS.mkFile path true).
Proof.
  intros Hh (f & Hf & Hi & Ho & Hlt) Hc Hd date path Hdeny Hdir w1 res.
  assert (Ecl : DailyFileHandler_Close p w =
    (Returned None,
     store p (set_closeOnce
                (mkDailyFileHandler (cfg h) (curDate h) None None
                   (match cleanTicker h with
                    | Some _ => Some TickerStopped | None => None end)
                   (match cleanDone h with
                    | Some _ => Some ChanClosed | None => None end)
                   (closeOnce h)) true)
       (set_fs w (OS.set_files (fs w)
                    (<[f := OS.mkFile (day_path (cfg h) (curDate h)) false]>
                       (OS.fs_files (fs w))))))).
  { unfold DailyFileHandler_Close, with_receiver. rewrite Hh, Hc.
    now rewrite (Close_once_open h w f _ Hd Hf Ho). }
  subst res w1. rewrite Ecl. cbn [fst snd]. split; [reflexivity|].
  unfold DailyFileHandler_Handle, with_receiver. rewrite heap_store.
  rewrite rotate_reopens; cbn [curFile curInner set_closeOnce cfg fs set_fs store
                                 set_heap OS.fs_deny OS.fs_nodes OS.set_files];
    [ | reflexivity | reflexivity | exact Hdeny | exact Hdir ].
  fold date path. cbn [curInner set_cur]. unfold Builtin_Handle.
  rewrite day_encoder_bytes, day_encoder_w. cbn [fs set_fs OS.fs_next].
  erewrite OSFacts.Write_open.
  - cbn [fst snd]. split; [reflexivity|].
    split; [apply OSFacts.content_set_nodes_eq|].
    eexists. unfold store, set_heap. cbn [heap fs set_fs].
    split; [apply lookup_insert_eq|]. split; [reflexivity|].
    split; [reflexivity|]. cbn. apply lookup_insert_eq.
  - cbn [OS.fs_files]. apply lookup_insert_eq.
  - unfold OS.content. cbn [OS.fs_nodes].
    destruct (OS.fs_nodes (fs w) !! path) as [[c|]|] eqn:En;
      rewrite ?En, ?lookup_insert_eq; first [reflexivity | congruence].
Qed.

End Departures.

(** ** Construction *)

(** X4. A sink that [NewFileHandler] returns is open for the day of the
    clock,
    with the ticker running and the stop channel open. *)
Lemma NewFileHandler_open_for_day c w p w' :
  NewFileHandler c w = (inl p, w') ->
  exists h, heap w' !! p = Some h /\ cfg h = c
            /\ curDate h = Time.Format_date (now w)
            /\ open_for_day h (fs w')
            /\ cleanTicker h = Some TickerRunning
            /\ cleanDone h = Some ChanOpen /\ closeOnce h = false.
Proof.
  unfold NewFileHandler.
  destruct (OS.MkdirAll (Dir c) (fs w)) as [[e|] files]; [discriminate|].
  set (w1 := set_fs w files).
  set (h0 := mkDailyFileHandler c "" None None None (Some ChanOpen) false).
  destruct (decide (day_path c (Time.Format_date (now w1)) ∈ OS.fs_deny (fs w1)))
    as [Hin|Hout].
  { unfold rotateIfNeeded. cbn [curFile curInner cfg h0].
    rewrite (bool_decide_eq_false_2 (None <> None)) by (intros E; now apply E).
    rewrite andb_false_r. unfold OS.OpenFile.
    change (Filepath.Join _ _) with (day_path c (Time.Format_date (now w1))).
    rewrite (decide_True (P := _ ∈ _)) by exact Hin. discriminate. }
  assert (Hcases : OS.fs_nodes (fs w1) !! day_path c (Time.Format_date (now w1))
                   = Some OS.Directory
                   \/ OS.fs_nodes (fs w1) !! day_path c (Time.Format_date (now w1))
                      <> Some OS.Directory).
  { destruct (OS.fs_nodes (fs w1) !! _) as [[c0|]|];
      [right; discriminate | now left | right; discriminate]. }
  destruct Hcases as [Hdir|Hdir].
  { unfold rotateIfNeeded. cbn [curFile curInner cfg h0].
    rewrite (bool_decide_eq_false_2 (None <> None)) by (intros E; now apply E).
    rewrite andb_false_r. unfold OS.OpenFile.
    change (Filepath.Join _ _) with (day_path c (Time.Format_date (now w1))).
    rewrite (decide_False (P := _ ∈ _)) by exact Hout. rewrite Hdir.
    discriminate. }
  rewrite (rotate_reopens h0 (now w1) w1 eq_refl eq_refl Hout Hdir).
  intros [= <- <-]. eexists. cbn [heap]. split; [apply lookup_insert_eq|].
  split; [reflexivity|]. split; [reflexivity|].
  split; [|now repeat split].
  exists (OS.fs_next (fs w1)). split; [reflexivity|]. split; [reflexivity|].
  split; [apply lookup_insert_eq|]. cbn. lia.
Qed.

(** ** More worked examples *)

(** A fan-out over a stale decorated file handler, which fails, and the
    terminal, which succeeds: the terminal still shows the record, and the
    call reports the joined failure. *)
Example fanout_failing_then_succeeding :
  let stale := WithAttrs (H_DailyFile 1) Ex.kv Ex.w_file in
  let term := H_Terminal (NewTerminalHandler OS.Stderr Ex.term_only) in
  let res := Handle (H:=Ex.plain) (H_Multi [stale; term]) Ex.r2 Ex.w_file in
  fst res = Some (errors_Join [PathError "write" Ex.day1 OS.ErrClosed])
  /\ OS.content "/dev/stderr" (fs (snd res))
     = Some (colorBlue +:+ "msg=two;" +:+ colorReset).
Proof. vm_compute. split; reflexivity. Qed.

(** The first design of [MultiHandler.Handle] on two failing members
    returned the first failure alone, the second design joins them. *)
Example fanout_first_error_only :
  let stale := WithAttrs (H_DailyFile 1) Ex.kv Ex.w_file in
  let failure := PathError "write" Ex.day1 OS.ErrClosed in
  fst (MultiHandler_loop_v1 Enabled (Handle (H:=Ex.plain)) [stale; stale] Ex.r2
         None Ex.w_file) = Some failure
  /\ fst (MultiHandler_Handle Enabled (Handle (H:=Ex.plain)) [stale; stale] Ex.r2
            Ex.w_file) = Some (errors_Join [failure; failure]).
Proof. vm_compute. split; reflexivity. Qed.

(** [InitLogger] for file output, then for terminal output: one logger,
    whose handler is the file sink; the second configuration is ignored
    and not even defaulted. *)
Example InitLogger_twice :
  let first := InitLogger Ex.file_only Ex.w0 in
  let second := InitLogger Ex.term_only (snd first) in
  fst (fst first) = (Some (mkLogger 2 (H_DailyFile 1)), None)
  /\ snd (fst first) = mkLogConfig OutputFile "./logs" "app" 30 "text" 0 false
  /\ second = (fst (fst first), Ex.term_only, snd first).
Proof. vm_compute. repeat split. Qed.

(** Both outputs: the file sink first, then the terminal, in a fan-out. *)
Example InitLogger_both :
  fst (fst (InitLogger Ex.both Ex.w0))
  = (Some (mkLogger 2
             (H_Multi [H_DailyFile 1;
                       H_Terminal (NewTerminalHandler OS.Stderr Ex.both)])),
     None).
Proof. vm_compute. reflexivity. Qed.

(** A format that is not recognised: the failure is kept, and a later call
    with a valid configuration gets it too, with no logger. *)
Example InitLogger_bad_format :
  let bad := mkLogConfig OutputTerminal "" "" 0 "xml" 0 false in
  let failure :=
    fmt_Errorf "invalid config: " (errors_New "unsupported log format: xml") in
  fst (fst (InitLogger bad Ex.w0)) = (None, Some failure)
  /\ fst (fst (InitLogger Ex.both (snd (InitLogger bad Ex.w0))))
     = (None, Some failure)
  /\ Error failure = "invalid config: unsupported log format: xml".
Proof. vm_compute. repeat split. Qed.

(** An output selector with neither bit set and not "none" passes
    [validate] and fails afterwards. *)
Example InitLogger_no_target :
  fst (fst (InitLogger (mkLogConfig 1 "" "" 0 "" 0 false) Ex.w0))
  = (None, Some (errors_New "no output target specified")).
Proof. vm_compute. reflexivity. Qed.

(** The constants of [LogOutput]. *)
Example LogOutput_values :
  (OutputNone, OutputFile, OutputTerminal, OutputBoth) = (0, 2, 4, 6).
Proof. reflexivity. Qed.

(** The decorated handler of the example on the day after, for any
    encoder. *)
Lemma wrapper_stale_after_rotation_witness :
  heap Ex.w_file !! 1%nat = Some Ex.sink
  /\ open_for_day Ex.sink (fs Ex.w_file)
  /\ fst (Handle (H:=Ex.plain) (WithAttrs (H_DailyFile 1) Ex.kv Ex.w_file)
            Ex.r2 Ex.w_file)
     = Some (PathError "write" Ex.day1 OS.ErrClosed).
Proof.
  assert (Hh : heap Ex.w_file !! 1%nat = Some Ex.sink) by reflexivity.
  pose proof w_file_open_for_day as Ho.
  split; [exact Hh|]. split; [exact Ho|].
  refine (proj1 (wrapper_stale_after_rotation (H:=Ex.plain) 1 Ex.sink Ex.kv
                   Ex.r2 Ex.w_file Hh Ho _ _ _)).
  - vm_compute. discriminate.
  - vm_compute. discriminate.
  - vm_compute. discriminate.
Defined.

(** The sink of the example, closed, then given a record. *)
Lemma Handle_after_Close_witness :
  heap Ex.w_file !! 1%nat = Some Ex.sink
  /\ open_for_day Ex.sink (fs Ex.w_file)
  /\ fst (DailyFileHandler_Handle (H:=Ex.plain) 1 Ex.r1
            (snd (DailyFileHandler_Close 1 Ex.w_file))) = None.
Proof.
  assert (Hh : heap Ex.w_file !! 1%nat = Some Ex.sink) by reflexivity.
  pose proof w_file_open_for_day as Ho.
  split; [exact Hh|]. split; [exact Ho|].
  refine (proj1 (proj2 (Handle_after_Close (H:=Ex.plain) 1 Ex.sink Ex.r1
                          Ex.w_file Hh Ho eq_refl _ _ _))).
  - discriminate.
  - vm_compute. discriminate.
  - vm_compute. discriminate.
Defined.

(** The sink of the example is the one [NewFileHandler] built. *)
Lemma NewFileHandler_open_for_day_witness :
  NewFileHandler (fst (validate Ex.file_only)) Ex.w0
  = (inl 1%nat, snd (NewFileHandler (fst (validate Ex.file_only)) Ex.w0))
  /\ exists h, heap (snd (NewFileHandler (fst (validate Ex.file_only)) Ex.w0))
                 !! 1%nat = Some h
               /\ curDate h = "2024-01-01".
Proof.
  assert (E : NewFileHandler (fst (validate Ex.file_only)) Ex.w0
              = (inl 1%nat, snd (NewFileHandler (fst (validate Ex.file_only)) Ex.w0)))
    by reflexivity.
  split; [exact E|].
  destruct (NewFileHandler_open_for_day _ _ _ _ E) as (h & Hh & _ & Hd & _).
  exists h. split; [exact Hh | exact Hd].
Defined.

(** ** The runtime models on concrete inputs *)

Example Format_date_examples :
  Time.Format_date (Time.utc 2024 1 1 23 59) = "2024-01-01"
  /\ Time.Format_date (Time.utc 2024 1 2 0 1) = "2024-01-02"
  /\ Time.Format_date (Time.utc 2024 2 29 12 0) = "2024-02-29"
  /\ Time.Format_date (Time.mkTime (-1) 0) = "1969-12-31"
  /\ Time.Format_date (Time.mkTime (-1) 3600) = "1970-01-01"
  /\ Time.Format_date (Time.utc 12024 12 31 0 0) = "12024-12-31"
  /\ Time.Format_date (Time.utc (-5) 3 1 0 0) = "-0005-03-01".
Proof. vm_compute. repeat split. Qed.

Example Parse_date_examples :
  Time.Parse_date "2024-02-29" = Some (Time.utc 2024 2 29 0 0)
  /\ Time.Parse_date "2023-02-29" = None
  /\ Time.Parse_date "2023-2-28" = None
  /\ Time.Parse_date "2023-13-01" = None
  /\ Time.Parse_date "2023-12-31x" = None
  /\ Time.Parse_date "latest" = None
  /\ Time.Parse_date "" = None.
Proof. vm_compute. repeat split. Qed.

Example Join_examples :
  Filepath.Join "./logs" "app-2024-01-01.log" = "logs/app-2024-01-01.log"
  /\ Filepath.Join "/var//log/../x/" "a/../app-2024-01-01.log"
     = "/var/x/app-2024-01-01.log"
  /\ Filepath.Join "" "app.log" = "app.log"
  /\ Filepath.Clean "../../a/.." = "../.."
  /\ Filepath.Clean "/../a" = "/a"
  /\ Filepath.Clean "" = ".".
Proof. vm_compute. repeat split. Qed.

Example Trim_examples :
  Strings.TrimSuffix (Strings.TrimPrefix "app-2024-01-01.log" "app-") ".log"
  = "2024-01-01"
  /\ Strings.HasSuffix "app-.lo" ".log" = false
  /\ Strings.TrimPrefix "web-2024-01-01.log" "app-" = "web-2024-01-01.log".
Proof. vm_compute. repeat split. Qed.

(** ** Enabled levels *)

(** Induction on handlers, through the members of a fan-out. *)
Lemma Handler_members_ind (P : Handler -> Prop) :
  (forall p, P (H_DailyFile p)) ->
  (forall wr, P (H_Wrapper wr)) ->
  (forall t, P (H_Terminal t)) ->
  (forall hs, Forall P hs -> P (H_Multi hs)) ->
  forall h, P h.
Proof.
  intros Hf Hw Ht Hm. fix IH 1. intros [p|wr|t|hs].
  - apply Hf.
  - apply Hw.
  - apply Ht.
  - apply Hm. induction hs as [|h hs IHhs]; constructor.
    + apply IH.
    + exact IHhs.
Qed.

Lemma MultiHandler_Enabled_ext {M} (e1 e2 : M -> Z -> World -> bool)
    (f : M -> M) hs level w :
  Forall (fun h => e1 (f h) level w = e2 h level w) hs ->
  MultiHandler_Enabled e1 (map f hs) level w = MultiHandler_Enabled e2 hs level w.
Proof.
  induction 1 as [|h hs E _ IH]; simpl; [reflexivity|]. now rewrite E, IH.
Qed.

(** X5. Decorating a handler never changes the levels it accepts:
    whatever the handler (file sink, wrapper, terminal, fan-out of any
    depth), whatever is bound and whenever it is bound, the decorated
    handler is enabled for a level exactly when the handler it was derived
    from is. *)
Theorem Enabled_decorate_all (h : Handler) (bs : list Slog.Bound)
    (w w' : World) (level : Z) :
  Enabled (decorate_all h bs w) level w' = Enabled h level w'.
Proof.
  assert (step : forall h b, Enabled (decorate w h b) level w' = Enabled h level w').
  { intros h0. induction h0 as [p|wr|t|hs IH] using Handler_members_ind;
      intros [attrs|name]; cbn [decorate WithAttrs WithGroup Enabled].
    - unfold DailyFileHandler_WithAttrs.
      destruct (heap w !! p) as [h1|]; [|reflexivity].
      now destruct (curInner h1).
    - unfold DailyFileHandler_WithGroup.
      destruct (heap w !! p) as [h1|]; [|reflexivity].
      now destruct (curInner h1).
    - reflexivity.
    - reflexivity.
    - reflexivity.
    - reflexivity.
    - apply MultiHandler_Enabled_ext.
      eapply Forall_impl; [exact IH|]. intros m Hm.
      exact (Hm (Slog.BoundAttrs attrs)).
    - apply MultiHandler_Enabled_ext.
      eapply Forall_impl; [exact IH|]. intros m Hm.
      exact (Hm (Slog.BoundGroup name)). }
  unfold decorate_all. revert h.
  induction bs as [|b bs IH]; intros h; simpl; [reflexivity|].
  now rewrite IH, step.
Qed.

(** ** Both sinks *)

Section BothSinks.
Context `{Encoder}.

(** X6. The fan-out [InitLogger] builds for [OutputBoth], a file sink
    open for the record's day and the terminal handler of the same
    configuration: a record at or above the configured level is appended
    to the day-file and, with its colour and the reset, to the terminal,
    and the call succeeds; a record below the level reaches neither and
    leaves the world as it was. *)
Theorem both_sinks_receive (p : nat) (h : DailyFileHandler) (r : Slog.Record)
    (w : World) (c0 tty shown : string) :
  heap w !! p = Some h ->
  open_for_day h (fs w) ->
  Time.Format_date (Slog.Time r) = curDate h ->
  let path := day_path (cfg h) (curDate h) in
  OS.content path (fs w) = Some c0 ->
  OS.fs_files (fs w) !! OS.Stderr = Some (OS.mkFile tty true) ->
  OS.content tty (fs w) = Some shown ->
  tty <> path ->
  let both := H_Multi [H_DailyFile p;
                       H_Terminal (NewTerminalHandler OS.Stderr (cfg h))] in
  (Level (cfg h) <= Slog.Level r ->
     Enabled both (Slog.Level r) w = true
     /\ fst (Handle both r w) = None
     /\ OS.content path (fs (snd (Handle both r w)))
        = Some (c0 +:+ day_bytes (cfg h) r)
     /\ OS.content tty (fs (snd (Handle both r w)))
        = Some (shown +:+ level_color (Slog.Level r)
                  +:+ encode Slog.TextLayout
                        (Slog.mkOptions (AddSource (cfg h)) (Level (cfg h))) [] r
                  +:+ colorReset)
     /\ heap (snd (Handle both r w)) = heap w)
  /\ (Slog.Level r < Level (cfg h) ->
        Enabled both (Slog.Level r) w = false /\ Handle both r w = (None, w)).
Proof.
  intros Hh Ho Hd path Hc Hf Hs Hne both. split; intros Hl.
  - assert (El : (Level (cfg h) <=? Slog.Level r) = true) by now apply Z.leb_le.
    subst both. split.
    { cbn [Enabled MultiHandler_Enabled]. unfold DailyFileHandler_Enabled.
      now rewrite Hh, El. }
    cbn [Handle]. unfold MultiHandler_Handle.
    cbn [MultiHandler_loop Enabled Handle].
    unfold DailyFileHandler_Enabled. rewrite Hh, El. cbn [negb].
    rewrite (Handle_same_day p h r w c0 Hh Ho Hd Hc). fold path.
    set (w1 := set_fs w _).
    unfold TerminalHandler_Enabled. cbn [NewTerminalHandler th_opts Slog.MinLevel].
    rewrite El. cbn [negb].
    assert (Hf1 : OS.fs_files (fs w1) !! th_out (NewTerminalHandler OS.Stderr (cfg h))
                  = Some (OS.mkFile tty true)) by exact Hf.
    assert (Hs1 : OS.content tty (fs w1) = Some shown).
    { subst w1. unfold OS.content. cbn [fs set_fs OS.set_nodes OS.fs_nodes].
      rewrite lookup_insert_ne by congruence. exact Hs. }
    rewrite (TerminalHandler_Handle_open (NewTerminalHandler OS.Stderr (cfg h))
               r w1 tty shown eq_refl Hf1 Hs1).
    cbn [length Nat.ltb Nat.leb fst snd fs set_fs heap].
    split; [reflexivity|]. split.
    + unfold OS.content. cbn [OS.set_nodes OS.fs_nodes].
      rewrite lookup_insert_ne by exact Hne.
      subst w1. cbn [fs set_fs OS.set_nodes OS.fs_nodes].
      now rewrite lookup_insert_eq.
    + split; [apply OSFacts.content_set_nodes_eq | reflexivity].
  - assert (El : (Level (cfg h) <=? Slog.Level r) = false) by now apply Z.leb_gt.
    subst both. cbn [Handle]. unfold MultiHandler_Handle.
    cbn [Enabled Handle MultiHandler_Enabled MultiHandler_loop].
    unfold DailyFileHandler_Enabled, TerminalHandler_Enabled.
    cbn [NewTerminalHandler th_opts Slog.MinLevel].
    rewrite Hh, El. cbn [negb]. split; reflexivity.
Qed.

(** ** Decorated file handlers on the day they were derived *)

Lemma Slog_bind_fields enc bs :
  let enc' := fold_left Slog_bind bs enc in
  Slog.bh_layout enc' = Slog.bh_layout enc
  /\ Slog.bh_w enc' = Slog.bh_w enc
  /\ Slog.bh_opts enc' = Slog.bh_opts enc
  /\ Slog.bh_bound enc' = Slog.bh_bound enc ++ filter binds bs.
Proof.
  revert enc. induction bs as [|b bs IH]; intros enc; simpl.
  - now rewrite app_nil_r.
  - destruct (IH (Slog_bind enc b)) as (H1 & H2 & H3 & H4).
    rewrite H1, H2, H3, H4.
    destruct b as [[|a attrs]|name]; simpl;
      rewrite <- ?app_assoc; repeat split; reflexivity.
Qed.

(** Decorating a file sink that has an encoder: nothing bound gives the
    sink itself, anything else a wrapper around the decorated encoder. *)
Lemma decorate_all_file p h enc bs w :
  heap w !! p = Some h -> curInner h = Some enc ->
  decorate_all (H_DailyFile p) bs w =
    match bs with
    | [] => H_DailyFile p
    | _ => H_Wrapper (mkWrapper p (fold_left Slog_bind bs enc))
    end.
Proof.
  intros Hh Hi. destruct bs as [|b bs]; [reflexivity|].
  unfold decorate_all. cbn [fold_left].
  assert (E1 : decorate w (H_DailyFile p) b
               = H_Wrapper (mkWrapper p (Slog_bind enc b))).
  { destruct b; cbn [decorate WithAttrs WithGroup];
      unfold DailyFileHandler_WithAttrs, DailyFileHandler_WithGroup;
      now rewrite Hh, Hi. }
  rewrite E1. generalize (Slog_bind enc b). clear E1.
  induction bs as [|b' bs IH]; intros e; [reflexivity|].
  cbn [fold_left]. rewrite <- IH. f_equal. now destruct b'.
Qed.

(** X7. A handler derived from a file sink by any sequence of [WithAttrs]
    and [WithGroup], used while the sink is still on the file it had when
    the handler was derived and on the day of the record: [Handle]
    succeeds and appends to the day-file the record encoded with what was
    bound, in the order it was bound, an empty attribute list binding
    nothing; the state of the sink does not change. *)
Theorem decorated_same_day (p : nat) (h : DailyFileHandler)
    (bs : list Slog.Bound) (r : Slog.Record) (w w' : World) (c0 : string) :
  heap w !! p = Some h ->
  heap w' !! p = Some h ->
  open_for_day h (fs w') ->
  Time.Format_date (Slog.Time r) = curDate h ->
  let path := day_path (cfg h) (curDate h) in
  OS.content path (fs w') = Some c0 ->
  Handle (decorate_all (H_DailyFile p) bs w) r w' =
    (None,
     set_fs w' (OS.set_nodes (fs w')
       (<[path := OS.RegularFile
                    (c0 +:+ encode (if String.eqb (Format (cfg h)) LogFormatJSON
                                    then Slog.JSONLayout else Slog.TextLayout)
                                   (Slog.mkOptions (AddSource (cfg h)) (Level (cfg h)))
                                   (filter binds bs) r)]>
          (OS.fs_nodes (fs w'))))).
Proof.
  intros Hh Hh' Ho Hd path Hc.
  destruct Ho as (f & Hf & Hi & Hopen & Hlt).
  rewrite (decorate_all_file p h _ bs w Hh Hi).
  destruct bs as [|b bs].
  - cbn [Handle filter].
    rewrite (Handle_same_day p h r w' c0 Hh'
               (ex_intro _ f (conj Hf (conj Hi (conj Hopen Hlt)))) Hd Hc).
    reflexivity.
  - cbn [Handle]. unfold fileHandlerWrapper_Handle, with_receiver.
    cbn [original inner]. rewrite Hh'.
    rewrite (rotate_same_day h (Slog.Time r) w' Hd) by congruence.
    unfold Builtin_Handle.
    destruct (Slog_bind_fields (day_encoder (cfg h) f) (b :: bs))
      as (E1 & E2 & E3 & E4).
    rewrite E1, E2, E3, E4.
    replace (Slog.bh_w (day_encoder (cfg h) f)) with f
      by (unfold day_encoder; now destruct (String.eqb _ _)).
    rewrite (OSFacts.Write_open f _ (fs w') path c0 Hopen Hc).
    match goal with
    | |- (_, store p h ?x) = _ =>
        rewrite (store_same_frame p h w' x Hh' eq_refl)
    end.
    unfold day_encoder. now destruct (String.eqb (Format (cfg h)) LogFormatJSON).
Qed.

End BothSinks.

(** ** [GetLogger] *)

Section Getting.

Lemma InitLogger_once_terminal w :
  InitLogger_once (mkLogConfig OutputTerminal "" "" 0 "" 0 false) w =
    (mkLogConfig OutputTerminal "" "" 0 LogFormatText 0 false,
     install (H_Terminal (mkTerminalHandler OS.Stderr None
                            (Slog.mkOptions false Slog.LevelInfo) true)) w).
Proof. reflexivity. Qed.

(** A once-function that records a failure changes no other package
    variable and installs nothing. *)
Lemma InitLogger_once_failed c w e :
  initErr w = None ->
  initErr (snd (InitLogger_once c w)) = Some e ->
  onceLogger (snd (InitLogger_once c w)) = onceLogger w
  /\ onceFileHandler (snd (InitLogger_once c w)) = onceFileHandler w
  /\ slog_default (snd (InitLogger_once c w)) = slog_default w
  /\ loggerOnce (snd (InitLogger_once c w)) = loggerOnce w.
Proof.
  intros Hn. unfold InitLogger_once.
  destruct (validate c) as [c' [e0|]]; [now simpl|].
  destruct (negb (Z.land (Output c') OutputFile =? 0)).
  - pose proof (NewFileHandler_pkg_vars c' w) as Hp.
    destruct (NewFileHandler c' w) as [[p|e0] w1]; simpl in Hp;
      injection Hp as H1 H2 H3 H4 H5.
    + destruct (negb (Z.land (Output c') OutputTerminal =? 0)); simpl;
        congruence.
    + simpl. intros _. now repeat split.
  - destruct (negb (Z.land (Output c') OutputTerminal =? 0)); simpl.
    + congruence.
    + intros _. now repeat split.
Qed.

End Getting.

(** X8. [GetLogger] in a process that has not initialised the package:
    it builds and installs a colourising terminal logger at [LevelInfo]
    and returns it; no file is touched and no file sink exists.  From then
    on the logger is fixed: [InitLogger], whatever configuration it is
    given, returns this same terminal logger with no error, leaves the
    configuration as given (it is not even validated) and changes
    nothing, and the package [Close] has nothing to close. *)
Theorem GetLogger_before_InitLogger (w : World) (c : LogConfig) :
  untouched w ->
  let l := mkLogger (next_addr w)
             (H_Terminal (mkTerminalHandler OS.Stderr None
                            (Slog.mkOptions false Slog.LevelInfo) true)) in
  let w1 := snd (GetLogger w) in
  fst (GetLogger w) = PackageLogger l
  /\ fs w1 = fs w /\ heap w1 = heap w /\ onceFileHandler w1 = None
  /\ slog_Default w1 = PackageLogger l
  /\ InitLogger c w1 = ((Some l, None), c, w1)
  /\ Close w1 = (Returned None, w1).
Proof.
  intros (Ho & Hl & Hf & He) l w1.
  assert (E : GetLogger w = (PackageLogger l, set_loggerOnce (install (logger_handler l) w))).
  { unfold GetLogger. rewrite Hl, (InitLogger_first _ w Ho).
    rewrite InitLogger_once_terminal. reflexivity. }
  subst w1. rewrite E. cbn [fst snd].
  split; [reflexivity|]. split; [reflexivity|]. split; [reflexivity|].
  split; [exact Hf|]. split; [reflexivity|]. split.
  - rewrite InitLogger_done by reflexivity.
    unfold InitLogger_result. cbn [initErr set_loggerOnce install onceLogger].
    now rewrite He.
  - unfold Close. cbn [onceFileHandler set_loggerOnce install]. now rewrite Hf.
Qed.

(** X9. [GetLogger] settles: in any state of the process, a second call
    returns what the first returned and changes nothing. *)
Theorem GetLogger_settles (w : World) :
  GetLogger (snd (GetLogger w)) = GetLogger w.
Proof.
  unfold GetLogger at 2 3.
  destruct (onceLogger w) as [l|] eqn:El.
  - cbn [snd]. unfold GetLogger. now rewrite El.
  - destruct (loggerOnce w) eqn:Eo.
    + rewrite (InitLogger_done _ w Eo), El. cbn [snd].
      unfold GetLogger. now rewrite El, (InitLogger_done _ w Eo), El.
    + rewrite (InitLogger_first _ w Eo), InitLogger_once_terminal.
      reflexivity.
Qed.

(** X10. After an [InitLogger] that failed, [GetLogger] does not fall
    back to a terminal logger: the package has no logger, and [GetLogger]
    returns whatever [slog.Default()] was before the failed call, and
    changes nothing. *)
Theorem GetLogger_after_failed_InitLogger (w : World) (c c' : LogConfig)
    (e : error) (w1 : World) :
  untouched w ->
  InitLogger c w = ((None, Some e), c', w1) ->
  onceLogger w1 = None /\ GetLogger w1 = (slog_Default w, w1).
Proof.
  intros (Ho & Hl & Hf & He) E.
  rewrite (InitLogger_first c w Ho) in E.
  injection E as Hr Hc <-.
  unfold InitLogger_result in Hr. cbn [initErr onceLogger set_loggerOnce] in Hr.
  destruct (initErr (snd (InitLogger_once c w))) as [e1|] eqn:Ee.
  - destruct (InitLogger_once_failed c w e1 He Ee) as (H1 & H2 & H3 & H4).
    assert (Hn : onceLogger (set_loggerOnce (snd (InitLogger_once c w))) = None)
      by (cbn [onceLogger set_loggerOnce]; congruence).
    split; [exact Hn|].
    unfold GetLogger. rewrite Hn, InitLogger_done by reflexivity.
    rewrite Hn. unfold slog_Default. cbn [slog_default set_loggerOnce].
    now rewrite H3.
  - discriminate.
Qed.

(** ** The package [Close] after [InitLogger] *)

Section PackageClose.

(** What [NewFileHandler] leaves at the address it returns. *)
Lemma NewFileHandler_sink c w p w' :
  NewFileHandler c w = (inl p, w') ->
  exists h f, heap w' !! p = Some h /\ cfg h = c
    /\ curFile h = Some f
    /\ OS.fs_files (fs w') !! f
       = Some (OS.mkFile (day_path c (Time.Format_date (now w))) true)
    /\ cleanTicker h = Some TickerRunning
    /\ cleanDone h = Some ChanOpen /\ closeOnce h = false.
Proof.
  unfold NewFileHandler.
  destruct (OS.MkdirAll (Dir c) (fs w)) as [[e|] files]; [discriminate|].
  set (w1 := set_fs w files).
  set (h0 := mkDailyFileHandler c "" None None None (Some ChanOpen) false).
  unfold rotateIfNeeded in *. cbn [curFile curInner cfg h0 curDate] in *.
  rewrite (bool_decide_eq_false_2 (None <> None)) in * by (intros E; now apply E).
  rewrite andb_false_r in *.
  change (Filepath.Join _ _) with (day_path c (Time.Format_date (now w))) in *.
  unfold OS.OpenFile in *.
  destruct (decide (_ ∈ _)); [discriminate|].
  destruct (OS.fs_nodes (fs w1) !! _) as [[c0|]|] eqn:En; try discriminate;
    intros [= <- <-]; eexists; eexists; cbn;
    (split; [apply lookup_insert_eq|]);
    (split; [reflexivity|]); (split; [reflexivity|]);
    (split; [apply lookup_insert_eq|]); now repeat split.
Qed.

Lemma validate_Output c c' :
  validate c = (c', None) -> Output c' = Output c.
Proof.
  intros E. destruct (Z.eq_dec (Output c) OutputNone) as [Hn|Hn].
  - rewrite (validate_none c Hn) in E. discriminate.
  - destruct (validate_fields c Hn) as (F & _). now rewrite E in F.
Qed.

(** The configuration the once-function leaves is the one [validate]
    leaves. *)
Lemma InitLogger_once_cfg c w : fst (InitLogger_once c w) = fst (validate c).
Proof.
  unfold InitLogger_once. destruct (validate c) as [c2 [e|]]; [reflexivity|].
  destruct (negb (Z.land (Output c2) OutputFile =? 0)).
  - destruct (NewFileHandler c2 w) as [[p|e] wN]; [|reflexivity].
    now destruct (negb (Z.land (Output c2) OutputTerminal =? 0)).
  - now destruct (negb (Z.land (Output c2) OutputTerminal =? 0)).
Qed.

End PackageClose.

(** X11. The package [Close] after a first [InitLogger] that succeeded.
    Without the file bit in [Output] there is no file sink and [Close]
    does nothing.  With it, [onceFileHandler] is the sink [InitLogger]
    built, open on the day-file of the clock; [Close] returns nil, closes
    that file object, stops the ticker, closes the stop channel and leaves
    the sink without file and encoder, its [closeOnce] done; no file
    content changes. *)
Theorem Close_after_InitLogger (w : World) (c c' : LogConfig) (l : Logger)
    (w1 : World) :
  untouched w ->
  InitLogger c w = ((Some l, None), c', w1) ->
  (Z.land (Output c) OutputFile = 0 ->
     onceFileHandler w1 = None /\ Close w1 = (Returned None, w1))
  /\ (Z.land (Output c) OutputFile <> 0 ->
      exists p h f,
        let path := day_path c' (Time.Format_date (now w)) in
        onceFileHandler w1 = Some p
        /\ heap w1 !! p = Some h
        /\ curFile h = Some f
        /\ OS.fs_files (fs w1) !! f = Some (OS.mkFile path true)
        /\ Close w1 =
             (Returned None,
              store p (mkDailyFileHandler c' (curDate h) None None
                         (Some TickerStopped) (Some ChanClosed) true)
                (set_fs w1 (OS.set_files (fs w1)
                   (<[f := OS.mkFile path false]> (OS.fs_files (fs w1))))))).
Proof.
  intros (Ho & Hl & Hf & He) E.
  rewrite (InitLogger_first c w Ho) in E. injection E as Hr Hc <-.
  unfold InitLogger_result in Hr. cbn [initErr onceLogger set_loggerOnce] in Hr.
  rewrite InitLogger_once_cfg in Hc.
  unfold InitLogger_once in *.
  destruct (validate c) as [c2 [e|]] eqn:Ev.
  { cbn in Hr. discriminate. }
  cbn [fst] in Hc. subst c2.
  rewrite <- (validate_Output c c' Ev).
  destruct (Z.eqb_spec (Z.land (Output c') OutputFile) 0) as [Ez|Ez]; cbn [negb] in *.
  - split; [|intros Hn; contradiction]. intros _.
    destruct (negb (Z.land (Output c') OutputTerminal =? 0)); cbn in *.
    + unfold Close. cbn. rewrite Hf. now split.
    + discriminate.
  - split; [intros Hn; contradiction|]. intros _.
    pose proof (NewFileHandler_pkg_vars c' w) as Hp.
    destruct (NewFileHandler c' w) as [[p|e] wN] eqn:En; cbn [snd] in Hp.
    2:{ cbn in Hr. discriminate. }
    destruct (NewFileHandler_sink c' w p wN En)
      as (h & f & Hh & Hcfg & Hcf & Hopen & Ht & Hd & Hco).
    exists p, h, f. cbv zeta.
    assert (Hw : forall hd,
      onceFileHandler (set_loggerOnce (install hd (set_onceFileHandler wN p))) = Some p
      /\ heap (set_loggerOnce (install hd (set_onceFileHandler wN p))) = heap wN
      /\ fs (set_loggerOnce (install hd (set_onceFileHandler wN p))) = fs wN)
      by (intros hd; now repeat split).
    destruct (negb (Z.land (Output c') OutputTerminal =? 0)); cbn [app snd];
      match goal with
      | |- context [install ?hd (set_onceFileHandler wN p)] =>
          destruct (Hw hd) as (W1 & W2 & W3);
          set (w1 := set_loggerOnce (install hd (set_onceFileHandler wN p))) in *
      end;
      (split; [exact W1|]); rewrite W2, W3;
      (split; [exact Hh|]); (split; [exact Hcf|]); (split; [exact Hopen|]);
      unfold Close; rewrite W1;
      unfold DailyFileHandler_Close, with_receiver; rewrite W2, Hh, Hco;
      (rewrite (Close_once_open h w1 f _ ltac:(congruence) Hcf
                  ltac:(rewrite W3; exact Hopen)));
      rewrite Ht, Hd, Hcfg, W3; reflexivity.
Qed.

(** ** The new statements on the examples *)

Lemma w_both_open_for_day : open_for_day Ex2.sink_both (fs Ex2.w_both).
Proof.
  exists 3%nat. split; [reflexivity|]. split; [reflexivity|].
  split; [reflexivity|]. vm_compute. lia.
Qed.

Lemma both_sinks_receive_witness :
  fst (Handle (H:=Ex.plain)
         (H_Multi [H_DailyFile 1;
                   H_Terminal (NewTerminalHandler OS.Stderr Ex.both)])
         Ex.r1 Ex2.w_both) = None
  /\ OS.content "/dev/stderr"
       (fs (snd (Handle (H:=Ex.plain)
                   (H_Multi [H_DailyFile 1;
                             H_Terminal (NewTerminalHandler OS.Stderr Ex.both)])
                   Ex.r1 Ex2.w_both)))
     = Some (colorBlue +:+ "msg=one;" +:+ colorReset).
Proof.
  destruct (both_sinks_receive (H:=Ex.plain) 1 Ex2.sink_both Ex.r1 Ex2.w_both
              "" "/dev/stderr" "" eq_refl w_both_open_for_day eq_refl eq_refl
              eq_refl eq_refl ltac:(discriminate)) as [Hge _].
  destruct (Hge ltac:(vm_compute; discriminate)) as (_ & Hres & _ & Htty & _).
  split; [exact Hres | exact Htty].
Defined.

Lemma decorated_same_day_witness :
  Handle (H:=Ex.plain)
    (decorate_all (H_DailyFile 1)
       [Slog.BoundAttrs Ex.kv; Slog.BoundAttrs []; Slog.BoundGroup "g"] Ex.w_file)
    Ex.r1 Ex.w_file
  = (None,
     set_fs Ex.w_file (OS.set_nodes (fs Ex.w_file)
       (<[Ex.day1 := OS.RegularFile "msg=one k=v g.;"]>
          (OS.fs_nodes (fs Ex.w_file))))).
Proof.
  exact (decorated_same_day (H:=Ex.plain) 1 Ex.sink
           [Slog.BoundAttrs Ex.kv; Slog.BoundAttrs []; Slog.BoundGroup "g"]
           Ex.r1 Ex.w_file Ex.w_file "" eq_refl eq_refl w_file_open_for_day
           eq_refl eq_refl).
Defined.

Lemma untouched_w0 : untouched Ex.w0.
Proof. now repeat split. Qed.

Lemma GetLogger_before_InitLogger_witness :
  fst (GetLogger Ex.w0)
  = PackageLogger (mkLogger 1 (H_Terminal (NewTerminalHandler OS.Stderr Ex.term_only)))
  /\ InitLogger Ex.file_only (snd (GetLogger Ex.w0))
     = ((Some (mkLogger 1 (H_Terminal (NewTerminalHandler OS.Stderr Ex.term_only))),
         None), Ex.file_only, snd (GetLogger Ex.w0)).
Proof.
  destruct (GetLogger_before_InitLogger Ex.w0 Ex.file_only untouched_w0)
    as (Hl & _ & _ & _ & _ & Hi & _).
  split; [exact Hl | exact Hi].
Defined.

Lemma GetLogger_after_failed_InitLogger_witness :
  onceLogger (snd (InitLogger Ex2.bad_format Ex.w0)) = None
  /\ GetLogger (snd (InitLogger Ex2.bad_format Ex.w0))
     = (GoDefaultLogger, snd (InitLogger Ex2.bad_format Ex.w0)).
Proof.
  exact (GetLogger_after_failed_InitLogger Ex.w0 Ex2.bad_format Ex2.bad_format
           (fmt_Errorf "invalid config: "
              (errors_New "unsupported log format: xml"))
           (snd (InitLogger Ex2.bad_format Ex.w0)) untouched_w0 eq_refl).
Defined.

Lemma Close_after_InitLogger_witness :
  Close (snd (InitLogger Ex.term_only Ex.w0))
  = (Returned None, snd (InitLogger Ex.term_only Ex.w0))
  /\ exists p h f,
       onceFileHandler Ex2.w_both = Some p
       /\ heap Ex2.w_both !! p = Some h
       /\ curFile h = Some f
       /\ fst (Close Ex2.w_both) = Returned None
       /\ OS.fs_files (fs (snd (Close Ex2.w_both))) !! f
          = Some (OS.mkFile "logs/app-2024-01-01.log" false).
Proof.
  split.
  - destruct (Close_after_InitLogger Ex.w0 Ex.term_only
                (fst (validate Ex.term_only))
                (mkLogger 1 (H_Terminal (NewTerminalHandler OS.Stderr Ex.term_only)))
                (snd (InitLogger Ex.term_only Ex.w0)) untouched_w0 eq_refl)
      as [Hno _].
    exact (proj2 (Hno eq_refl)).
  - destruct (Close_after_InitLogger Ex.w0 Ex.both Ex.both
                (mkLogger 2 (H_Multi [H_DailyFile 1;
                                      H_Terminal (NewTerminalHandler OS.Stderr Ex.both)]))
                Ex2.w_both untouched_w0 eq_refl)
      as [_ Hyes].
    destruct (Hyes ltac:(vm_compute; discriminate))
      as (p & h & f & Hp & Hh & Hf & Ho & Hc).
    exists p, h, f. split; [exact Hp|]. split; [exact Hh|]. split; [exact Hf|].
    rewrite Hc. split; [reflexivity|]. cbn [snd fs store set_heap set_fs OS.set_files OS.fs_files].
    apply lookup_insert_eq.
Defined.

(** ** The first design *)

(** A once-function of the first design that fails installs nothing. *)
Lemma first_InitLogger_once_failed c w e :
  snd (fst (V1.InitLogger_once c w)) = Some e ->
  V1.onceLogger (snd (V1.InitLogger_once c w)) = V1.onceLogger w
  /\ V1.slog_default (snd (V1.InitLogger_once c w)) = V1.slog_default w.
Proof.
  unfold V1.InitLogger_once.
  destruct (OS.MkdirAll _ _) as [[e1|] files]; [now split|].
  unfold V1.NewFileHandler, V1.rotateIfNeeded.
  cbn [V1.curFile V1.curInner V1.curDate V1.cfg].
  rewrite (bool_decide_eq_false_2 (None <> None)) by (intros F; now apply F).
  rewrite andb_false_r.
  destruct (OS.OpenFile _ _) as [[file|e1] files'].
  - discriminate.
  - now split.
Qed.

(** X12. The first design of [InitLogger] does not remember a failure.
    When the first call fails (the log directory cannot be created, or the
    day-file cannot be opened), that caller gets the error, no logger is
    installed, and every later call, whatever its configuration, returns
    no logger and no error and changes nothing; [GetLogger] keeps
    answering with [slog.Default()]. *)
Theorem first_design_forgets_failure (c c' : V1.LogConfig) (w w1 : V1.World)
    (e : error) :
  V1.loggerOnce w = false ->
  V1.onceLogger w = None ->
  V1.InitLogger c w = ((None, Some e), c', w1) ->
  (forall c2, V1.InitLogger c2 w1 = ((None, None), c2, w1))
  /\ V1.GetLogger w1 = V1.slog_default w.
Proof.
  intros Ho Hl E. unfold V1.InitLogger in E. rewrite Ho in E.
  pose proof (first_InitLogger_once_failed c w) as Hf.
  destruct (V1.InitLogger_once c w) as [[c0 [e0|]] w0]; cbn [fst snd] in Hf.
  - injection E as _ _ <-. destruct (Hf e0 eq_refl) as [H2 H3].
    split.
    + intros c2. unfold V1.InitLogger.
      change (V1.loggerOnce (V1.set_loggerOnce w0)) with true. cbv iota.
      change (V1.onceLogger (V1.set_loggerOnce w0)) with (V1.onceLogger w0).
      now rewrite H2, Hl.
    + unfold V1.GetLogger.
      change (V1.onceLogger (V1.set_loggerOnce w0)) with (V1.onceLogger w0).
      change (V1.slog_default (V1.set_loggerOnce w0)) with (V1.slog_default w0).
      now rewrite H2, Hl, H3.
  - discriminate.
Qed.

Section FirstColors.
Context `{Encoder}.

Lemma first_decorate_all_color t bs w :
  exists t', V1.decorate_all (V1.H_Color t) bs w = (V1.H_Color t', w)
             /\ V1.ch_out t' = V1.ch_out t /\ V1.ch_opts t' = V1.ch_opts t.
Proof.
  unfold V1.decorate_all. revert t.
  induction bs as [|b bs IH]; intros t; cbn [fold_left].
  - now exists t.
  - cbn [V1.decorate fst snd].
    destruct (IH match b with
                 | Slog.BoundAttrs attrs => V1.ColorHandler_WithAttrs t attrs
                 | Slog.BoundGroup name => V1.ColorHandler_WithGroup t name
                 end) as (t' & E & Ho & Hp).
    exists t'. split; [exact E|]. now destruct b.
Qed.

(** X13. The colouring handler of the first design, decorated or not,
    on a terminal that is open: [Handle] succeeds; a record at
    [LevelInfo] is written bare, with no escape sequence before or after
    it; any other record is written between a colour and one reset, red
    from [LevelError] up, yellow at [LevelWarn], green otherwise.  What
    [WithAttrs] and [WithGroup] bound is not shown. *)
Theorem first_design_colors (out : nat) (opts : Slog.HandlerOptions)
    (bs : list Slog.Bound) (w0 : V1.World) (r : Slog.Record) (w : V1.World)
    (name shown : string) :
  OS.fs_files (V1.fs w) !! out = Some (OS.mkFile name true) ->
  OS.content name (V1.fs w) = Some shown ->
  let h := fst (V1.decorate_all (V1.H_Color (V1.NewColorHandler out opts)) bs w0) in
  let bytes := encode Slog.TextLayout opts [] r in
  fst (V1.Handle h r w) = None
  /\ OS.content name (V1.fs (snd (V1.Handle h r w)))
     = Some (if Slog.Level r =? Slog.LevelInfo then shown +:+ bytes
             else shown +:+ V1.level_color (Slog.Level r) +:+ bytes +:+ colorReset)
  /\ (Slog.LevelError <= Slog.Level r -> V1.level_color (Slog.Level r) = colorRed)
  /\ (Slog.Level r = Slog.LevelWarn -> V1.level_color (Slog.Level r) = colorYellow)
  /\ (Slog.Level r < Slog.LevelError -> Slog.Level r <> Slog.LevelWarn ->
      Slog.Level r <> Slog.LevelInfo -> V1.level_color (Slog.Level r) = colorGreen).
Proof.
  intros Hf Hs h bytes. subst h.
  destruct (first_decorate_all_color (V1.NewColorHandler out opts) bs w0)
    as (t' & -> & Ho & Hp).
  cbn [fst V1.Handle]. unfold V1.ColorHandler_Handle, Buffer_Handle.
  rewrite Ho, Hp. cbn [V1.NewColorHandler V1.ch_out V1.ch_opts].
  fold bytes. unfold V1.level_color, Slog.LevelError, Slog.LevelWarn, Slog.LevelInfo.
  assert (Hw1 : forall b, OS.Write out b (V1.fs w)
      = (None, OS.set_nodes (V1.fs w)
                 (<[name := OS.RegularFile (shown +:+ b)]> (OS.fs_nodes (V1.fs w)))))
    by (intros b; exact (OSFacts.Write_open out b (V1.fs w) name shown Hf Hs)).
  assert (Hw2 : forall b s nodes, OS.Write out b
        (OS.set_nodes (V1.fs w) (<[name := OS.RegularFile s]> nodes))
      = (None, OS.set_nodes (V1.fs w)
                 (<[name := OS.RegularFile (s +:+ b)]> nodes))).
  { intros b s nodes.
    erewrite OSFacts.Write_open; [|exact Hf|apply OSFacts.content_set_nodes_eq].
    unfold OS.set_nodes. cbn [OS.fs_nodes OS.fs_files OS.fs_next OS.fs_deny].
    now rewrite insert_insert_eq. }
  destruct (Z.leb_spec 8 (Slog.Level r)) as [L1|L1].
  { destruct (Z.eqb_spec (Slog.Level r) 0) as [L0|_]; [lia|].
    change (String.eqb colorRed "") with false. cbv iota.
    rewrite Hw1. cbn [snd]. rewrite !Hw2. cbn [fst snd V1.fs V1.set_fs].
    split; [reflexivity|]. split.
    - rewrite OSFacts.content_set_nodes_eq. now rewrite !StringFacts.app_assoc.
    - split; [reflexivity|]. split; [lia|]. intros; lia. }
  destruct (Z.eqb_spec (Slog.Level r) 4) as [L2|L2].
  { destruct (Z.eqb_spec (Slog.Level r) 0) as [L0|_]; [lia|].
    change (String.eqb colorYellow "") with false. cbv iota.
    rewrite Hw1. cbn [snd]. rewrite !Hw2. cbn [fst snd V1.fs V1.set_fs].
    split; [reflexivity|]. split.
    - rewrite OSFacts.content_set_nodes_eq. now rewrite !StringFacts.app_assoc.
    - split; [lia|]. split; [reflexivity|]. intros; lia. }
  destruct (Z.eqb_spec (Slog.Level r) 0) as [L3|L3].
  { change (String.eqb "" "") with true. cbv iota.
    rewrite Hw1. cbn [fst snd V1.fs V1.set_fs].
    split; [reflexivity|]. split; [apply OSFacts.content_set_nodes_eq|].
    split; [lia|]. split; [lia|]. intros; lia. }
  change (String.eqb colorGreen "") with false. cbv iota.
  rewrite Hw1. cbn [snd]. rewrite !Hw2. cbn [fst snd V1.fs V1.set_fs].
  split; [reflexivity|]. split.
  - rewrite OSFacts.content_set_nodes_eq. now rewrite !StringFacts.app_assoc.
  - split; [lia|]. split; [lia|]. reflexivity.
Qed.

End FirstColors.

Section FirstFailure.
Context {M : Type}.
Variable enabled : M -> Z -> World -> bool.
Variable handle : M -> Slog.Record -> World -> option error * World.

Lemma MultiHandler_loop_v1_deliver handlers r acc w :
  MultiHandler_loop_v1 enabled handle handlers r acc w =
    (match acc with
     | Some e => Some e
     | None => head (failures (fst (deliver_all enabled handle handlers r w)))
     end,
     snd (deliver_all enabled handle handlers r w)).
Proof.
  revert acc w. induction handlers as [|h rest IH]; intros acc w; simpl.
  - now destruct acc.
  - destruct (enabled h (Slog.Level r) w); simpl; [|apply IH].
    destruct (handle h r w) as [[e|] w1];
      destruct (deliver_all enabled handle rest r w1) as [more w2] eqn:Ed;
      destruct acc as [a|]; rewrite IH, Ed; reflexivity.
Qed.

(** X14. The fan-out loop of the first design, over any members: like
    the second design it gives the record to every member that accepts
    the level, whatever the earlier ones answered, and leaves the same
    world; unlike it, it reports one failure only, the first in member
    order, and the failures of the later members are lost. *)
Theorem first_design_fanout_first_failure (handlers : list M)
    (r : Slog.Record) (w : World) :
  let answers := fst (deliver_all enabled handle handlers r w) in
  let res := MultiHandler_loop_v1 enabled handle handlers r None w in
  snd res = snd (MultiHandler_Handle enabled handle handlers r w)
  /\ snd res = snd (deliver_all enabled handle handlers r w)
  /\ fst res = head (failures answers)
  /\ (fst res = None <-> fst (MultiHandler_Handle enabled handle handlers r w) = None)
  /\ (forall e errs, failures answers = e :: errs ->
        fst res = Some e
        /\ fst (MultiHandler_Handle enabled handle handlers r w)
           = Some (errors_Join (e :: errs))).
Proof.
  intros answers res. subst res. rewrite MultiHandler_loop_v1_deliver.
  fold answers. unfold MultiHandler_Handle.
  rewrite MultiHandler_loop_deliver. fold answers. cbn [app fst snd].
  destruct (failures answers) as [|e0 errs0]; cbn.
  - repeat split; congruence.
  - split; [reflexivity|]. split; [reflexivity|]. split; [reflexivity|].
    split; [split; discriminate|]. intros e errs [= <- <-]. now split.
Qed.

End FirstFailure.

(** ** The sweep of the first design *)

Section FirstSweep.
Import StringFacts.

Lemma drop_drop n m s : Strings.drop n (Strings.drop m s) = Strings.drop (m + n) s.
Proof.
  revert s. induction m as [|m IH]; intros s; [reflexivity|].
  destruct s as [|a s]; cbn; [now destruct n | apply IH].
Qed.

Lemma length_take n s : String.length (Strings.take n s) = Nat.min n (String.length s).
Proof.
  revert s. induction n as [|n IH]; intros [|a s]; cbn; try reflexivity.
  now rewrite IH.
Qed.

(** The slicing tests of the first design select the names of the shape
    [{prefix}-{date}.log], and cut the date out of them. *)
Lemma first_slices_spec prefix name date :
  let suffix := ".log" in
  let lp := String.length prefix in
  let ls := String.length suffix in
  let ln := String.length name in
  (negb ((ln <=? lp + ls)%nat
         || negb (String.eqb (Strings.take lp name) prefix)
         || negb (String.eqb (Strings.drop (ln - ls) name) suffix)) = true
   /\ Time.Parse_date (Strings.take (ln - ls - lp) (Strings.drop lp name))
      = Some date)
  <-> exists d, name = prefix +:+ d +:+ ".log" /\ Time.Parse_date d = Some date.
Proof.
  intros suffix lp ls ln. split.
  - intros [Hb Hp]. apply negb_true_iff, orb_false_iff in Hb as [Hb H3].
    apply orb_false_iff in Hb as [H1 H2].
    apply Nat.leb_gt in H1. apply negb_false_iff, String.eqb_eq in H2, H3.
    exists (Strings.take (ln - ls - lp) (Strings.drop lp name)).
    split; [|exact Hp].
    rewrite <- (take_drop lp name) at 1. rewrite H2. f_equal.
    rewrite <- (take_drop (ln - ls - lp) (Strings.drop lp name)) at 1.
    f_equal. rewrite drop_drop.
    replace (lp + (ln - ls - lp))%nat with (ln - ls)%nat by lia. exact H3.
  - intros (d & En & Hp). pose proof (Parse_date_length d date Hp) as Hd.
    assert (Hln : ln = (lp + (10 + ls))%nat).
    { subst ln lp ls. rewrite En, !length_app, Hd. reflexivity. }
    assert (E1 : Strings.take lp name = prefix)
      by (subst lp; rewrite En; apply take_app).
    assert (E2 : Strings.drop lp name = d +:+ ".log")
      by (subst lp; rewrite En; apply drop_app).
    assert (E3 : Strings.drop (ln - ls) name = suffix).
    { replace (ln - ls)%nat with (lp + 10)%nat by lia.
      rewrite <- drop_drop, E2, <- Hd. apply drop_app. }
    split.
    + rewrite E1, E3, !String.eqb_refl. cbn [negb]. rewrite !orb_false_r.
      apply negb_true_iff, Nat.leb_gt. lia.
    + rewrite E2. replace (ln - ls - lp)%nat with (String.length d) by lia.
      now rewrite take_app.
Qed.

Lemma first_entry_expired_spec c clock entry :
  V1.entry_expired c clock entry = true
  <-> OS.IsDir entry = false
      /\ exists d date,
           OS.Name entry = V1.FilenamePrefix c +:+ "-" +:+ d +:+ ".log"
           /\ Time.Parse_date d = Some date
           /\ V1.retention c < V1.Sub clock date.
Proof.
  unfold V1.entry_expired. split.
  - intros E. apply andb_true_iff in E as [E Hp].
    apply andb_true_iff in E as [Hd Hs]. apply negb_true_iff in Hd.
    split; [exact Hd|].
    destruct (Time.Parse_date _) as [date|] eqn:Ep; [|discriminate].
    destruct (proj1 (first_slices_spec _ _ date) (conj Hs Ep)) as (d & En & Hpd).
    exists d, date. rewrite app_assoc in En.
    split; [exact En|]. split; [exact Hpd|]. now apply Z.ltb_lt.
  - intros (Hd & d & date & En & Hp & Hr). rewrite Hd. cbn [negb andb].
    rewrite <- app_assoc in En.
    destruct (proj2 (first_slices_spec (V1.FilenamePrefix c +:+ "-")
                       (OS.Name entry) date)
                (ex_intro _ d (conj En Hp))) as [Hs Ep].
    rewrite Hs, Ep. cbn [andb]. now apply Z.ltb_lt.
Qed.

Lemma first_clean_entry_eq c clock files entry :
  V1.clean_entry c clock files entry =
    if V1.entry_expired c clock entry
    then snd (OS.Remove (Filepath.Join (V1.Dir c) (OS.Name entry)) files)
    else files.
Proof.
  unfold V1.clean_entry, V1.entry_expired.
  destruct (OS.IsDir entry); cbn [negb andb]; [reflexivity|].
  destruct (_ || _ || _); cbn [negb andb]; [reflexivity|].
  destruct (Time.Parse_date _) as [date|]; reflexivity.
Qed.

(** Up to 106751 days the retention fits a [time.Duration]. *)
Lemma retention_small c :
  0 <= V1.RetainDays c <= 106751 ->
  V1.retention c = V1.RetainDays c * Time.nsPerDay.
Proof.
  intros Hr. unfold V1.retention, V1.wrap64, V1.Hour, Time.nsPerDay,
    Time.secondsPerDay, Time.nsPerSecond.
  rewrite (Z.mod_small (V1.RetainDays c * 24 + 2 ^ 63)) by lia.
  rewrite Z.mod_small by lia. lia.
Qed.

Lemma Sub_above clock date t :
  0 <= t < V1.maxDuration ->
  t < V1.Sub clock date <-> Time.unixNano date < Time.unixNano clock - t.
Proof. unfold V1.Sub, V1.maxDuration, V1.minDuration. lia. Qed.

(** Between 106752 and 213503 days it does not, and comes out negative. *)
Lemma retention_wrapped c :
  106751 < V1.RetainDays c <= 213503 ->
  V1.retention c = V1.RetainDays c * Time.nsPerDay - 2 ^ 64
  /\ V1.retention c < 0.
Proof.
  intros Hr. unfold V1.retention, V1.wrap64, V1.Hour, Time.nsPerDay,
    Time.secondsPerDay, Time.nsPerSecond.
  rewrite (Z.mod_small (V1.RetainDays c * 24 + 2 ^ 63)) by lia.
  replace ((V1.RetainDays c * 24 + 2 ^ 63 - 2 ^ 63) * (3600 * 1000000000) + 2 ^ 63)
    with ((V1.RetainDays c * 86400000000000 - 2 ^ 63) + 1 * 2 ^ 64) by lia.
  rewrite Z_mod_plus_full, Z.mod_small by lia. lia.
Qed.

Lemma Remove_nodes path files :
  OS.fs_nodes (snd (OS.Remove path files))
    = (if bool_decide (path ∉ OS.fs_deny files)
       then delete path (OS.fs_nodes files) else OS.fs_nodes files)
  /\ OS.fs_deny (snd (OS.Remove path files)) = OS.fs_deny files.
Proof.
  unfold OS.Remove.
  destruct (decide (path ∈ OS.fs_deny files)) as [Hin|Hout].
  - rewrite bool_decide_eq_false_2 by tauto. now split.
  - rewrite bool_decide_eq_true_2 by exact Hout.
    destruct (OS.fs_nodes files !! path) eqn:En; cbn; [now split|].
    split; [|reflexivity]. symmetry. now apply delete_id.
Qed.

Lemma first_clean_loop_nodes c clock entries files :
  let files' := fold_left (V1.clean_entry c clock) entries files in
  OS.fs_deny files' = OS.fs_deny files
  /\ forall q,
      OS.fs_nodes files' !! q
      = if existsb (fun e => V1.entry_expired c clock e
                             && bool_decide (q = Filepath.Join (V1.Dir c) (OS.Name e))
                             && bool_decide (q ∉ OS.fs_deny files)) entries
        then None else OS.fs_nodes files !! q.
Proof.
  revert files. induction entries as [|e rest IH]; intros files;
    cbn [fold_left existsb]; [now split|].
  destruct (IH (V1.clean_entry c clock files e)) as (Hd' & Hq).
  rewrite first_clean_entry_eq in *.
  destruct (Remove_nodes (Filepath.Join (V1.Dir c) (OS.Name e)) files) as (Hn & Hd).
  destruct (V1.entry_expired c clock e); cbn [andb orb].
  - split; [now rewrite Hd', Hd|]. intros q. rewrite Hq, Hd, Hn.
    destruct (existsb _ rest); [now rewrite orb_true_r|]. rewrite orb_false_r.
    destruct (decide (q = Filepath.Join (V1.Dir c) (OS.Name e))) as [->|Hne].
    + rewrite (bool_decide_eq_true_2 (_ = _)) by reflexivity. cbn [andb].
      destruct (bool_decide _); [apply lookup_delete_eq | reflexivity].
    + rewrite (bool_decide_eq_false_2 (q = _)) by exact Hne. cbn [andb].
      destruct (bool_decide _); [|reflexivity]. now apply lookup_delete_ne.
  - split; [exact Hd'|]. intros q. now rewrite Hq.
Qed.

End FirstSweep.

(** X16. The retention of the first design overflows.  With
    [RetainDays] between 106752 and 213503 the product
    [RetainDays * 24 * time.Hour] wraps around to a negative duration, and
    one sweep then removes every day-file of the configured prefix whose
    date is not in the future, the file of the current day included. *)
Theorem first_design_sweep_overflow (c : V1.LogConfig) (clock : Time.Time)
    (files : OS.FS) (entries : list OS.DirEntry) (d : string)
    (date : Time.Time) :
  106751 < V1.RetainDays c <= 213503 ->
  OS.ReadDir (V1.Dir c) files = inl entries ->
  let name := V1.FilenamePrefix c +:+ "-" +:+ d +:+ ".log" in
  let path := Filepath.Join (V1.Dir c) name in
  OS.mkDirEntry name false ∈ entries ->
  Time.Parse_date d = Some date ->
  Time.unixNano date <= Time.unixNano clock ->
  path ∉ OS.fs_deny files ->
  OS.fs_nodes (V1.cleanOldLogs c clock files) !! path = None.
Proof.
  intros Hr Hread name path Hin Hp Hold Hdeny. unfold V1.cleanOldLogs.
  destruct (Z.leb_spec (V1.RetainDays c) 0) as [|_]; [lia|]. rewrite Hread.
  destruct (first_clean_loop_nodes c clock entries files) as (_ & Hq).
  rewrite Hq.
  replace (existsb _ entries) with true; [reflexivity|].
  symmetry. apply existsb_exists. exists (OS.mkDirEntry name false).
  split; [now apply list_elem_of_In|].
  rewrite (proj2 (first_entry_expired_spec c clock _)).
  - cbn [OS.Name]. fold path. now rewrite !bool_decide_eq_true_2.
  - split; [reflexivity|]. exists d, date. split; [reflexivity|].
    split; [exact Hp|]. destruct (retention_wrapped c Hr) as [_ Hneg].
    unfold V1.Sub, V1.maxDuration, V1.minDuration. lia.
Qed.

(** ** Decorated copies in the first design *)

Section FirstCopies.
Context `{Encoder}.

Lemma first_day_encoder_fields c f :
  Slog.bh_w (V1.day_encoder c f) = f
  /\ Slog.bh_bound (V1.day_encoder c f) = []
  /\ Slog.bh_opts (V1.day_encoder c f) = Slog.mkOptions (V1.AddSource c) (V1.Level c)
  /\ Slog.bh_layout (V1.day_encoder c f)
     = (if String.eqb (V1.Format c) LogFormatJSON
        then Slog.JSONLayout else Slog.TextLayout).
Proof.
  unfold V1.day_encoder. now destruct (String.eqb (V1.Format c) LogFormatJSON).
Qed.

Lemma Slog_bind_w enc b : Slog.bh_w (Slog_bind enc b) = Slog.bh_w enc.
Proof. destruct b as [[|a attrs]|name]; reflexivity. Qed.

Lemma first_rotate_new_day p h t w f old :
  V1.curFile h = Some f ->
  OS.fs_files (V1.fs w) !! f = Some (OS.mkFile old true) ->
  Time.Format_date t <> V1.curDate h ->
  let date := Time.Format_date t in
  let path := V1.day_path (V1.cfg h) date in
  path ∉ OS.fs_deny (V1.fs w) ->
  OS.fs_nodes (V1.fs w) !! path <> Some OS.Directory ->
  V1.rotateIfNeeded p h t w =
    (None,
     V1.set_cur h date (Some (OS.fs_next (V1.fs w)))
       (Some (V1.day_encoder (V1.cfg h) (OS.fs_next (V1.fs w)))),
     V1.spawn_sweep p (V1.set_fs w (rotated (V1.fs w) f old path))).
Proof.
  intros Hf Ho Hd date path Hdeny Hdir. unfold V1.rotateIfNeeded.
  fold date. apply String.eqb_neq in Hd. fold date in Hd. rewrite Hd, Hf.
  cbn [andb]. unfold OS.Close. rewrite Ho.
  cbn [V1.cfg V1.set_cur V1.fs V1.set_fs]. fold path.
  unfold OS.OpenFile.
  cbn [OS.fs_deny OS.set_files OS.fs_nodes OS.fs_files OS.fs_next].
  rewrite (decide_False (P := path ∈ OS.fs_deny (V1.fs w))) by exact Hdeny.
  unfold rotated.
  destruct (OS.fs_nodes (V1.fs w) !! path) as [[c|]|] eqn:En;
    [reflexivity | congruence | reflexivity].
Qed.

Lemma first_Handle_new_day p h r w f old :
  V1.heap w !! p = Some h ->
  V1.curFile h = Some f ->
  OS.fs_files (V1.fs w) !! f = Some (OS.mkFile old true) ->
  let date := Time.Format_date (Slog.Time r) in
  let path := V1.day_path (V1.cfg h) date in
  date <> V1.curDate h ->
  path ∉ OS.fs_deny (V1.fs w) ->
  OS.fs_nodes (V1.fs w) !! path <> Some OS.Directory ->
  let files := rotated (V1.fs w) f old path in
  V1.DailyFileHandler_Handle p r w =
    (None,
     V1.store p (V1.set_cur h date (Some (OS.fs_next (V1.fs w)))
                   (Some (V1.day_encoder (V1.cfg h) (OS.fs_next (V1.fs w)))))
       (V1.set_fs (V1.spawn_sweep p w)
          (OS.set_nodes files
             (<[path := OS.RegularFile
                          (from_option id "" (OS.content path (V1.fs w))
                             +:+ encode
                                   (if String.eqb (V1.Format (V1.cfg h)) LogFormatJSON
                                    then Slog.JSONLayout else Slog.TextLayout)
                                   (Slog.mkOptions (V1.AddSource (V1.cfg h))
                                                   (V1.Level (V1.cfg h))) [] r)]>
                (OS.fs_nodes files))))).
Proof.
  intros Hh Hf Ho date path Hd Hdeny Hdir files.
  unfold V1.DailyFileHandler_Handle. rewrite Hh.
  rewrite (first_rotate_new_day p h (Slog.Time r) w f old Hf Ho Hd Hdeny Hdir).
  fold date path files. cbn [V1.curInner V1.set_cur].
  unfold V1.Builtin_Handle.
  destruct (first_day_encoder_fields (V1.cfg h) (OS.fs_next (V1.fs w)))
    as (Ew & Eb & Eo & El).
  rewrite Ew, Eb, Eo, El. cbn [V1.cfg V1.fs V1.set_fs V1.spawn_sweep].
  rewrite (OSFacts.Write_open (OS.fs_next (V1.fs w)) _ files path
             (from_option id "" (OS.content path (V1.fs w)))).
  - reflexivity.
  - subst files. unfold rotated. cbn [OS.fs_files]. apply lookup_insert_eq.
  - subst files. unfold rotated, OS.content. cbn [OS.fs_nodes].
    destruct (OS.fs_nodes (V1.fs w) !! path) as [[c|]|] eqn:En;
      rewrite ?En, ?lookup_insert_eq; first [reflexivity | congruence].
Qed.

Lemma first_Handle_closed p h enc r w name :
  V1.heap w !! p = Some h ->
  V1.curInner h = Some enc ->
  Time.Format_date (Slog.Time r) = V1.curDate h ->
  OS.fs_files (V1.fs w) !! Slog.bh_w enc = Some (OS.mkFile name false) ->
  V1.DailyFileHandler_Handle p r w
  = (Some (PathError "write" name OS.ErrClosed), w).
Proof.
  intros Hh Hi Hd Hc. unfold V1.DailyFileHandler_Handle, V1.rotateIfNeeded.
  rewrite Hh, Hd, String.eqb_refl,
    (bool_decide_eq_true_2 (V1.curInner h <> None)) by congruence.
  cbn [andb]. rewrite Hi. unfold V1.Builtin_Handle, OS.Write. rewrite Hc.
  f_equal. unfold V1.store, V1.set_fs. cbn. rewrite (insert_id _ _ _ Hh).
  now destruct w.
Qed.

(** X17. Decorated file handlers of the first design are copies that
    share the file object of the handler they were derived from.  When a
    copy meets a record of another day it rotates on its own: it closes
    the shared file object, opens the day-file of the record and writes
    the record there with a new encoder, so what was bound to the copy is
    lost from then on; it starts one more sweep.  The handler it was
    derived from is not told: it still holds the closed file object, and
    its next record of its own day fails with "file already closed". *)
Theorem first_design_copy_rotates (p : nat) (h : V1.DailyFileHandler)
    (f : nat) (b : Slog.Bound) (r1 r2 : Slog.Record) (w : V1.World) :
  V1.heap w !! p = Some h ->
  (p < V1.next_addr w)%nat ->
  V1.curFile h = Some f ->
  V1.curInner h = Some (V1.day_encoder (V1.cfg h) f) ->
  let path1 := V1.day_path (V1.cfg h) (V1.curDate h) in
  let path2 := V1.day_path (V1.cfg h) (Time.Format_date (Slog.Time r2)) in
  OS.fs_files (V1.fs w) !! f = Some (OS.mkFile path1 true) ->
  (f < OS.fs_next (V1.fs w))%nat ->
  Time.Format_date (Slog.Time r1) = V1.curDate h ->
  Time.Format_date (Slog.Time r2) <> V1.curDate h ->
  path2 ∉ OS.fs_deny (V1.fs w) ->
  OS.fs_nodes (V1.fs w) !! path2 <> Some OS.Directory ->
  let copy := fst (V1.decorate (V1.H_DailyFile p) b w) in
  let w1 := snd (V1.decorate (V1.H_DailyFile p) b w) in
  let w2 := snd (V1.Handle copy r2 w1) in
  copy = V1.H_DailyFile (V1.next_addr w)
  /\ fst (V1.Handle copy r2 w1) = None
  /\ OS.content path2 (V1.fs w2)
     = Some (from_option id "" (OS.content path2 (V1.fs w))
               +:+ encode (if String.eqb (V1.Format (V1.cfg h)) LogFormatJSON
                           then Slog.JSONLayout else Slog.TextLayout)
                          (Slog.mkOptions (V1.AddSource (V1.cfg h))
                                          (V1.Level (V1.cfg h))) [] r2)
  /\ OS.fs_files (V1.fs w2) !! f = Some (OS.mkFile path1 false)
  /\ V1.sweeps w2 = V1.sweeps w ++ [V1.next_addr w]
  /\ V1.heap w2 !! p = Some h
  /\ V1.Handle (V1.H_DailyFile p) r1 w2
     = (Some (PathError "write" path1 OS.ErrClosed), w2).
Proof.
  intros Hh Hp Hf Hi path1 path2 Ho Hlt Hd1 Hd2 Hdeny Hdir copy w1 w2.
  assert (Ed : V1.decorate (V1.H_DailyFile p) b w
               = (V1.H_DailyFile (V1.next_addr w),
                  snd (V1.alloc (V1.mkDailyFileHandler (V1.cfg h) (V1.curDate h)
                                   (Some f)
                                   (Some (Slog_bind (V1.day_encoder (V1.cfg h) f) b)))
                                w))).
  { destruct b; cbn [V1.decorate];
      unfold V1.DailyFileHandler_WithAttrs, V1.DailyFileHandler_WithGroup,
        V1.DailyFileHandler_derive; rewrite Hh, Hf, Hi; reflexivity. }
  subst copy w1 w2. rewrite Ed. cbn [fst snd].
  split; [reflexivity|].
  set (hq := V1.mkDailyFileHandler _ _ _ _).
  assert (Hpq : p <> V1.next_addr w) by lia.
  assert (Hfn : f <> OS.fs_next (V1.fs w)) by lia.
  cbn [V1.Handle].
  rewrite (first_Handle_new_day (V1.next_addr w) hq r2 (snd (V1.alloc hq w)) f path1
             (lookup_insert_eq _ _ _) eq_refl Ho Hd2 Hdeny Hdir).
  cbn [fst snd V1.cfg V1.fs V1.alloc V1.set_fs V1.spawn_sweep V1.store V1.sweeps
       V1.heap hq].
  fold path2.
  split; [reflexivity|]. split; [apply OSFacts.content_set_nodes_eq|].
  split.
  { unfold rotated. cbn [OS.set_nodes OS.fs_files].
    rewrite lookup_insert_ne by congruence. apply lookup_insert_eq. }
  split; [reflexivity|]. split.
  { rewrite !lookup_insert_ne by congruence. exact Hh. }
  apply (first_Handle_closed p h (V1.day_encoder (V1.cfg h) f)).
  - cbn [V1.heap V1.store V1.set_fs V1.spawn_sweep].
    rewrite !lookup_insert_ne by congruence. exact Hh.
  - exact Hi.
  - exact Hd1.
  - destruct (first_day_encoder_fields (V1.cfg h) f) as (-> & _).
    unfold rotated.
    cbn [V1.fs V1.store V1.set_fs V1.spawn_sweep OS.set_nodes OS.fs_files].
    rewrite lookup_insert_ne by congruence. apply lookup_insert_eq.
Qed.

End FirstCopies.

Lemma first_design_forgets_failure_witness :
  V1.InitLogger Ex3.zero1 Ex3.v_denied
  = ((None, Some (fmt_Errorf "create log directory failed: "
                    (PathError "mkdir" "/var/log/diting" OS.ErrPermission))),
     V1.mkLogConfig "/var/log/diting" "diting" "" 365 0 false,
     snd (V1.InitLogger Ex3.zero1 Ex3.v_denied))
  /\ V1.InitLogger Ex3.cfg1 (snd (V1.InitLogger Ex3.zero1 Ex3.v_denied))
     = ((None, None), Ex3.cfg1, snd (V1.InitLogger Ex3.zero1 Ex3.v_denied)).
Proof.
  assert (E : V1.InitLogger Ex3.zero1 Ex3.v_denied
    = ((None, Some (fmt_Errorf "create log directory failed: "
                      (PathError "mkdir" "/var/log/diting" OS.ErrPermission))),
       V1.mkLogConfig "/var/log/diting" "diting" "" 365 0 false,
       snd (V1.InitLogger Ex3.zero1 Ex3.v_denied))) by reflexivity.
  split; [exact E|].
  exact (proj1 (first_design_forgets_failure Ex3.zero1 _ Ex3.v_denied _ _
                  eq_refl eq_refl E) Ex3.cfg1).
Defined.

Lemma first_design_colors_witness :
  OS.content "/dev/stderr"
    (V1.fs (snd (V1.Handle (H:=Ex.plain)
                   (V1.H_Color (V1.NewColorHandler OS.Stderr (Slog.mkOptions false 0)))
                   Ex.r1 Ex3.v0)))
  = Some ("" +:+ "msg=one;").
Proof.
  exact (proj1 (proj2 (first_design_colors (H:=Ex.plain) OS.Stderr
                         (Slog.mkOptions false 0) [] Ex3.v0 Ex.r1 Ex3.v0
                         "/dev/stderr" "" eq_refl eq_refl))).
Defined.

Lemma first_design_sweep_overflow_witness :
  OS.fs_nodes (V1.cleanOldLogs Ex3.forever1 (now Ex.w_sweep) (fs Ex.w_sweep))
    !! "logs/app-2024-01-05.log" = None.
Proof.
  apply (first_design_sweep_overflow Ex3.forever1 (now Ex.w_sweep) (fs Ex.w_sweep)
           [OS.mkDirEntry "app-2023-01-01.log" true;
            OS.mkDirEntry "app-2024-01-02.log" false;
            OS.mkDirEntry "app-2024-01-05.log" false;
            OS.mkDirEntry "app-latest.log" false;
            OS.mkDirEntry "web-2023-01-01.log" false]
           "2024-01-05" (Time.utc 2024 1 5 0 0)).
  - vm_compute. split; [reflexivity | discriminate].
  - exact ReadDir_old_disk.
  - apply list_elem_of_In. simpl. tauto.
  - reflexivity.
  - vm_compute. discriminate.
  - vm_compute. discriminate.
Defined.

Lemma first_design_copy_rotates_witness :
  fst (V1.Handle (H:=Ex.plain)
         (fst (V1.decorate (V1.H_DailyFile 1) (Slog.BoundAttrs Ex.kv) Ex3.v_init))
         Ex.r2
         (snd (V1.decorate (V1.H_DailyFile 1) (Slog.BoundAttrs Ex.kv) Ex3.v_init)))
  = None
  /\ OS.content "logs/app-2024-01-02.log"
       (V1.fs (snd (V1.Handle (H:=Ex.plain)
          (fst (V1.decorate (V1.H_DailyFile 1) (Slog.BoundAttrs Ex.kv) Ex3.v_init))
          Ex.r2
          (snd (V1.decorate (V1.H_DailyFile 1) (Slog.BoundAttrs Ex.kv) Ex3.v_init)))))
     = Some ("" +:+ "msg=two;").
Proof.
  destruct (first_design_copy_rotates (H:=Ex.plain) 1 Ex3.sink1 3
              (Slog.BoundAttrs Ex.kv) Ex.r1 Ex.r2 Ex3.v_init
              eq_refl ltac:(vm_compute; lia) eq_refl eq_refl eq_refl
              ltac:(vm_compute; lia) eq_refl ltac:(vm_compute; discriminate)
              ltac:(vm_compute; discriminate) ltac:(vm_compute; discriminate))
    as (_ & Hres & Hcontent & _).
  split; [exact Hres | exact Hcontent].
Defined.

(** ** Trimming white space *)

Module TrimFacts.
Import Strings Strs StringFacts.

Lemma rev_onto_app s acc : rev_onto s acc = rev s +:+ acc.
Proof.
  unfold rev. revert acc. induction s as [|c s IH]; intros acc; cbn.
  - reflexivity.
  - rewrite IH, (IH (String c "")), app_assoc. reflexivity.
Qed.

Lemma rev_cons c s : rev (String c s) = rev s +:+ String c "".
Proof. unfold rev at 1. cbn. apply rev_onto_app. Qed.

Lemma rev_app a b : rev (a +:+ b) = rev b +:+ rev a.
Proof.
  induction a as [|c a IH]; cbn [String.append].
  - now rewrite app_nil_r.
  - now rewrite !rev_cons, IH, app_assoc.
Qed.

Lemma rev_involutive s : rev (rev s) = s.
Proof.
  induction s as [|c s IH]; [reflexivity|].
  now rewrite rev_cons, rev_app, IH.
Qed.

Lemma length_rev s : String.length (rev s) = String.length s.
Proof.
  induction s as [|c s IH]; [reflexivity|].
  rewrite rev_cons, length_app, IH. cbn [String.length]. lia.
Qed.

Lemma space_prefix_le s : (space_prefix s <= String.length s)%nat.
Proof.
  destruct s as [|c0 [|c1 [|c2 s]]]; cbn; repeat (destruct (_ : bool)); cbn; lia.
Qed.

Lemma space_suffix_rev_le s : (space_suffix_rev s <= String.length s)%nat.
Proof.
  destruct s as [|c0 [|c1 [|c2 s]]]; cbn; repeat (destruct (_ : bool)); cbn; lia.
Qed.

(** A white-space rune at the front of [u] is still there, and the same,
    when more text follows [u]. *)
Lemma space_prefix_app u x :
  space_prefix u <> 0%nat -> space_prefix (u +:+ x) = space_prefix u.
Proof.
  destruct u as [|c0 [|c1 [|c2 u]]]; cbn; try congruence.
  - destruct (ascii_space _); [reflexivity | congruence].
  - destruct (ascii_space _); [reflexivity|].
    destruct (space2 _ _); [reflexivity | congruence].
Qed.

Section Strip.
Variable width : string -> nat.
Hypothesis width_le : forall s, (width s <= String.length s)%nat.

Lemma strip_fixed fuel s : width s = 0%nat -> strip width fuel s = s.
Proof. intros E. destruct fuel; cbn [strip]; [reflexivity|]. now rewrite E. Qed.

Lemma strip_stops fuel s :
  (String.length s <= fuel)%nat -> width (strip width fuel s) = 0%nat.
Proof.
  revert s. induction fuel as [|fuel IH]; intros s Hl; cbn [strip].
  - pose proof (width_le s). lia.
  - destruct (width s) as [|n] eqn:E; [exact E|].
    apply IH. rewrite length_drop. lia.
Qed.

Lemma strip_drop fuel s : exists k, strip width fuel s = drop k s.
Proof.
  revert s. induction fuel as [|fuel IH]; intros s; cbn [strip].
  - now exists 0%nat.
  - destruct (width s) as [|n] eqn:E; [now exists 0%nat|].
    destruct (IH (drop (S n) s)) as (k & ->).
    exists (S n + k)%nat. clear. revert s. generalize (S n) as m.
    induction m as [|m IHm]; intros s; [reflexivity|].
    destruct s as [|a s]; cbn; [now destruct k | apply IHm].
Qed.

End Strip.

Lemma TrimLeft_stops s : space_prefix (TrimLeft s) = 0%nat.
Proof. apply strip_stops; [apply space_prefix_le | lia]. Qed.

(** Trimming takes from the two ends and leaves the middle. *)
Lemma TrimRight_prefix t : exists x, t = TrimRight t +:+ x.
Proof.
  unfold TrimRight.
  destruct (strip_drop space_suffix_rev (String.length t) (rev t)) as (k & ->).
  exists (rev (take k (rev t))).
  rewrite <- rev_app, take_drop. symmetry. apply rev_involutive.
Qed.

Lemma TrimRight_stops t : space_suffix_rev (rev (TrimRight t)) = 0%nat.
Proof.
  unfold TrimRight. rewrite rev_involutive.
  apply strip_stops; [apply space_suffix_rev_le | rewrite length_rev; lia].
Qed.

Lemma TrimLeft_fixed s : space_prefix s = 0%nat -> TrimLeft s = s.
Proof. apply strip_fixed. Qed.

Lemma TrimRight_fixed s : space_suffix_rev (rev s) = 0%nat -> TrimRight s = s.
Proof.
  intros E. unfold TrimRight. rewrite strip_fixed by exact E.
  apply rev_involutive.
Qed.

(** What [TrimSpace] returns has no white space at either end. *)
Lemma TrimSpace_ends s :
  space_prefix (TrimSpace s) = 0%nat
  /\ space_suffix_rev (rev (TrimSpace s)) = 0%nat.
Proof.
  unfold TrimSpace. split; [|apply TrimRight_stops].
  destruct (TrimRight_prefix (TrimLeft s)) as (x & E).
  destruct (Nat.eq_dec (space_prefix (TrimRight (TrimLeft s))) 0%nat) as [H0|Hn];
    [exact H0|].
  pose proof (space_prefix_app _ x Hn) as Ha. rewrite <- E in Ha.
  rewrite TrimLeft_stops in Ha. congruence.
Qed.

Lemma TrimSpace_fixed s :
  space_prefix s = 0%nat -> space_suffix_rev (rev s) = 0%nat -> TrimSpace s = s.
Proof.
  intros H1 H2. unfold TrimSpace. rewrite (TrimLeft_fixed s H1).
  now apply TrimRight_fixed.
Qed.

Lemma TrimSpace_idempotent s : TrimSpace (TrimSpace s) = TrimSpace s.
Proof. destruct (TrimSpace_ends s). now apply TrimSpace_fixed. Qed.

End TrimFacts.

(** ** [ParseKeyValue] *)

Module ParseFacts.
Import Strings Strs StringFacts Bufio Utils.

Lemma pieces_nonempty s : pieces s <> [].
Proof.
  destruct s as [|c s]; cbn; [discriminate|].
  destruct (Ascii.eqb c LF); [discriminate|].
  destruct (pieces s); discriminate.
Qed.

(** The pieces of two texts joined by a line feed are the pieces of the
    first followed by the pieces of the second. *)
Lemma pieces_app a b : pieces (a +:+ String LF b) = pieces a ++ pieces b.
Proof.
  induction a as [|c a IH]; cbn [String.append pieces].
  - now rewrite Ascii.eqb_refl.
  - rewrite IH. destruct (Ascii.eqb c LF); [reflexivity|].
    pose proof (pieces_nonempty a). destruct (pieces a); [congruence|].
    reflexivity.
Qed.

Lemma pieces_one_line s : one_line s = true -> pieces s = [s].
Proof.
  induction s as [|c s IH]; cbn; [reflexivity|].
  intros E. apply andb_true_iff in E as [E1 E2].
  apply negb_true_iff in E1. now rewrite E1, (IH E2).
Qed.

Lemma parse_line_empty sep m : parse_line sep m "" = m.
Proof. reflexivity. Qed.

Lemma dropCR_empty : dropCR "" = "".
Proof. reflexivity. Qed.

(** An empty piece at the end changes nothing. *)
Lemma fold_tokens_snoc_empty sep ps m :
  fold_left (parse_line sep) (tokens_of (ps ++ [""])) m
  = fold_left (parse_line sep) (tokens_of ps) m.
Proof.
  revert m. induction ps as [|p ps IH]; intros m; cbn [app tokens_of].
  - reflexivity.
  - destruct (fits p); [|reflexivity]. cbn [fold_left]. apply IH.
Qed.

(** The loop sees the same whether or not the empty piece after a final
    line feed counts as a line. *)
Lemma ParseKeyValue_pieces text sep :
  ParseKeyValue text sep
  = fold_left (parse_line sep) (tokens_of (pieces text)) ∅.
Proof.
  unfold ParseKeyValue, Scan_all, lines.
  destruct (String.eqb_spec (List.last (pieces text) "") "") as [E|E];
    [|reflexivity].
  rewrite (app_removelast_last "" (pieces_nonempty text)) at 2.
  rewrite E. symmetry. apply fold_tokens_snoc_empty.
Qed.

Lemma tokens_of_app p1 p2 :
  forallb fits p1 = true -> tokens_of (p1 ++ p2) = tokens_of p1 ++ tokens_of p2.
Proof.
  induction p1 as [|p p1 IH]; cbn [forallb app tokens_of]; [reflexivity|].
  intros E. apply andb_true_iff in E as [E1 E2]. rewrite E1.
  now rewrite (IH E2).
Qed.

Lemma parse_line_union sep a m line :
  parse_line sep (a ∪ m) line = parse_line sep a line ∪ m.
Proof.
  unfold parse_line. destruct (String.eqb line ""); [reflexivity|].
  destruct (SplitN2 line sep) as [[k v]|]; [|reflexivity].
  now rewrite insert_union_l.
Qed.

(** Bindings made by later lines go over what was there. *)
Lemma fold_parse_union sep ls a m :
  fold_left (parse_line sep) ls (a ∪ m) = fold_left (parse_line sep) ls a ∪ m.
Proof.
  revert a. induction ls as [|l ls IH]; intros a; cbn [fold_left];
    [reflexivity|].
  now rewrite parse_line_union, IH.
Qed.

(** Where a binding of the result comes from. *)
Lemma fold_parse_origin sep ls m k v :
  fold_left (parse_line sep) ls m !! k = Some v ->
  m !! k = Some v
  \/ exists line k0 v0,
       line ∈ ls /\ line <> "" /\ SplitN2 line sep = Some (k0, v0)
       /\ k = TrimSpace k0 /\ v = TrimSpace v0.
Proof.
  revert m. induction ls as [|l ls IH]; intros m; cbn [fold_left];
    [now left|].
  intros E. destruct (IH _ E) as [Hm|(line & k0 & v0 & Hin & Hrest)].
  - unfold parse_line in Hm.
    destruct (String.eqb_spec l "") as [El|El]; [now left|].
    destruct (SplitN2 l sep) as [[k0 v0]|] eqn:Es; [|now left].
    destruct (decide (k = TrimSpace k0)) as [->|Hne].
    + rewrite lookup_insert_eq in Hm. injection Hm as <-.
      right. exists l, k0, v0. split; [left|]. now repeat split.
    + rewrite lookup_insert_ne in Hm by congruence. now left.
  - right. exists line, k0, v0. split; [now right | exact Hrest].
Qed.

(** The loop over the pieces of two texts, every piece of the first
    fitting the buffer. *)
Lemma fold_tokens_app sep p1 p2 :
  forallb fits p1 = true ->
  fold_left (parse_line sep) (tokens_of (p1 ++ p2)) ∅
  = fold_left (parse_line sep) (tokens_of p2) ∅
    ∪ fold_left (parse_line sep) (tokens_of p1) ∅.
Proof.
  intros Hfit. rewrite (tokens_of_app _ _ Hfit), fold_left_app.
  rewrite <- (left_id_L ∅ (∪) (fold_left _ (tokens_of p1) ∅)) at 1.
  apply fold_parse_union.
Qed.

End ParseFacts.

(** X18. Every binding [ParseKeyValue] returns comes from a line the
    scanner delivered: a non-empty line that splits in two at the first
    separator, the key being the first part and the value the second,
    both with the white space at their ends removed; so no key and no
    value of the result begins or ends with white space ([TrimSpace]
    leaves them as they are). *)
Theorem ParseKeyValue_trimmed (text sep k v : string) :
  Utils.ParseKeyValue text sep !! k = Some v ->
  (exists line k0 v0,
     line ∈ Bufio.Scan_all text /\ line <> ""
     /\ Strs.SplitN2 line sep = Some (k0, v0)
     /\ k = Strs.TrimSpace k0 /\ v = Strs.TrimSpace v0)
  /\ Strs.TrimSpace k = k /\ Strs.TrimSpace v = v.
Proof.
  intros E. unfold Utils.ParseKeyValue in E.
  destruct (ParseFacts.fold_parse_origin sep _ ∅ k v E)
    as [Hm|(line & k0 & v0 & Hin & Hne & Hs & -> & ->)].
  - rewrite lookup_empty in Hm. discriminate.
  - split; [now exists line, k0, v0|].
    split; apply TrimFacts.TrimSpace_idempotent.
Qed.

(** X19. [ParseKeyValue] over two texts joined by a line feed, every
    line of the first fitting the scanner's buffer: the result is the
    result for the second text laid over the result for the first, so a
    key bound in both has the value of the later line. *)
Theorem ParseKeyValue_joined (t1 t2 sep : string) :
  forallb Bufio.fits (Bufio.pieces t1) = true ->
  Utils.ParseKeyValue (t1 +:+ String Bufio.LF t2) sep
  = Utils.ParseKeyValue t2 sep ∪ Utils.ParseKeyValue t1 sep.
Proof.
  intros Hfit.
  rewrite !ParseFacts.ParseKeyValue_pieces, ParseFacts.pieces_app.
  now apply ParseFacts.fold_tokens_app.
Qed.

(** X20. A line of 65536 bytes or more ends the parse without a word:
    [Scan] stops at it with [ErrTooLong], which [ParseKeyValue] does not
    look at, so the result holds what the lines before it gave and
    nothing of that line or of anything after it. *)
Theorem ParseKeyValue_long_line (t1 long rest sep : string) :
  forallb Bufio.fits (Bufio.pieces t1) = true ->
  Bufio.one_line long = true ->
  Bufio.MaxScanTokenSize <= Z.of_nat (String.length long) ->
  Utils.ParseKeyValue (t1 +:+ String Bufio.LF (long +:+ String Bufio.LF rest)) sep
  = Utils.ParseKeyValue t1 sep
  /\ Utils.ParseKeyValue (t1 +:+ String Bufio.LF long) sep
     = Utils.ParseKeyValue t1 sep
  /\ Utils.ParseKeyValue (long +:+ String Bufio.LF rest) sep = ∅.
Proof.
  intros Hfit Hone Hlen.
  assert (Hno : Bufio.fits long = false)
    by (unfold Bufio.fits; now apply Z.ltb_ge).
  assert (Hlong : forall more,
            fold_left (Utils.parse_line sep) (Bufio.tokens_of (long :: more)) ∅ = ∅)
    by (intros more; cbn [Bufio.tokens_of]; now rewrite Hno).
  assert (Hp : Bufio.pieces long = [long])
    by exact (ParseFacts.pieces_one_line long Hone).
  split; [|split].
  - rewrite !ParseFacts.ParseKeyValue_pieces, !ParseFacts.pieces_app, Hp.
    rewrite (ParseFacts.fold_tokens_app sep _ _ Hfit). cbn [app].
    rewrite Hlong. apply (left_id_L ∅ (∪)).
  - rewrite !ParseFacts.ParseKeyValue_pieces, ParseFacts.pieces_app, Hp.
    rewrite (ParseFacts.fold_tokens_app sep _ _ Hfit), Hlong.
    apply (left_id_L ∅ (∪)).
  - rewrite ParseFacts.ParseKeyValue_pieces, ParseFacts.pieces_app, Hp.
    cbn [app]. apply Hlong.
Qed.

(** ** The sysfs readers *)

Module ConvFacts.
Import Strings Strs StringFacts TrimFacts Strconv.

Lemma digit_byte d : Utf8.byte (Time.digitChar d) = 48 + d mod 10.
Proof.
  unfold Utf8.byte, Time.digitChar.
  pose proof (Z.mod_pos_bound d 10 ltac:(lia)).
  rewrite nat_ascii_embedding by lia. lia.
Qed.

Lemma digitVal_digitChar d : Time.digitVal (Time.digitChar d) = Some (d mod 10).
Proof.
  unfold Time.digitVal. fold (Utf8.byte (Time.digitChar d)).
  rewrite digit_byte. pose proof (Z.mod_pos_bound d 10 ltac:(lia)).
  destruct (Z.leb_spec 48 (48 + d mod 10)); [|lia].
  destruct (Z.leb_spec (48 + d mod 10) 57); [|lia].
  cbn [andb]. f_equal. lia.
Qed.

Lemma byte_inj_eqb c (k : Z) a :
  Utf8.byte a = k -> Utf8.byte c <> k -> Ascii.eqb c a = false.
Proof.
  intros Ha Hc. apply Ascii.eqb_neq. intros ->. contradiction.
Qed.

Lemma digitVal_not_sign c d :
  Time.digitVal c = Some d ->
  Ascii.eqb c "-" = false /\ Ascii.eqb c "+" = false.
Proof.
  intros E. split; apply Ascii.eqb_neq; intros ->; discriminate E.
Qed.

(** A byte below 128 that is not white space starts no white-space rune
    and ends none. *)
Lemma space_prefix_plain c rest :
  Utf8.byte c < 128 -> ascii_space (Utf8.byte c) = false ->
  space_prefix (String c rest) = 0%nat.
Proof.
  intros Hb Hs. cbn [space_prefix]. rewrite Hs.
  assert (E2 : forall b1, space2 (Utf8.byte c) b1 = false).
  { intros b1. unfold space2. destruct (Z.eqb_spec (Utf8.byte c) 194); [lia|].
    reflexivity. }
  assert (E3 : forall b1 b2, space3 (Utf8.byte c) b1 b2 = false).
  { intros b1 b2. unfold space3.
    destruct (Z.eqb_spec (Utf8.byte c) 225); [lia|].
    destruct (Z.eqb_spec (Utf8.byte c) 226); [lia|].
    destruct (Z.eqb_spec (Utf8.byte c) 227); [lia|]. reflexivity. }
  destruct rest as [|c1 [|c2 rest]]; rewrite ?E2, ?E3; reflexivity.
Qed.

Lemma space_suffix_plain c rest :
  Utf8.byte c < 128 -> ascii_space (Utf8.byte c) = false ->
  space_suffix_rev (String c rest) = 0%nat.
Proof.
  intros Hb Hs. cbn [space_suffix_rev]. rewrite Hs.
  assert (E2 : forall b0, space2 b0 (Utf8.byte c) = false).
  { intros b0. unfold space2.
    destruct (Z.eqb_spec (Utf8.byte c) 133); [lia|].
    destruct (Z.eqb_spec (Utf8.byte c) 160); [lia|].
    now rewrite andb_false_r. }
  assert (E3 : forall b0 b1, space3 b0 b1 (Utf8.byte c) = false).
  { intros b0 b1. unfold space3, Utf8.between.
    destruct (Z.eqb_spec (Utf8.byte c) 128); [lia|].
    destruct (Z.leb_spec 128 (Utf8.byte c)); [lia|].
    destruct (Z.eqb_spec (Utf8.byte c) 168); [lia|].
    destruct (Z.eqb_spec (Utf8.byte c) 169); [lia|].
    destruct (Z.eqb_spec (Utf8.byte c) 175); [lia|].
    destruct (Z.eqb_spec (Utf8.byte c) 159); [lia|].
    cbn [andb orb]. now rewrite !andb_false_r. }
  destruct rest as [|c1 [|c2 rest]]; rewrite ?E2, ?E3; reflexivity.
Qed.

(** White space in front is taken off. *)
Lemma strip_blank width lead x :
  (forall c r, ascii_space (Utf8.byte c) = true -> width (String c r) = 1%nat) ->
  blank lead = true ->
  strip width (String.length (lead +:+ x)) (lead +:+ x)
  = strip width (String.length x) x.
Proof.
  intros Hw. induction lead as [|c lead IH]; cbn [blank String.append];
    [reflexivity|].
  intros E. apply andb_true_iff in E as [E1 E2].
  cbn [String.length strip]. rewrite (Hw c _ E1). cbn [drop]. now apply IH.
Qed.

Lemma blank_rev s : blank (rev s) = blank s.
Proof.
  assert (Happ : forall a b, blank (a +:+ b) = blank a && blank b).
  { induction a as [|c a IH]; intros b; cbn [blank String.append];
      [reflexivity|]. now rewrite IH, andb_assoc. }
  induction s as [|c s IH]; [reflexivity|].
  rewrite rev_cons, Happ, IH. cbn [blank]. now rewrite andb_true_r, andb_comm.
Qed.

Lemma space_prefix_blank c r :
  ascii_space (Utf8.byte c) = true -> space_prefix (String c r) = 1%nat.
Proof. intros E. cbn [space_prefix]. now rewrite E. Qed.

Lemma space_suffix_blank c r :
  ascii_space (Utf8.byte c) = true -> space_suffix_rev (String c r) = 1%nat.
Proof. intros E. cbn [space_suffix_rev]. now rewrite E. Qed.

(** A text that begins and ends with a plain byte, between white space:
    [TrimSpace] returns it. *)
Lemma TrimSpace_between lead core trail c0 r0 c1 r1 :
  blank lead = true -> blank trail = true ->
  core = String c0 r0 ->
  Utf8.byte c0 < 128 -> ascii_space (Utf8.byte c0) = false ->
  rev core = String c1 r1 ->
  Utf8.byte c1 < 128 -> ascii_space (Utf8.byte c1) = false ->
  TrimSpace (lead +:+ core +:+ trail) = core.
Proof.
  intros Hl Ht E0 Hb0 Hs0 E1 Hb1 Hs1. unfold TrimSpace, TrimLeft.
  rewrite (strip_blank space_prefix lead (core +:+ trail) space_prefix_blank Hl).
  rewrite strip_fixed
    by (rewrite E0; cbn [String.append]; now apply space_prefix_plain).
  unfold TrimRight. rewrite <- (length_rev (core +:+ trail)), rev_app.
  rewrite (strip_blank space_suffix_rev (rev trail) (rev core) space_suffix_blank)
    by now rewrite blank_rev.
  rewrite strip_fixed by (rewrite E1; now apply space_suffix_plain).
  apply rev_involutive.
Qed.

Lemma digits_last fuel u acc :
  exists pre, Time.digits fuel u acc = pre +:+ String (Time.digitChar u) acc.
Proof.
  revert u acc. induction fuel as [|fuel IH]; intros u acc; cbn [Time.digits].
  - now exists "".
  - destruct (u <? 10); [now exists ""|].
    destruct (IH (u / 10) (String (Time.digitChar u) acc)) as (pre & ->).
    exists (pre +:+ String (Time.digitChar (u / 10)) "").
    now rewrite app_assoc.
Qed.

Lemma digits_head fuel u acc :
  exists d r, Time.digits fuel u acc = String (Time.digitChar d) r.
Proof.
  revert u acc. induction fuel as [|fuel IH]; intros u acc; cbn [Time.digits].
  - now exists u, acc.
  - destruct (u <? 10); [now exists u, acc | apply IH].
Qed.

Lemma maxUint64_val : maxUint64 = 18446744073709551615.
Proof. reflexivity. Qed.

(** Reading back the decimal digits of [u]. *)
Lemma ParseUint_loop_digits fuel u acc :
  0 <= u <= maxUint64 -> u < 10 ^ (Z.of_nat fuel + 1) ->
  ParseUint_loop (Time.digits fuel u acc) 0 = ParseUint_loop acc u.
Proof.
  rewrite maxUint64_val.
  assert (Hone : forall v rest, 0 <= v < 10 ->
            ParseUint_loop (String (Time.digitChar v) rest) 0
            = ParseUint_loop rest v).
  { intros v rest Hv. cbn [ParseUint_loop]. rewrite digitVal_digitChar.
    change (maxUint64 / 10 + 1) with 1844674407370955162.
    rewrite maxUint64_val, Z.mod_small by lia.
    destruct (Z.leb_spec 1844674407370955162 0); [lia|].
    destruct (Z.ltb_spec 18446744073709551615 (0 * 10 + v)); [lia|].
    f_equal. }
  revert u acc. induction fuel as [|fuel IH]; intros u acc Hu Hp;
    cbn [Time.digits].
  - apply Hone. cbn in Hp. lia.
  - destruct (Z.ltb_spec u 10) as [Hlt|Hge]; [apply Hone; lia|].
    pose proof (Z.div_mod u 10 ltac:(lia)) as Hdm.
    pose proof (Z.mod_pos_bound u 10 ltac:(lia)) as Hmb.
    rewrite IH.
    + cbn [ParseUint_loop]. rewrite digitVal_digitChar.
      change (maxUint64 / 10 + 1) with 1844674407370955162.
      rewrite maxUint64_val.
      destruct (Z.leb_spec 1844674407370955162 (u / 10)); [lia|].
      replace (u / 10 * 10 + u mod 10) with u by lia.
      destruct (Z.ltb_spec 18446744073709551615 u); [lia|]. reflexivity.
    + lia.
    + replace (Z.of_nat (S fuel) + 1) with (Z.succ (Z.of_nat fuel + 1)) in Hp by lia.
      rewrite Z.pow_succ_r in Hp by lia. lia.
Qed.

Lemma pow10_bound u : 0 <= u -> u < 10 ^ (Z.of_nat (Z.to_nat (Z.log2 u)) + 1).
Proof.
  intros Hu. rewrite Z2Nat.id by apply Z.log2_nonneg.
  destruct (Z.eq_dec u 0) as [->|Hn]; [reflexivity|].
  pose proof (Z.log2_spec u ltac:(lia)) as [_ Hlt].
  eapply Z.lt_le_trans; [exact Hlt|].
  replace (Z.succ (Z.log2 u)) with (Z.log2 u + 1) by lia.
  apply Z.pow_le_mono_l. lia.
Qed.

(** The decimal form of [n]: a minus sign if negative, then the digits
    of its absolute value. *)
Lemma Itoa_shape n :
  Itoa n = (if n <? 0 then "-" else "")
             +:+ Time.digits (Z.to_nat (Z.log2 (Z.abs n))) (Z.abs n) "".
Proof.
  unfold Itoa, Time.appendInt. cbn [Nat.sub Time.zeros].
  now destruct (n <? 0).
Qed.

Lemma ParseUint_digits u :
  0 <= u <= maxUint64 ->
  ParseUint (Time.digits (Z.to_nat (Z.log2 u)) u "") = (u, None).
Proof.
  intros Hu. unfold ParseUint.
  destruct (digits_head (Z.to_nat (Z.log2 u)) u "") as (d & r & E).
  rewrite E at 1. cbn [String.eqb].
  rewrite ParseUint_loop_digits; [reflexivity | exact Hu | apply pow10_bound; lia].
Qed.

Lemma ParseInt_Itoa n :
  - 2 ^ 63 <= n < 2 ^ 64 ->
  ParseInt (Itoa n)
  = if 2 ^ 63 <=? n then (2 ^ 63 - 1, Some ErrRange) else (n, None).
Proof.
  intros Hn. rewrite Itoa_shape.
  assert (Hu : 0 <= Z.abs n <= maxUint64) by (rewrite maxUint64_val; lia).
  pose proof (ParseUint_digits (Z.abs n) Hu) as Hp.
  destruct (Z.ltb_spec n 0) as [Hneg|Hpos].
  - cbn [String.append ParseInt Ascii.eqb Bool.eqb orb]. rewrite Hp.
    cbn [negb andb].
    destruct (Z.ltb_spec (2 ^ 63) (Z.abs n)); [lia|].
    destruct (Z.leb_spec (2 ^ 63) n); [lia|]. f_equal. lia.
  - cbn [String.append].
    destruct (digits_head (Z.to_nat (Z.log2 (Z.abs n))) (Z.abs n) "")
      as (d & r & E).
    rewrite E in *. cbn [ParseInt].
    destruct (digitVal_not_sign (Time.digitChar d) _ (digitVal_digitChar d))
      as [-> ->].
    cbn [orb negb andb]. rewrite Hp. rewrite Z.abs_eq by lia.
    destruct (Z.leb_spec (2 ^ 63) n); reflexivity.
Qed.

Lemma ParseUint_Itoa n :
  n < 2 ^ 64 ->
  ParseUint (Itoa n) = if n <? 0 then (0, Some ErrSyntax) else (n, None).
Proof.
  intros Hn. rewrite Itoa_shape.
  destruct (Z.ltb_spec n 0) as [Hneg|Hpos].
  - reflexivity.
  - cbn [String.append]. rewrite Z.abs_eq by lia.
    apply ParseUint_digits. rewrite maxUint64_val. lia.
Qed.

(** The decimal form begins and ends with a plain byte. *)
Lemma Itoa_ends n :
  exists c0 r0 c1 r1,
    Itoa n = String c0 r0 /\ rev (Itoa n) = String c1 r1
    /\ Utf8.byte c0 < 128 /\ ascii_space (Utf8.byte c0) = false
    /\ Utf8.byte c1 < 128 /\ ascii_space (Utf8.byte c1) = false.
Proof.
  assert (Hd : forall d, Utf8.byte (Time.digitChar d) < 128
                         /\ ascii_space (Utf8.byte (Time.digitChar d)) = false).
  { intros d. rewrite digit_byte. pose proof (Z.mod_pos_bound d 10 ltac:(lia)).
    split; [lia|]. unfold ascii_space.
    repeat match goal with
           | |- context [?a =? ?b] => destruct (Z.eqb_spec a b); [lia|]
           end. reflexivity. }
  rewrite Itoa_shape.
  set (u := Z.abs n). set (fuel := Z.to_nat (Z.log2 u)).
  destruct (digits_head fuel u "") as (d & r & Eh).
  destruct (digits_last fuel u "") as (pre & El).
  assert (Hlast : forall sign, rev (sign +:+ Time.digits fuel u "")
                  = String (Time.digitChar u) (rev (sign +:+ pre))).
  { intros sign. rewrite El, <- app_assoc, rev_app. reflexivity. }
  destruct (n <? 0).
  - exists "-"%char, (Time.digits fuel u ""), (Time.digitChar u), (rev ("-" +:+ pre)).
    split; [reflexivity|]. split; [apply Hlast|].
    split; [vm_compute; reflexivity|]. split; [reflexivity|]. apply Hd.
  - exists (Time.digitChar d), r, (Time.digitChar u), (rev ("" +:+ pre)).
    cbn [String.append] in *. split; [exact Eh|]. split; [apply (Hlast "")|].
    destruct (Hd d), (Hd u). now repeat split.
Qed.

End ConvFacts.

(** X21. A sysfs file that holds an integer in decimal (as the kernel
    writes it, or [strconv.Itoa]), with any ASCII white space before and
    after it: [ReadSysfsFile] returns the bare decimal text;
    [ReadSysfsInt] returns the integer when it fits 64 bits signed, and
    [2^63 - 1] with a range error when it is too large;
    [ReadSysfsUint64] returns it when it is not negative, and a syntax
    error, with the value 0, when it is. *)
Theorem ReadSysfs_round_trip (path : string) (files : OS.FS)
    (lead trail : string) (n : Z) :
  - 2 ^ 63 <= n < 2 ^ 64 ->
  path ∉ OS.fs_deny files ->
  OS.fs_nodes files !! path
    = Some (OS.RegularFile (lead +:+ Strconv.Itoa n +:+ trail)) ->
  Strs.blank lead = true -> Strs.blank trail = true ->
  Utils.ReadSysfsFile path files = (Strconv.Itoa n, None)
  /\ Utils.ReadSysfsInt path files
     = (if 2 ^ 63 <=? n
        then (2 ^ 63 - 1, Some (Utils.NumError (Strconv.Itoa n) Strconv.ErrRange))
        else (n, None))
  /\ Utils.ReadSysfsUint64 path files
     = (if n <? 0
        then (0, Some (Utils.NumError (Strconv.Itoa n) Strconv.ErrSyntax))
        else (n, None)).
Proof.
  intros Hn Hdeny Hfile Hl Ht.
  destruct (ConvFacts.Itoa_ends n) as (c0 & r0 & c1 & r1 & E0 & E1 & B0 & S0 & B1 & S1).
  assert (Hread : Utils.ReadSysfsFile path files = (Strconv.Itoa n, None)).
  { unfold Utils.ReadSysfsFile, Utils.ReadFile.
    rewrite (decide_False (P := path ∈ OS.fs_deny files)) by exact Hdeny.
    rewrite Hfile. f_equal.
    exact (ConvFacts.TrimSpace_between lead _ trail c0 r0 c1 r1 Hl Ht E0 B0 S0 E1 B1 S1). }
  split; [exact Hread|].
  unfold Utils.ReadSysfsInt, Utils.ReadSysfsUint64, Utils.convert.
  rewrite Hread. unfold Strconv.Atoi.
  rewrite (ConvFacts.ParseInt_Itoa n Hn), (ConvFacts.ParseUint_Itoa n) by lia.
  split.
  - now destruct (2 ^ 63 <=? n).
  - now destruct (n <? 0).
Qed.

(** X22. The two integer readers on the same file: whenever
    [ReadSysfsUint64] succeeds, [ReadSysfsInt] returns the same number if
    it is below [2^63], and [2^63 - 1] with a range error otherwise. *)
Theorem ReadSysfs_Uint64_then_Int (path : string) (files : OS.FS) (u : Z) :
  Utils.ReadSysfsUint64 path files = (u, None) ->
  exists data,
    Utils.ReadSysfsFile path files = (data, None)
    /\ Utils.ReadSysfsInt path files
       = (if 2 ^ 63 <=? u
          then (2 ^ 63 - 1, Some (Utils.NumError data Strconv.ErrRange))
          else (u, None)).
Proof.
  unfold Utils.ReadSysfsUint64, Utils.ReadSysfsInt, Utils.convert.
  destruct (Utils.ReadSysfsFile path files) as [data [e|]]; [discriminate|].
  intros E. exists data. split; [reflexivity|].
  unfold Strconv.Atoi, Strconv.ParseInt.
  destruct (Strconv.ParseUint data) as [v [k|]] eqn:Ep; [discriminate|].
  injection E as ->.
  destruct data as [|c rest]; [discriminate Ep|].
  assert (Hd : exists d, Time.digitVal c = Some d).
  { unfold Strconv.ParseUint in Ep. cbn [String.eqb Strconv.ParseUint_loop] in Ep.
    destruct (Time.digitVal c) as [d|]; [now exists d | discriminate]. }
  destruct Hd as (d & Hd).
  destruct (ConvFacts.digitVal_not_sign c d Hd) as [-> ->].
  cbn [orb negb andb]. rewrite Ep.
  now destruct (2 ^ 63 <=? u).
Qed.

(** ** Network interfaces *)

Section Interfaces.
Import Network.

Lemma loop_is_lo name :
  Strings.HasPrefix name "lo" || Strings.HasPrefix name "loop"
  = Strings.HasPrefix name "lo".
Proof.
  destruct name as [|a [|b name]]; cbn [Strings.HasPrefix]; try reflexivity.
  - now destruct (Ascii.eqb "l" a).
  - destruct (Ascii.eqb "l" a); [|reflexivity].
    now destruct (Ascii.eqb "o" b).
Qed.

Lemma collect_loop dirs acc :
  fold_left collect_step dirs acc
  = acc ++ map collectNetInterface
             (List.filter (fun name => negb (Strings.HasPrefix name "lo"))
                          (map OS.Name (List.filter OS.IsDir dirs))).
Proof.
  revert acc. induction dirs as [|d dirs IH]; intros acc;
    cbn [fold_left List.filter].
  - cbn. now rewrite app_nil_r.
  - rewrite IH. unfold collect_step. rewrite loop_is_lo.
    destruct (OS.IsDir d); cbn [negb map List.filter]; [|reflexivity].
    destruct (Strings.HasPrefix (OS.Name d) "lo"); cbn [negb map];
      [reflexivity|].
    now rewrite <- app_assoc.
Qed.

Lemma lookup_repeat {A} (x : A) n i :
  (i < n)%nat -> repeat x n !! i = Some x.
Proof.
  revert i. induction n as [|n IH]; intros i Hi; [lia|].
  destruct i as [|i]; [reflexivity|]. cbn. apply IH. lia.
Qed.

End Interfaces.

(** X23. [collectNetInterfaces] when the directory can be listed: the
    slice it returns begins with one zero-valued record for every listed
    entry, whatever the entry is, and only then come the records of the
    interfaces, one for each entry that is a directory and whose name does
    not begin with "lo", in listing order, with nothing but the device
    name filled in; the test for the prefix "loop" never decides
    anything. *)
Theorem collectNetInterfaces_padded (files : OS.FS) (dirs : list OS.DirEntry) :
  OS.ReadDir Network.sysfsNet files = inl dirs ->
  let kept :=
    List.filter (fun name => negb (Strings.HasPrefix name "lo"))
                (map OS.Name (List.filter OS.IsDir dirs)) in
  Network.collectNetInterfaces files
  = inl (repeat Model.zero (length dirs)
           ++ map Network.collectNetInterface kept)
  /\ forall found,
       Network.collectNetInterfaces files = inl found ->
       length found = (length dirs + length kept)%nat
       /\ (forall i, (i < length dirs)%nat -> found !! i = Some Model.zero)
       /\ (forall i name, kept !! i = Some name ->
             found !! (length dirs + i)%nat
             = Some (Network.collectNetInterface name)).
Proof.
  intros Hread kept.
  assert (E : Network.collectNetInterfaces files
              = inl (repeat Model.zero (length dirs)
                       ++ map Network.collectNetInterface kept)).
  { unfold Network.collectNetInterfaces. rewrite Hread. f_equal.
    apply collect_loop. }
  split; [exact E|]. intros found Hf. rewrite E in Hf. injection Hf as <-.
  split; [|split].
  - now rewrite length_app, repeat_length, length_map.
  - intros i Hi. rewrite lookup_app_l by now rewrite repeat_length.
    apply lookup_repeat. exact Hi.
  - intros i name Hk.
    rewrite lookup_app_r by (rewrite repeat_length; lia).
    rewrite repeat_length.
    replace (length dirs + i - length dirs)%nat with i by lia.
    now rewrite list_lookup_fmap, Hk.
Qed.

(** ** Running commands *)

Section Commands.
Import Executor.
Variable Run : Context -> string -> list string -> Ran.

Lemma Is_w_w a b l :
  Is (Errorf_w_w (Leaf a) b) l = bool_decide (a = l) || Is b l.
Proof. cbn. now rewrite orb_false_r. Qed.

Lemma Is_s_w a b l : Is (Errorf_s_w a b) l = Is b l.
Proof. cbn. now rewrite orb_false_r. Qed.

End Commands.

(** X24. [ExecutorWithContext] of [execute.go], for a command that ran
    and failed with an error [e] of [os/exec] or [context]: the output so
    far is returned with an error that [errors.Is] matches with exactly
    one of the package's errors, [ErrTimeOut] when [e] is or wraps
    [context.DeadlineExceeded], else [ErrCanceled] when it is or wraps
    [context.Canceled], else [ErrExit], and never with
    [ErrEmptyCommand]; everything [errors.Is] finds in [e] it still finds
    in the returned error, whose text is the text of the package's error,
    a colon and the text of [e]. *)
Theorem ExecutorWithContext_classifies
    (Run : Executor.Context -> string -> list string -> Executor.Ran)
    (ctx : Executor.Context) (name : string) (args : list string)
    (e : Executor.err) :
  name <> "" ->
  Executor.run_err (Run ctx name args) = Some e ->
  Executor.foreign e ->
  exists (r : Executor.err) (kind : Executor.leaf),
    Executor.ExecutorWithContext Run ctx name args
    = (Executor.output (Run ctx name args), Some r)
    /\ kind = (if Executor.Is e Executor.DeadlineExceeded then Executor.ErrTimeOut
               else if Executor.Is e Executor.Canceled then Executor.ErrCanceled
               else Executor.ErrExit)
    /\ (forall l, Executor.own l = true ->
          Executor.Is r l = bool_decide (l = kind))
    /\ (forall l, Executor.Is e l = true -> Executor.Is r l = true)
    /\ Executor.Error r
       = Executor.leaf_text kind +:+ ": " +:+ Executor.Error e.
Proof.
  intros Hn Hrun Hfor.
  set (kind := if Executor.Is e Executor.DeadlineExceeded then Executor.ErrTimeOut
               else if Executor.Is e Executor.Canceled then Executor.ErrCanceled
               else Executor.ErrExit).
  exists (Executor.Errorf_w_w (Executor.Leaf kind) e), kind.
  split; [|split; [reflexivity|split; [|split]]].
  - unfold Executor.ExecutorWithContext. apply String.eqb_neq in Hn.
    rewrite Hn, Hrun. subst kind.
    destruct (Executor.Is e Executor.DeadlineExceeded); [reflexivity|].
    destruct (Executor.Is e Executor.Canceled); reflexivity.
  - intros l Hl. rewrite Is_w_w, (Hfor l Hl), orb_false_r.
    apply bool_decide_ext. split; congruence.
  - intros l Hl. rewrite Is_w_w, Hl. apply orb_true_r.
  - reflexivity.
Qed.

(** X25. [ExecuteWithContext] of the other copy of the package, which
    formats its own error with [%s]: for a command that ran and failed
    with [e], the returned error wraps [e] alone, so [errors.Is] finds in
    it exactly what it finds in [e], and none of [ErrTimeOut],
    [ErrCanceled], [ErrExit] when [e] comes from [os/exec] or [context];
    which of the three happened can only be read in the text, and is
    chosen by [ctx.Err()], not by [e].  With a nil context the command is
    not run. *)
Theorem ExecuteWithContext_hides_kind
    (Run : Executor.Context -> string -> list string -> Executor.Ran)
    (ctx : Executor.Context) (name : string) (args : list string)
    (e : Executor.err) :
  name <> "" ->
  ctx <> Executor.NilContext ->
  Executor.run_err (Run ctx name args) = Some e ->
  (exists (r : Executor.err) (kind : Executor.leaf),
     Executor.ExecuteWithContext Run ctx name args
     = (Executor.output (Run ctx name args), Some r)
     /\ kind = (if bool_decide (Executor.ctx_err (Run ctx name args)
                                = Some Executor.DeadlineExceeded)
                then Executor.ErrTimeOut
                else if bool_decide (Executor.ctx_err (Run ctx name args)
                                     = Some Executor.Canceled)
                then Executor.ErrCanceled
                else Executor.ErrExit)
     /\ (forall l, Executor.Is r l = Executor.Is e l)
     /\ (Executor.foreign e -> Executor.foreign r)
     /\ Executor.Error r
        = Executor.leaf_text kind +:+ ": " +:+ Executor.Error e)
  /\ (forall Run', Executor.ExecuteWithContext Run' Executor.NilContext name args
                   = ("", Some (Executor.Leaf
                                  (Executor.Foreign "context cannot be nil")))).
Proof.
  intros Hn Hc Hrun. apply String.eqb_neq in Hn. split.
  - set (kind := if bool_decide (Executor.ctx_err (Run ctx name args)
                                 = Some Executor.DeadlineExceeded)
                 then Executor.ErrTimeOut
                 else if bool_decide (Executor.ctx_err (Run ctx name args)
                                      = Some Executor.Canceled)
                 then Executor.ErrCanceled
                 else Executor.ErrExit).
    exists (Executor.Errorf_s_w (Executor.Leaf kind) e), kind.
    split; [|split; [reflexivity|split; [|split]]].
    + unfold Executor.ExecuteWithContext. rewrite Hn.
      destruct ctx as [|d]; [contradiction|]. rewrite Hrun. subst kind.
      destruct (bool_decide _); [reflexivity|].
      destruct (bool_decide _); reflexivity.
    + intros l. apply Is_s_w.
    + intros Hfor l Hl. rewrite Is_s_w. now apply Hfor.
    + reflexivity.
  - intros Run'. unfold Executor.ExecuteWithContext. now rewrite Hn.
Qed.

(** ** The statements of this part on the examples *)

Lemma collectNetInterfaces_padded_witness :
  Network.collectNetInterfaces Ex4.net_files
  = inl (repeat Model.zero 4
           ++ map Network.collectNetInterface ["eth0"; "wlan0"]).
Proof.
  exact (proj1 (collectNetInterfaces_padded Ex4.net_files
                  [OS.mkDirEntry "bonding_masters" false;
                   OS.mkDirEntry "eth0" true;
                   OS.mkDirEntry "lo" true;
                   OS.mkDirEntry "wlan0" true] eq_refl)).
Defined.

Lemma ExecutorWithContext_classifies_witness :
  exists r,
    Executor.ExecutorWithContext Ex4.timed_out
      (Executor.LiveContext (Some 0)) "sleep" ["60"] = ("partial", Some r)
    /\ Executor.Is r Executor.ErrExit = true
    /\ Executor.Is r Executor.ErrTimeOut = false.
Proof.
  destruct (ExecutorWithContext_classifies Ex4.timed_out
              (Executor.LiveContext (Some 0)) "sleep" ["60"]
              (Executor.Leaf (Executor.ExitError (-1)))
              ltac:(discriminate) eq_refl
              ltac:(intros [] Hl; first [reflexivity | discriminate Hl]))
    as (r & kind & E & -> & Hown & _).
  exists r. split; [exact E|].
  split; [exact (Hown Executor.ErrExit eq_refl)
         | exact (Hown Executor.ErrTimeOut eq_refl)].
Defined.

Lemma ExecuteWithContext_hides_kind_witness :
  exists r,
    Executor.ExecuteWithContext Ex4.timed_out
      (Executor.LiveContext (Some 0)) "sleep" ["60"] = ("partial", Some r)
    /\ Executor.Is r Executor.ErrTimeOut = false
    /\ Executor.Error r = "command timed out: exit status -1".
Proof.
  destruct (ExecuteWithContext_hides_kind Ex4.timed_out
              (Executor.LiveContext (Some 0)) "sleep" ["60"]
              (Executor.Leaf (Executor.ExitError (-1)))
              ltac:(discriminate) ltac:(discriminate) eq_refl)
    as [(r & kind & E & -> & His & _ & Htext) _].
  exists r. split; [exact E|]. split; [exact (His Executor.ErrTimeOut)|].
  exact Htext.
Defined.

Lemma ParseKeyValue_trimmed_witness :
  (exists line k0 v0,
     line ∈ Bufio.Scan_all Ex4.kv_text /\ line <> ""
     /\ Strs.SplitN2 line ":" = Some (k0, v0)
     /\ "mtu" = Strs.TrimSpace k0 /\ "1500" = Strs.TrimSpace v0)
  /\ Strs.TrimSpace "mtu" = "mtu" /\ Strs.TrimSpace "1500" = "1500".
Proof.
  exact (ParseKeyValue_trimmed Ex4.kv_text ":" "mtu" "1500" eq_refl).
Defined.

Lemma ParseKeyValue_joined_witness :
  Utils.ParseKeyValue ("mtu: 9000" +:+ String Bufio.LF Ex4.kv_text) ":"
  = Utils.ParseKeyValue Ex4.kv_text ":" ∪ Utils.ParseKeyValue "mtu: 9000" ":".
Proof.
  exact (ParseKeyValue_joined "mtu: 9000" Ex4.kv_text ":" eq_refl).
Defined.

Lemma ParseKeyValue_long_line_witness :
  Utils.ParseKeyValue
    ("a=1" +:+ String Bufio.LF (Ex4.long_line +:+ String Bufio.LF "b=2")) "="
  = Utils.ParseKeyValue "a=1" "=".
Proof.
  refine (proj1 (ParseKeyValue_long_line "a=1" Ex4.long_line "b=2" "="
                   eq_refl _ _)).
  - vm_compute. reflexivity.
  - vm_compute. discriminate.
Defined.

Lemma ReadSysfs_round_trip_witness :
  Utils.ReadSysfsInt "/sys/class/net/eth0/mtu" Ex4.net_files = (1500, None).
Proof.
  refine (proj1 (proj2 (ReadSysfs_round_trip "/sys/class/net/eth0/mtu"
                          Ex4.net_files "" (String Bufio.LF "") 1500
                          _ _ eq_refl eq_refl eq_refl))).
  - vm_compute. split; [discriminate | reflexivity].
  - vm_compute. discriminate.
Defined.

Lemma ReadSysfs_Uint64_then_Int_witness :
  exists data,
    Utils.ReadSysfsFile "/sys/class/net/eth0/mtu" Ex4.net_files = (data, None)
    /\ Utils.ReadSysfsInt "/sys/class/net/eth0/mtu" Ex4.net_files
       = (if 2 ^ 63 <=? 1500
          then (2 ^ 63 - 1, Some (Utils.NumError data Strconv.ErrRange))
          else (1500, None)).
Proof.
  exact (ReadSysfs_Uint64_then_Int "/sys/class/net/eth0/mtu" Ex4.net_files 1500
           eq_refl).
Defined.

(** ** The last line wins *)

Module LastFacts.
Import Strings Strs StringFacts Bufio Utils.

(** [Index] finds the first occurrence. *)
Lemma Index_first s sep i :
  Index s sep = Some i ->
  s = take i s +:+ sep +:+ drop (i + String.length sep) s
  /\ forall j, (j < i)%nat -> HasPrefix (drop j s) sep = false.
Proof.
  revert i. induction s as [|a s IH]; intros i; cbn [Index].
  - destruct (HasPrefix "" sep) eqn:Ep; [|discriminate].
    intros [= <-]. split; [|intros j Hj; lia].
    cbn [take Nat.add String.append]. now apply HasPrefix_inv.
  - destruct (HasPrefix (String a s) sep) eqn:Ep.
    + intros [= <-]. split; [|intros j Hj; lia].
      cbn [take Nat.add String.append]. now apply HasPrefix_inv.
    + destruct (Index s sep) as [i'|] eqn:Ei; [|discriminate].
      intros [= <-]. destruct (IH i' eq_refl) as [E Hmin]. split.
      * cbn [take Nat.add drop String.append]. now rewrite <- E.
      * intros [|j] Hj; [exact Ep|]. cbn [drop]. apply Hmin. lia.
Qed.

(** A line that binds [k] at the end of the loop decides the value. *)
Lemma fold_parse_last sep l1 line l2 m k0 v0 :
  line <> "" ->
  SplitN2 line sep = Some (k0, v0) ->
  (forall l k' v', l ∈ l2 -> l <> "" -> SplitN2 l sep = Some (k', v') ->
                   TrimSpace k' <> TrimSpace k0) ->
  fold_left (parse_line sep) (l1 ++ line :: l2) m !! TrimSpace k0
  = Some (TrimSpace v0).
Proof.
  intros Hne Hs Hlater. rewrite fold_left_app. cbn [fold_left].
  set (m1 := parse_line sep (fold_left (parse_line sep) l1 m) line).
  assert (H1 : m1 !! TrimSpace k0 = Some (TrimSpace v0)).
  { subst m1. unfold parse_line. apply String.eqb_neq in Hne.
    rewrite Hne, Hs. apply lookup_insert_eq. }
  clearbody m1. revert m1 H1.
  induction l2 as [|l l2 IH]; intros m1 H1; cbn [fold_left]; [exact H1|].
  apply IH.
  - intros l' k' v' Hin. apply Hlater. now right.
  - unfold parse_line. destruct (String.eqb_spec l "") as [El|El]; [exact H1|].
    destruct (SplitN2 l sep) as [[k' v']|] eqn:Es; [|exact H1].
    rewrite lookup_insert_ne; [exact H1|].
    apply (Hlater l k' v'); [left | exact El | exact Es].
Qed.

End LastFacts.

(** X26. Which value a key gets.  Take the lines the scanner delivers,
    and among them a non-empty line that splits in two at the separator,
    such that no later line binds the same key: then the result binds the
    trimmed first part to the trimmed second part.  For a separator that
    is not empty the two parts are what is before and what is after the
    first occurrence of the separator in the line, so separators in the
    value stay in the value. *)
Theorem ParseKeyValue_last_wins (text sep : string) (l1 l2 : list string)
    (line k0 v0 : string) :
  Bufio.Scan_all text = l1 ++ line :: l2 ->
  line <> "" ->
  Strs.SplitN2 line sep = Some (k0, v0) ->
  (forall l k' v', l ∈ l2 -> l <> "" -> Strs.SplitN2 l sep = Some (k', v') ->
                   Strs.TrimSpace k' <> Strs.TrimSpace k0) ->
  Utils.ParseKeyValue text sep !! Strs.TrimSpace k0 = Some (Strs.TrimSpace v0)
  /\ (sep <> "" ->
      line = k0 +:+ sep +:+ v0
      /\ forall j, (j < String.length k0)%nat ->
           Strings.HasPrefix (Strings.drop j line) sep = false).
Proof.
  intros Hscan Hne Hs Hlater. split.
  - unfold Utils.ParseKeyValue. rewrite Hscan.
    now apply LastFacts.fold_parse_last.
  - intros Hsep. unfold Strs.SplitN2 in Hs. apply String.eqb_neq in Hsep.
    rewrite Hsep in Hs.
    destruct (Strs.Index line sep) as [i|] eqn:Ei; [|discriminate].
    injection Hs as <- <-.
    destruct (LastFacts.Index_first line sep i Ei) as [E Hmin].
    split; [exact E|]. intros j Hj. apply Hmin.
    assert (Hlen : (String.length (Strings.take i line) <= i)%nat).
    { rewrite length_take. lia. }
    lia.
Qed.

Lemma ParseKeyValue_last_wins_witness :
  Utils.ParseKeyValue
    ("mtu=9000" +:+ String Bufio.LF ("opts = a=b" +:+ String Bufio.LF "mtu = 1500"))
    "=" !! "opts" = Some "a=b".
Proof.
  refine (proj1 (ParseKeyValue_last_wins
                   ("mtu=9000" +:+ String Bufio.LF
                      ("opts = a=b" +:+ String Bufio.LF "mtu = 1500"))
                   "=" ["mtu=9000"] ["mtu = 1500"]
                   "opts = a=b" "opts " " a=b" eq_refl _ eq_refl _)).
  - discriminate.
  - intros l k' v' Hin%list_elem_of_singleton Hne Hs. subst l.
    injection Hs as <- <-. vm_compute. discriminate.
Defined.

(** ** Validation, again *)

Section Revalidation.

Lemma LogConfig_ext c1 c2 :
  Output c1 = Output c2 -> Dir c1 = Dir c2 ->
  FilenamePrefix c1 = FilenamePrefix c2 -> RetainDays c1 = RetainDays c2 ->
  Format c1 = Format c2 -> Level c1 = Level c2 -> AddSource c1 = AddSource c2 ->
  c1 = c2.
Proof.
  destruct c1, c2. cbn. intros. subst. reflexivity.
Qed.

Lemma file_defaults_idempotent c : file_defaults (file_defaults c) = file_defaults c.
Proof.
  destruct (file_defaults_fields (file_defaults c))
    as (G1 & G2 & G3 & G4 & G5 & G6 & G7).
  destruct (file_defaults_fields c) as (F1 & F2 & F3 & F4 & F5 & F6 & F7).
  apply LogConfig_ext; try assumption.
  - rewrite G5, F1, F5.
    destruct (negb (Z.land (Output c) OutputFile =? 0)); cbn [andb]; [|reflexivity].
    destruct (String.eqb (Dir c) "") eqn:E; [reflexivity | now rewrite E].
  - rewrite G6, F1, F6.
    destruct (negb (Z.land (Output c) OutputFile =? 0)); cbn [andb]; [|reflexivity].
    destruct (String.eqb (FilenamePrefix c) "") eqn:E; [reflexivity | now rewrite E].
  - rewrite G7, F1, F7.
    destruct (negb (Z.land (Output c) OutputFile =? 0)); cbn [andb]; [|reflexivity].
    destruct (RetainDays c <=? 0) eqn:E; [reflexivity | now rewrite E].
Qed.

Lemma format_default_idempotent c :
  format_default (format_default c) = format_default c.
Proof.
  unfold format_default, set_Format.
  destruct (String.eqb (Format c) "") eqn:Ef; cbn [Format]; [reflexivity|].
  now rewrite Ef.
Qed.

Lemma defaults_commute c :
  file_defaults (format_default c) = format_default (file_defaults c).
Proof.
  destruct (file_defaults_fields (format_default c))
    as (G1 & G2 & G3 & G4 & G5 & G6 & G7).
  destruct (format_default_fields c) as (F1 & F2 & F3 & F4 & F5 & F6 & F7).
  destruct (format_default_fields (file_defaults c))
    as (K1 & K2 & K3 & K4 & K5 & K6 & K7).
  destruct (file_defaults_fields c) as (L1 & L2 & L3 & L4 & L5 & L6 & L7).
  apply LogConfig_ext.
  - congruence.
  - now rewrite G5, K4, L5, F1, F4.
  - now rewrite G6, K5, L6, F1, F5.
  - now rewrite G7, K6, L7, F1, F6.
  - now rewrite G4, K7, L4, F7.
  - congruence.
  - congruence.
Qed.

End Revalidation.

(** X27. Validation settles: the configuration [validate] leaves, given
    to [validate] again, is left as it is, and gets the same verdict (nil,
    or the same error). *)
Theorem validate_idempotent (c : LogConfig) :
  validate (fst (validate c)) = validate c.
Proof.
  destruct (Z.eq_dec (Output c) OutputNone) as [Hn|Hn].
  - rewrite (validate_none c Hn). cbn [fst]. apply (validate_none c Hn).
  - rewrite (validate_steps c Hn). cbv zeta.
    set (c' := format_default (file_defaults c)).
    assert (Ho : Output c' <> OutputNone).
    { subst c'. destruct (format_default_fields (file_defaults c)) as (-> & _).
      destruct (file_defaults_fields c) as (-> & _). exact Hn. }
    assert (Efix : format_default (file_defaults c') = c').
    { subst c'. now rewrite defaults_commute, format_default_idempotent,
        file_defaults_idempotent. }
    assert (Efst : fst (if negb (String.eqb (Format c') LogFormatText)
                           && negb (String.eqb (Format c') LogFormatJSON)
                        then (c', Some (errors_New ("unsupported log format: "
                                                     +:+ Format c')))
                        else (c', None)) = c')
      by (destruct (negb _ && negb _); reflexivity).
    rewrite Efst, (validate_steps c' Ho). cbv zeta. now rewrite Efix.
Qed.

(** ** Levels are not touched by logging *)

Section Levels.
Context `{Encoder}.

Lemma same_levels_refl w : same_levels w w.
Proof. now intros p. Qed.

Lemma same_levels_trans w1 w2 w3 :
  same_levels w1 w2 -> same_levels w2 w3 -> same_levels w1 w3.
Proof. intros H12 H23 p. now rewrite H23, H12. Qed.

Lemma same_levels_heap w w' : heap w' = heap w -> same_levels w w'.
Proof. intros E p. now rewrite E. Qed.

Lemma same_levels_store p h h' w w' :
  heap w !! p = Some h -> cfg h' = cfg h -> heap w' = heap w ->
  same_levels w (store p h' w').
Proof.
  intros Hh Hc Hw q. unfold store, set_heap. cbn [heap]. rewrite Hw.
  destruct (decide (q = p)) as [->|Hne].
  - rewrite lookup_insert_eq, Hh. cbn. now rewrite Hc.
  - now rewrite lookup_insert_ne by congruence.
Qed.

Lemma rotateIfNeeded_cfg h t w :
  cfg (snd (fst (rotateIfNeeded h t w))) = cfg h.
Proof.
  unfold rotateIfNeeded.
  destruct (String.eqb _ _ && _); [reflexivity|].
  destruct (curFile h) as [f|].
  - destruct (OS.Close f (fs w)) as [[e|] files];
      destruct (OS.OpenFile _ _) as [[file|e'] files']; reflexivity.
  - destruct (OS.OpenFile _ _) as [[file|e'] files']; reflexivity.
Qed.

(** A method of a sink that rotates and then writes through some
    encoder. *)
Lemma rotating_call_levels p r w
    (write : DailyFileHandler -> World -> option error * World) :
  (forall h w0, heap (snd (write h w0)) = heap w0) ->
  same_levels w
    (snd (with_receiver p w (Some nil_receiver) (fun h =>
            let '(err, h, w) := rotateIfNeeded h (Slog.Time r) w in
            match err with
            | Some e => (Some e, h, w)
            | None => let '(e, w) := write h w in (e, h, w)
            end))).
Proof.
  intros Hwrite. unfold with_receiver.
  destruct (heap w !! p) as [h|] eqn:Hh; [|apply same_levels_refl].
  pose proof (rotateIfNeeded_cfg h (Slog.Time r) w) as Hc.
  pose proof (rotateIfNeeded_frame h (Slog.Time r) w) as (_ & Hheap & _).
  destruct (rotateIfNeeded h (Slog.Time r) w) as [[[e|] h2] w2];
    cbn [fst snd] in *.
  - now apply (same_levels_store p h).
  - pose proof (Hwrite h2 w2) as Hw.
    destruct (write h2 w2) as [e w3]. cbn [fst snd] in *.
    apply (same_levels_store p h); [exact Hh | exact Hc | congruence].
Qed.

Lemma Builtin_Handle_heap enc r w : heap (snd (Builtin_Handle enc r w)) = heap w.
Proof. unfold Builtin_Handle. now destruct (OS.Write _ _ _). Qed.

Lemma TerminalHandler_Handle_heap t r w :
  heap (snd (TerminalHandler_Handle t r w)) = heap w.
Proof.
  unfold TerminalHandler_Handle, Buffer_Handle.
  destruct (th_colorize t).
  - destruct (OS.Write (th_out t) _ (fs w)) as [e1 f1].
    destruct (OS.Write (th_out t) _ f1) as [e2 f2].
    now destruct (OS.Write (th_out t) _ f2).
  - now destruct (OS.Write (th_out t) _ (fs w)).
Qed.

Lemma Enabled_same_levels h level w w' :
  same_levels w w' -> Enabled h level w' = Enabled h level w.
Proof.
  intros Hs.
  assert (Hsink : forall p, DailyFileHandler_Enabled p level w'
                            = DailyFileHandler_Enabled p level w).
  { intros p. unfold DailyFileHandler_Enabled. specialize (Hs p).
    destruct (heap w' !! p), (heap w !! p); cbn in Hs; congruence. }
  induction h as [p|wr|t|hs IH] using Handler_members_ind; cbn [Enabled].
  - apply Hsink.
  - apply Hsink.
  - reflexivity.
  - induction IH as [|m hs E _ IHhs]; cbn [MultiHandler_Enabled]; [reflexivity|].
    now rewrite E, IHhs.
Qed.

Lemma Handle_same_levels h r w : same_levels w (snd (Handle h r w)).
Proof.
  revert w. induction h as [p|wr|t|hs IH] using Handler_members_ind; intros w;
    cbn [Handle].
  - unfold DailyFileHandler_Handle, with_receiver.
    destruct (heap w !! p) as [h|] eqn:Hh; [|apply same_levels_refl].
    pose proof (rotateIfNeeded_cfg h (Slog.Time r) w) as Hc.
    pose proof (rotateIfNeeded_frame h (Slog.Time r) w) as (_ & Hheap & _).
    destruct (rotateIfNeeded h (Slog.Time r) w) as [[[e|] h2] w2];
      cbn [fst snd] in *.
    + now apply (same_levels_store p h).
    + destruct (curInner h2) as [enc|].
      * pose proof (Builtin_Handle_heap enc r w2) as Hb.
        destruct (Builtin_Handle enc r w2) as [e w3]. cbn [fst snd] in *.
        apply (same_levels_store p h); [exact Hh | exact Hc | congruence].
      * now apply (same_levels_store p h).
  - unfold fileHandlerWrapper_Handle.
    apply (rotating_call_levels (original wr) r w
             (fun _ w0 => Builtin_Handle (inner wr) r w0)).
    intros _ w0. apply Builtin_Handle_heap.
  - apply same_levels_heap, TerminalHandler_Handle_heap.
  - unfold MultiHandler_Handle.
    assert (Hloop : forall errs w0,
              same_levels w0 (snd (MultiHandler_loop Enabled Handle hs r errs w0))).
    { induction IH as [|m hs Hm _ IHhs]; intros errs w0; cbn [MultiHandler_loop].
      - apply same_levels_refl.
      - destruct (negb (Enabled m (Slog.Level r) w0)); [apply IHhs|].
        specialize (Hm w0). destruct (Handle m r w0) as [[e|] w1];
          cbn [snd] in Hm; (eapply same_levels_trans; [exact Hm | apply IHhs]). }
    specialize (Hloop [] w).
    destruct (MultiHandler_loop Enabled Handle hs r [] w) as [errs w1].
    cbn [snd] in Hloop. now destruct (0 <? length errs)%nat.
Qed.

(** X28. Logging never changes what is enabled: after [Handle] of any
    record through any handler of the package (a sink that rotates or
    fails, a stale wrapper, the terminal, a fan-out), every handler is
    enabled for exactly the levels it was enabled for before.  So the
    fan-out, which asks each member in the world the earlier members left,
    asks what it would have asked at the start. *)
Theorem Handle_keeps_levels (h h' : Handler) (r : Slog.Record) (w : World)
    (level : Z) :
  Enabled h level (snd (Handle h' r w)) = Enabled h level w.
Proof. apply Enabled_same_levels, Handle_same_levels. Qed.

End Levels.

(** ** The terminal sink, decorated *)

(** A terminal handler given an attribute and then a group, on the terminal
    of a new process: the record is shown between blue and the reset, and
    neither the attribute nor the group is. *)
Lemma terminal_decoration_dropped_witness :
  let h := decorate_all (H_Terminal (NewTerminalHandler OS.Stderr Ex.term_only))
             [Slog.BoundAttrs Ex.kv; Slog.BoundGroup "g"] Ex.w0 in
  OS.fs_files (fs Ex.w0) !! OS.Stderr = Some (OS.mkFile "/dev/stderr" true)
  /\ OS.content "/dev/stderr" (fs Ex.w0) = Some ""
  /\ fst (Handle (H:=Ex.plain) h Ex.r1 Ex.w0) = None
  /\ OS.content "/dev/stderr" (fs (snd (Handle (H:=Ex.plain) h Ex.r1 Ex.w0)))
     = Some (colorBlue +:+ "msg=one;" +:+ colorReset).
Proof.
  cbv zeta. split; [reflexivity|]. split; [reflexivity|].
  destruct (terminal_decoration_dropped (H:=Ex.plain)
              (NewTerminalHandler OS.Stderr Ex.term_only)
              [Slog.BoundAttrs Ex.kv; Slog.BoundGroup "g"] Ex.w0 Ex.r1 Ex.w0)
    as (_ & _ & _ & _ & _ & _ & Hopen & _).
  rewrite (Hopen "/dev/stderr" "" eq_refl eq_refl).
  split; reflexivity.
Defined.

(** ** The two designs of the fan-out *)

Section FanOutDesigns.
Context `{Encoder} {M : Type}.
Variable enabled : M -> Z -> World -> bool.
Variable handle : M -> Slog.Record -> World -> option error * World.

(** The loop of the first design with its accumulator, against delivery
    to all. *)
Lemma first_loop_deliver handlers r acc v :
  (fix loop (l : list V1.Handler) (handlerErr : option error) (w : V1.World)
     : option error * V1.World :=
     match l with
     | [] => (handlerErr, w)
     | m :: rest =>
         if negb (V1.Enabled m (Slog.Level r) w) then loop rest handlerErr w
         else
           let '(err, w) := V1.Handle m r w in
           match err, handlerErr with
           | Some e, None => loop rest (Some e) w
           | _, _ => loop rest handlerErr w
           end
     end) handlers acc v
  = (match acc with
     | Some e => Some e
     | None => head (failures (fst (V1.deliver_all handlers r v)))
     end,
     snd (V1.deliver_all handlers r v)).
Proof.
  revert acc v. induction handlers as [|h rest IH]; intros acc v.
  - now destruct acc.
  - cbn [V1.deliver_all].
    destruct (V1.Enabled h (Slog.Level r) v); cbn [negb]; [|apply IH].
    destruct (V1.Handle h r v) as [[e|] v1];
      destruct (V1.deliver_all rest r v1) as [more v2] eqn:Ed;
      destruct acc as [a|]; rewrite IH, Ed; reflexivity.
Qed.

Lemma first_Handle_deliver handlers r v :
  V1.Handle (V1.H_Multi handlers) r v
  = (head (failures (fst (V1.deliver_all handlers r v))),
     snd (V1.deliver_all handlers r v)).
Proof. cbn [V1.Handle]. now rewrite first_loop_deliver. Qed.

(** C2. The fan-out of either design gives the record to every member
    that accepts its level, in order, whatever the earlier members
    answered, and returns success exactly when none of them failed.  The
    two differ in the failure they return.  [MultiHandler.Handle] of the
    second design, over any members, returns one joined error whose
    members are the failures of all of them, in order.  That of the first
    design returns the failure of the first member that failed, and
    nothing of the later ones. *)
Theorem MultiHandler_Handle_collects (handlers : list M)
    (firsts : list V1.Handler) (r : Slog.Record) (w : World) (v : V1.World) :
  let answers := fst (deliver_all enabled handle handlers r w) in
  let res := MultiHandler_Handle enabled handle handlers r w in
  let answers1 := fst (V1.deliver_all firsts r v) in
  let res1 := V1.Handle (V1.H_Multi firsts) r v in
  (snd res = snd (deliver_all enabled handle handlers r w)
   /\ (fst res = None <-> Forall (fun a => a = None) answers)
   /\ (fst res <> None -> fst res = Some (errors_Join (failures answers)))
   /\ (forall e, Some e ∈ answers ->
         exists errs, fst res = Some (errors_Join errs) /\ e ∈ errs))
  /\ (snd res1 = snd (V1.deliver_all firsts r v)
      /\ (fst res1 = None <-> Forall (fun a => a = None) answers1)
      /\ fst res1 = head (failures answers1)
      /\ (forall e errs, failures answers1 = e :: errs -> fst res1 = Some e)).
Proof.
  intros answers res answers1 res1. split.
  - subst res. unfold MultiHandler_Handle.
    rewrite MultiHandler_loop_deliver. fold answers. simpl.
    destruct (failures answers) as [|e0 errs] eqn:Ef; simpl.
    + split; [reflexivity|]. split.
      * split; [intros _; now apply failures_nil | reflexivity].
      * split; [congruence|]. intros e He%failures_elem.
        rewrite Ef in He. now apply elem_of_nil in He.
    + split; [reflexivity|]. split.
      * split; [discriminate|]. intros Hn%failures_nil. congruence.
      * split; [reflexivity|]. intros e He%failures_elem. rewrite Ef in He.
        now exists (e0 :: errs).
  - subst res1. rewrite first_Handle_deliver. fold answers1. cbn [fst snd].
    split; [reflexivity|]. split; [|split; [reflexivity|]].
    + rewrite <- failures_nil. now destruct (failures answers1).
    + intros e errs ->. reflexivity.
Qed.

End FanOutDesigns.

(** The logger of the first design with the terminal closed and the next
    day-file out of reach: both members fail, each with its own error, and
    [Handle] returns that of the terminal alone, which is no joined error
    and does not name the failure of the file handler. *)
Lemma fanout_first_design_loses_failure :
  let res := V1.Handle (H:=Ex.plain) (V1.H_Multi Ex5.first_members) Ex.r2
               Ex5.v_mute in
  let e1 := PathError "write" "/dev/stderr" OS.ErrClosed in
  let e2 := fmt_Errorf "open log file failed: "
              (PathError "open" "logs/app-2024-01-02.log" OS.ErrPermission) in
  V1.onceLogger Ex5.v_mute
    = Some (V1.mkLogger 2 (V1.H_Multi Ex5.first_members))
  /\ fst (V1.deliver_all (H:=Ex.plain) Ex5.first_members Ex.r2 Ex5.v_mute)
     = [Some e1; Some e2]
  /\ fst res = Some e1
  /\ (e2 ∉ members e1)
  /\ ~ (forall e,
          Some e ∈ fst (V1.deliver_all (H:=Ex.plain) Ex5.first_members Ex.r2
                          Ex5.v_mute) ->
          exists errs, fst res = Some (errors_Join errs) /\ e ∈ errs).
Proof.
  cbv zeta.
  assert (Ed : fst (V1.deliver_all (H:=Ex.plain) Ex5.first_members Ex.r2 Ex5.v_mute)
               = [Some (PathError "write" "/dev/stderr" OS.ErrClosed);
                  Some (fmt_Errorf "open log file failed: "
                          (PathError "open" "logs/app-2024-01-02.log"
                                     OS.ErrPermission))])
    by (vm_compute; reflexivity).
  assert (Er : fst (V1.Handle (H:=Ex.plain) (V1.H_Multi Ex5.first_members) Ex.r2
                      Ex5.v_mute)
               = Some (PathError "write" "/dev/stderr" OS.ErrClosed))
    by (vm_compute; reflexivity).
  split; [vm_compute; reflexivity|]. split; [exact Ed|]. split; [exact Er|].
  split.
  - cbn [members]. intros Hin. apply list_elem_of_singleton in Hin. discriminate Hin.
  - intros Hall. rewrite Ed, Er in Hall.
    destruct (Hall (PathError "write" "/dev/stderr" OS.ErrClosed))
      as (errs & E & _); [left|discriminate E].
Qed.

(** ** The two designs of the terminal colours *)

Section ColorDesigns.
Context `{Encoder}.

(** The colouring handler of the first design on an open terminal: the
    record alone when the level has no colour, and between its colour and
    the reset otherwise. *)
Lemma first_ColorHandler_Handle_open t r v name shown :
  OS.fs_files (V1.fs v) !! V1.ch_out t = Some (OS.mkFile name true) ->
  OS.content name (V1.fs v) = Some shown ->
  let bytes := encode Slog.TextLayout (V1.ch_opts t) [] r in
  let color := V1.level_color (Slog.Level r) in
  V1.ColorHandler_Handle t r v =
    (None,
     V1.set_fs v (OS.set_nodes (V1.fs v)
       (<[name := OS.RegularFile
                    (shown +:+ (if String.eqb color "" then bytes
                                else color +:+ bytes +:+ colorReset))]>
          (OS.fs_nodes (V1.fs v))))).
Proof.
  intros Hf Hs bytes color. unfold V1.ColorHandler_Handle, Buffer_Handle.
  fold bytes color. cbn [String.append].
  assert (Hw2 : forall b s nodes, OS.Write (V1.ch_out t) b
        (OS.set_nodes (V1.fs v) (<[name := OS.RegularFile s]> nodes))
      = (None, OS.set_nodes (V1.fs v)
                 (<[name := OS.RegularFile (s +:+ b)]> nodes))).
  { intros b s nodes.
    erewrite OSFacts.Write_open; [|exact Hf|apply OSFacts.content_set_nodes_eq].
    unfold OS.set_nodes. cbn [OS.fs_nodes OS.fs_files OS.fs_next OS.fs_deny].
    now rewrite insert_insert_eq. }
  destruct (String.eqb color "").
  - now rewrite (OSFacts.Write_open _ _ _ _ _ Hf Hs).
  - rewrite (OSFacts.Write_open _ _ _ _ _ Hf Hs). cbn [snd].
    rewrite !Hw2. cbn [fst snd]. now rewrite !StringFacts.app_assoc.
Qed.

Lemma first_level_color_cases level :
  (Slog.LevelError <= level -> V1.level_color level = colorRed)
  /\ (level = Slog.LevelWarn -> V1.level_color level = colorYellow)
  /\ (level = Slog.LevelInfo -> V1.level_color level = "")
  /\ (level < Slog.LevelError -> level <> Slog.LevelWarn ->
      level <> Slog.LevelInfo -> V1.level_color level = colorGreen).
Proof.
  unfold V1.level_color, Slog.LevelError, Slog.LevelWarn, Slog.LevelInfo.
  repeat split.
  - intros Hl. destruct (Z.leb_spec 8 level); [reflexivity | lia].
  - intros ->. reflexivity.
  - intros ->. reflexivity.
  - intros H1 H2 H3. destruct (Z.leb_spec 8 level); [lia|].
    destruct (Z.eqb_spec level 4); [lia|].
    destruct (Z.eqb_spec level 0); [lia|]. reflexivity.
Qed.

(** C9. The terminal handler of either design, decorated or not, on a
    terminal that is open: [Handle] succeeds and the colour is a function of
    the record's level alone.  [TerminalHandler] of the second design
    appends the colour, the formatted record and one reset sequence, in this
    order, for every record: red from [LevelError] up, yellow at
    [LevelWarn], blue at [LevelInfo], gray below [LevelInfo] (and also
    strictly between the named levels).  [ColorHandler] of the first design
    does so for every record that is not at [LevelInfo], with red from
    [LevelError] up, yellow at [LevelWarn] and green for every other level;
    a record at [LevelInfo] it appends bare, with no colour before it and no
    reset after it.  The colours and the reset sequence are pairwise
    different. *)
Theorem terminal_color_by_level (c : LogConfig) (opts : Slog.HandlerOptions)
    (out out1 : nat) (bs : list Slog.Bound) (w0 : World) (v0 : V1.World)
    (r : Slog.Record) (w : World) (v : V1.World)
    (name shown name1 shown1 : string) :
  OS.fs_files (fs w) !! out = Some (OS.mkFile name true) ->
  OS.content name (fs w) = Some shown ->
  OS.fs_files (V1.fs v) !! out1 = Some (OS.mkFile name1 true) ->
  OS.content name1 (V1.fs v) = Some shown1 ->
  let h := decorate_all (H_Terminal (NewTerminalHandler out c)) bs w0 in
  let bytes :=
    encode Slog.TextLayout (Slog.mkOptions (AddSource c) (Level c)) [] r in
  let h1 :=
    fst (V1.decorate_all (V1.H_Color (V1.NewColorHandler out1 opts)) bs v0) in
  let bytes1 := encode Slog.TextLayout opts [] r in
  let level := Slog.Level r in
  (exists color : string,
     fst (Handle h r w) = None
     /\ OS.content name (fs (snd (Handle h r w)))
        = Some (shown +:+ color +:+ bytes +:+ colorReset)
     /\ color = level_color level
     /\ (Slog.LevelError <= level -> color = colorRed)
     /\ (level = Slog.LevelWarn -> color = colorYellow)
     /\ (level = Slog.LevelInfo -> color = colorBlue)
     /\ (level < Slog.LevelInfo -> color = colorGray)
     /\ (Slog.LevelInfo < level < Slog.LevelWarn
         \/ Slog.LevelWarn < level < Slog.LevelError -> color = colorGray))
  /\ (exists color1 : string,
        fst (V1.Handle h1 r v) = None
        /\ (level <> Slog.LevelInfo ->
            OS.content name1 (V1.fs (snd (V1.Handle h1 r v)))
            = Some (shown1 +:+ color1 +:+ bytes1 +:+ colorReset))
        /\ (level = Slog.LevelInfo ->
            OS.content name1 (V1.fs (snd (V1.Handle h1 r v)))
            = Some (shown1 +:+ bytes1))
        /\ color1 = V1.level_color level
        /\ (Slog.LevelError <= level -> color1 = colorRed)
        /\ (level = Slog.LevelWarn -> color1 = colorYellow)
        /\ (level < Slog.LevelError -> level <> Slog.LevelWarn ->
            level <> Slog.LevelInfo -> color1 = colorGreen))
  /\ NoDup [colorRed; colorYellow; colorBlue; colorGray; colorGreen; colorReset].
Proof.
  intros Hf Hs Hf1 Hs1 h bytes h1 bytes1 level. split; [|split].
  - exists (level_color level). subst h. rewrite decorate_all_terminal.
    cbn [Handle].
    rewrite (TerminalHandler_Handle_open (NewTerminalHandler out c) r w name
               shown eq_refl Hf Hs).
    cbn [fst snd fs set_fs].
    split; [reflexivity|]. split; [apply OSFacts.content_set_nodes_eq|].
    split; [reflexivity|].
    destruct (level_color_cases level) as (H1 & H2 & H3 & H4 & H5).
    now repeat (split; [assumption|]).
  - exists (V1.level_color level). subst h1.
    destruct (first_decorate_all_color (V1.NewColorHandler out1 opts) bs v0)
      as (t' & -> & Ho & Hp).
    cbn [fst V1.Handle].
    assert (Hf' : OS.fs_files (V1.fs v) !! V1.ch_out t'
                  = Some (OS.mkFile name1 true)) by (now rewrite Ho).
    rewrite (first_ColorHandler_Handle_open t' r v name1 shown1 Hf' Hs1).
    rewrite Hp. cbn [V1.NewColorHandler V1.ch_opts fst snd V1.fs V1.set_fs].
    fold bytes1 level. rewrite OSFacts.content_set_nodes_eq.
    destruct (first_level_color_cases level) as (H1 & H2 & H3 & H4).
    split; [reflexivity|]. split; [|split; [|split; [reflexivity|]]].
    + intros Hne.
      destruct (Z_lt_le_dec level Slog.LevelError) as [Hlt|Hge].
      * destruct (Z.eq_dec level Slog.LevelWarn) as [Hw|Hw].
        -- now rewrite (H2 Hw).
        -- now rewrite (H4 Hlt Hw Hne).
      * now rewrite (H1 Hge).
    + intros Hi. now rewrite (H3 Hi).
    + now repeat (split; [assumption|]).
  - repeat (apply NoDup_cons; split;
            [rewrite ?elem_of_cons, elem_of_nil; intuition discriminate|]).
    apply NoDup_nil. exact I.
Qed.

End ColorDesigns.

(** The terminal of a new process in either design, an error record: red,
    record, reset. *)
Lemma terminal_color_by_level_witness :
  let r := Slog.mkRecord (Time.utc 2024 1 1 23 59) "boom" Slog.LevelError [] in
  OS.fs_files (fs Ex.w0) !! OS.Stderr = Some (OS.mkFile "/dev/stderr" true)
  /\ OS.content "/dev/stderr" (fs Ex.w0) = Some ""
  /\ OS.fs_files (V1.fs Ex3.v0) !! OS.Stderr = Some (OS.mkFile "/dev/stderr" true)
  /\ OS.content "/dev/stderr" (V1.fs Ex3.v0) = Some ""
  /\ OS.content "/dev/stderr"
       (fs (snd (Handle (H:=Ex.plain)
                   (H_Terminal (NewTerminalHandler OS.Stderr Ex.term_only))
                   r Ex.w0)))
     = Some ("" +:+ colorRed +:+ "msg=boom;" +:+ colorReset)
  /\ OS.content "/dev/stderr"
       (V1.fs (snd (V1.Handle (H:=Ex.plain)
                      (V1.H_Color (V1.NewColorHandler OS.Stderr
                                     (Slog.mkOptions false 0)))
                      r Ex3.v0)))
     = Some ("" +:+ colorRed +:+ "msg=boom;" +:+ colorReset).
Proof.
  cbv zeta. split; [reflexivity|]. split; [reflexivity|].
  split; [reflexivity|]. split; [reflexivity|].
  destruct (terminal_color_by_level (H:=Ex.plain) Ex.term_only
              (Slog.mkOptions false 0) OS.Stderr OS.Stderr [] Ex.w0 Ex3.v0
              (Slog.mkRecord (Time.utc 2024 1 1 23 59) "boom" Slog.LevelError [])
              Ex.w0 Ex3.v0 "/dev/stderr" "" "/dev/stderr" ""
              eq_refl eq_refl eq_refl eq_refl)
    as ((color & _ & Hout & _ & Hred & _)
        & (color1 & _ & Hout1 & _ & _ & Hred1 & _) & _).
  split.
  - rewrite <- (Hred ltac:(vm_compute; discriminate)). exact Hout.
  - rewrite <- (Hred1 ltac:(vm_compute; discriminate)). apply Hout1.
    vm_compute. discriminate.
Defined.

(** The colouring handler of the first design on the terminal of a new
    process, a record at [LevelInfo]: the terminal shows the record and
    nothing else, so no colour and no reset sequence. *)
Lemma first_design_info_uncolored :
  let res := V1.Handle (H:=Ex.plain)
               (V1.H_Color (V1.NewColorHandler OS.Stderr (Slog.mkOptions false 0)))
               Ex.r1 Ex3.v0 in
  Slog.Level Ex.r1 = Slog.LevelInfo
  /\ OS.content "/dev/stderr" (V1.fs Ex3.v0) = Some ""
  /\ fst res = None
  /\ OS.content "/dev/stderr" (V1.fs (snd res)) = Some "msg=one;"
  /\ ~ (exists color : string,
          OS.content "/dev/stderr" (V1.fs (snd res))
          = Some ("" +:+ color +:+ "msg=one;" +:+ colorReset)).
Proof.
  cbv zeta.
  assert (Ec : OS.content "/dev/stderr"
                 (V1.fs (snd (V1.Handle (H:=Ex.plain)
                    (V1.H_Color (V1.NewColorHandler OS.Stderr (Slog.mkOptions false 0)))
                    Ex.r1 Ex3.v0))) = Some "msg=one;")
    by (vm_compute; reflexivity).
  split; [reflexivity|]. split; [reflexivity|].
  split; [vm_compute; reflexivity|]. split; [exact Ec|].
  intros (color & E). rewrite Ec in E. injection E as E.
  apply (f_equal String.length) in E.
  cbn [String.append] in E. rewrite !StringFacts.length_app in E.
  cbn [String.length colorReset] in E. lia.
Qed.

(** ** Where the first design departs from the specification *)

(** C3. The first design of [InitLogger] in a process that may not create
    the log directory.  The first call fails and returns the failure.  The
    second call does not run the once-function, which is as the
    specification asks, but it returns no logger and no error: [initErr] is
    a variable of the call, so the failure the first call recorded is not
    there to be read.  The second design on the same kind of input gives
    the recorded failure to both callers. *)
Theorem InitLogger_first_design_forgets :
  let failure :=
    fmt_Errorf "create log directory failed: "
      (PathError "mkdir" "/var/log/diting" OS.ErrPermission) in
  let first := V1.InitLogger Ex3.zero1 Ex3.v_denied in
  let second := V1.InitLogger Ex3.cfg1 (snd first) in
  let first2 := InitLogger Ex.file_only Ex5.w_denied in
  let second2 := InitLogger Ex.both (snd first2) in
  V1.loggerOnce Ex3.v_denied = false
  /\ fst (fst first) = (None, Some failure)
  /\ V1.loggerOnce (snd first) = true
  /\ fst (fst second) = (None, None)
  /\ snd second = snd first
  /\ fst (fst second) <> fst (fst first)
  /\ (exists e, fst (fst first2) = (None, Some e)
                /\ fst (fst second2) = (None, Some e)).
Proof.
  cbv zeta. split; [reflexivity|]. split; [vm_compute; reflexivity|].
  split; [reflexivity|]. split; [vm_compute; reflexivity|].
  split; [vm_compute; reflexivity|]. split; [vm_compute; discriminate|].
  eexists. split; vm_compute; reflexivity.
Qed.

(** C6. The sweep of the first design with a retention window of 106752
    days, on 2024-01-10.  [InitLogger] accepts the configuration and opens
    the day-file of 2024-01-10, and the first rotation starts one sweep for
    the handler.  The product [RetainDays * 24 * time.Hour] does not fit a
    [time.Duration] and comes out negative, so the sweep removes the
    day-file dated five days ago and the one of the current day, both far
    inside the window; the names that are not day-files of the prefix
    stay. *)
Theorem first_design_sweep_removes_recent :
  let first := V1.InitLogger Ex3.forever1 Ex5.v_old in
  let v := Ex5.v_forever in
  let swept := V1.cleanOldLogs Ex3.forever1 (V1.now v) (V1.fs v) in
  (exists l, fst (fst first) = (Some l, None))
  /\ snd (fst first) = Ex3.forever1 /\ snd first = v
  /\ V1.sweeps v = [1%nat]
  /\ V1.cfg <$> V1.heap v !! 1%nat = Some Ex3.forever1
  /\ V1.RetainDays Ex3.forever1 = 106752
  /\ V1.now v = Time.utc 2024 1 10 12 0
  /\ V1.retention Ex3.forever1 = 106752 * Time.nsPerDay - 2 ^ 64
  /\ V1.retention Ex3.forever1 < 0
  /\ OS.content "logs/app-2024-01-05.log" (V1.fs v) = Some "recent"
  /\ OS.content "logs/app-2024-01-10.log" (V1.fs v) = Some ""
  /\ OS.fs_nodes swept !! "logs/app-2024-01-05.log" = None
  /\ OS.fs_nodes swept !! "logs/app-2024-01-10.log" = None
  /\ OS.fs_nodes swept !! "logs/app-2024-01-02.log" = None
  /\ OS.fs_nodes swept !! "logs/app-latest.log" = Some (OS.RegularFile "undated")
  /\ OS.fs_nodes swept !! "logs/web-2023-01-01.log" = Some (OS.RegularFile "other").
Proof.
  cbv zeta. split; [eexists; vm_compute; reflexivity|].
  repeat (split; [vm_compute; reflexivity|]). vm_compute. reflexivity.
Qed.

(** ** The sweep of the first design within the range of a duration *)

(** X30. One run of the sweep of the first design with a retention window
    of [R] days, [1 <= R <= 106751], over a log directory that can be
    listed.  A path is removed exactly when it is the directory joined with
    the name of a listed entry that is not a directory, the name has the
    exact shape [{prefix}-{date}.log], [{date}] parses as a calendar date
    whose midnight (UTC) is more than [R] times 24 hours before the clock,
    and the unlink is permitted; every other path is exactly as before, and
    so are the file objects of the process. *)
Theorem first_design_sweep_in_range (c : V1.LogConfig) (clock : Time.Time)
    (files : OS.FS) (entries : list OS.DirEntry) :
  1 <= V1.RetainDays c <= 106751 ->
  OS.ReadDir (V1.Dir c) files = inl entries ->
  let swept := V1.cleanOldLogs c clock files in
  let gone (path : string) : Prop :=
    exists name d date,
      OS.mkDirEntry name false ∈ entries
      /\ path = Filepath.Join (V1.Dir c) name
      /\ name = V1.FilenamePrefix c +:+ "-" +:+ d +:+ ".log"
      /\ Time.Parse_date d = Some date
      /\ Time.unixNano date
         < Time.unixNano clock - V1.RetainDays c * Time.nsPerDay
      /\ path ∉ OS.fs_deny files in
  (forall path, gone path -> OS.fs_nodes swept !! path = None)
  /\ (forall path, ~ gone path ->
        OS.fs_nodes swept !! path = OS.fs_nodes files !! path)
  /\ OS.fs_deny swept = OS.fs_deny files.
Proof.
  intros HR Hread swept gone. subst swept. unfold V1.cleanOldLogs.
  destruct (Z.leb_spec (V1.RetainDays c) 0) as [|_]; [lia|]. rewrite Hread.
  destruct (first_clean_loop_nodes c clock entries files) as (Hd & Hq).
  assert (Hexp : forall e,
    V1.entry_expired c clock e = true
    <-> OS.IsDir e = false
        /\ exists d date,
             OS.Name e = V1.FilenamePrefix c +:+ "-" +:+ d +:+ ".log"
             /\ Time.Parse_date d = Some date
             /\ Time.unixNano date
                < Time.unixNano clock - V1.RetainDays c * Time.nsPerDay).
  { intros e. rewrite first_entry_expired_spec, retention_small by lia.
    assert (Hs : forall date,
      V1.RetainDays c * Time.nsPerDay < V1.Sub clock date
      <-> Time.unixNano date
          < Time.unixNano clock - V1.RetainDays c * Time.nsPerDay).
    { intros date. apply Sub_above.
      unfold V1.maxDuration, Time.nsPerDay, Time.secondsPerDay,
        Time.nsPerSecond. lia. }
    split; intros (Hdir & d & date & En & Hp & Hr); (split; [exact Hdir|]);
      exists d, date; (split; [exact En|]); (split; [exact Hp|]);
      now apply Hs. }
  assert (Hgone : forall path,
    existsb (fun e => V1.entry_expired c clock e
               && bool_decide (path = Filepath.Join (V1.Dir c) (OS.Name e))
               && bool_decide (path ∉ OS.fs_deny files)) entries = true
    <-> gone path).
  { intros path. rewrite existsb_exists. split.
    - intros ([name isdir] & Hin & Hb).
      apply andb_true_iff in Hb as [Hb Hdeny].
      apply andb_true_iff in Hb as [He Hpath].
      apply bool_decide_eq_true in Hdeny, Hpath.
      apply Hexp in He as (Hdir & d & date & En & Hp & Hold).
      cbn in Hdir, En, Hpath. subst isdir. exists name, d, date.
      split; [now apply list_elem_of_In|]. now repeat split.
    - intros (name & d & date & Hin & Hpath & En & Hp & Hold & Hdeny).
      exists (OS.mkDirEntry name false). split; [now apply list_elem_of_In|].
      rewrite (proj2 (Hexp _)).
      + cbn [OS.Name]. now rewrite !bool_decide_eq_true_2.
      + split; [reflexivity|]. now exists d, date. }
  split; [|split; [|exact Hd]].
  - intros path Hg. rewrite Hq. now rewrite (proj2 (Hgone path) Hg).
  - intros path Hg. rewrite Hq.
    destruct (existsb _ entries) eqn:Ee; [|reflexivity].
    now apply Hgone in Ee.
Qed.

(** The sweep of the example directory on 2024-01-10 with seven days: the
    day-file of 2024-01-02 goes, that of 2024-01-05 stays. *)
Lemma first_design_sweep_in_range_witness :
  1 <= V1.RetainDays Ex3.cfg1 <= 106751
  /\ OS.ReadDir (V1.Dir Ex3.cfg1) (fs Ex.w_sweep)
     = inl [OS.mkDirEntry "app-2023-01-01.log" true;
            OS.mkDirEntry "app-2024-01-02.log" false;
            OS.mkDirEntry "app-2024-01-05.log" false;
            OS.mkDirEntry "app-latest.log" false;
            OS.mkDirEntry "web-2023-01-01.log" false]
  /\ OS.fs_nodes (V1.cleanOldLogs Ex3.cfg1 (now Ex.w_sweep) (fs Ex.w_sweep))
       !! "logs/app-2024-01-02.log" = None.
Proof.
  assert (HR : 1 <= V1.RetainDays Ex3.cfg1 <= 106751) by (vm_compute; split; discriminate).
  pose proof ReadDir_old_disk as Hread.
  split; [exact HR|]. split; [exact Hread|].
  destruct (first_design_sweep_in_range Ex3.cfg1 (now Ex.w_sweep) (fs Ex.w_sweep)
              _ HR Hread) as (Hgone & _ & _).
  apply Hgone.
  exists "app-2024-01-02.log", "2024-01-02",
    (Time.mkTime (Time.daysFromCivil 2024 1 2 * Time.nsPerDay) 0).
  split; [apply list_elem_of_In; simpl; tauto|]. split; [reflexivity|].
  split; [reflexivity|]. split; [reflexivity|].
  split; [vm_compute; reflexivity | vm_compute; discriminate].
Defined.
